(** * MistCSS: from a stylesheet's node tree to typed component source

    A shallow embedding of [src/index.ts]: the tree reducer [visit], the
    component model builder [parseInput], the code generator [render] and
    the file driver [createFile], together with the earlier
    single-component variant that ships in the same file.

    Strings are sequences of code units; the characters the program
    inspects are all ASCII, so [string] is used throughout. *)

From Stdlib Require Import String Ascii List Bool Arith NArith Lia.
Import ListNotations.

Local Open Scope string_scope.
Local Open Scope list_scope.

(** ** String primitives of the host language *)

Module Str.

(** [s.startsWith(p)], returning what follows the prefix. *)
Fixpoint dropPrefix (p s : string) : option string :=
  match p, s with
  | EmptyString, _ => Some s
  | String a p', String b s' =>
      if Ascii.eqb a b then dropPrefix p' s' else None
  | String _ _, EmptyString => None
  end.

(** [s.endsWith(suffix)]. *)
Fixpoint endsWith (s suffix : string) : bool :=
  if String.eqb s suffix then true
  else match s with
       | EmptyString => false
       | String _ s' => endsWith s' suffix
       end.

(** [s.replace(pat, rep)] with a string pattern: only the first
    occurrence, scanning from the left, is replaced. *)
Fixpoint replaceFirst (pat rep s : string) : string :=
  match dropPrefix pat s with
  | Some rest => (rep ++ rest)%string
  | None =>
      match s with
      | EmptyString => EmptyString
      | String c s' => String c (replaceFirst pat rep s')
      end
  end.

(** Longest prefix whose characters satisfy [p], and the rest. *)
Fixpoint span (p : ascii -> bool) (s : string) : string * string :=
  match s with
  | EmptyString => (EmptyString, EmptyString)
  | String c s' =>
      if p c then let (a, b) := span p s' in (String c a, b)
      else (EmptyString, s)
  end.

Definition code (c : ascii) : nat := nat_of_ascii c.

Definition between (lo hi : nat) (c : ascii) : bool :=
  (lo <=? code c)%nat && (code c <=? hi)%nat.

(** [[a-z]] *)
Definition isLower : ascii -> bool := between 97 122.
Definition isUpper : ascii -> bool := between 65 90.
Definition isDigit : ascii -> bool := between 48 57.

(** [\w] *)
Definition isWord (c : ascii) : bool :=
  isLower c || isUpper c || isDigit c || Ascii.eqb c "_".

(** [c.toUpperCase()] for a character of [[a-z]]. *)
Definition toUpperCase (c : ascii) : ascii :=
  if isLower c then ascii_of_nat (code c - 32) else c.

(** White space removed by [trim]: TAB, LF, VT, FF, CR, SP and NBSP. *)
Definition isSpace (c : ascii) : bool :=
  between 9 13 c || (code c =? 32)%nat || (code c =? 160)%nat.

Fixpoint trimStart (s : string) : string :=
  match s with
  | String c s' => if isSpace c then trimStart s' else s
  | EmptyString => EmptyString
  end.

(** Drops trailing white space: a character is kept when something
    that is kept follows it, or when it is not white space. *)
Fixpoint trimEnd (s : string) : string :=
  match s with
  | EmptyString => EmptyString
  | String c s' =>
      match trimEnd s' with
      | EmptyString => if isSpace c then EmptyString else String c EmptyString
      | t => String c t
      end
  end.

Definition trim (s : string) : string := trimEnd (trimStart s).

(** [xs.join(sep)] *)
Definition join (sep : string) (xs : list string) : string :=
  String.concat sep xs.

(** [s.includes(t)], used to state what an output contains. *)
Fixpoint includes (s t : string) : bool :=
  match dropPrefix t s with
  | Some _ => true
  | None => match s with
            | EmptyString => false
            | String _ s' => includes s' t
            end
  end.

End Str.

(** ** The regular expressions of the program

    Each pattern is written out as the scanner it denotes.  In all of
    them a greedy class is followed by a character outside the class, so
    the only run that can lead to a match is the longest one. *)

Module Regex.
Import Str.

(** [matchAll] of a global pattern: try every position from the left;
    after a match continue behind it (an empty match advances by one). *)
Fixpoint matchAllFrom {A : Type} (execAt : string -> option (A * nat))
         (skip : nat) (s : string) : list A :=
  match s with
  | EmptyString =>
      match skip, execAt EmptyString with
      | O, Some (m, _) => [m]
      | _, _ => []
      end
  | String _ s' =>
      match skip with
      | S k => matchAllFrom execAt k s'
      | O =>
          match execAt s with
          | Some (m, len) => m :: matchAllFrom execAt (pred len) s'
          | None => matchAllFrom execAt 0 s'
          end
      end
  end.

Definition matchAll {A : Type} (execAt : string -> option (A * nat))
           (s : string) : list A :=
  matchAllFrom execAt 0 s.

(** [[a-z-]] *)
Definition isAttributeChar (c : ascii) : bool :=
  isLower c || Ascii.eqb c "-".

Definition notQuote (c : ascii) : bool := negb (Ascii.eqb c "'").

(** [enumDataAttributeRegex] at the head of [s]: the text [[data-], a
    non-empty run of [[a-z-]] (group [attribute]), the text [='], a
    run of characters other than the quote (group [value]), the text
    ['\]].  Returns the two groups and the length matched. *)
Definition enumDataAttributeRegex (s : string)
  : option ((string * string) * nat) :=
  match dropPrefix "[data-" s with
  | None => None
  | Some r1 =>
      let (attribute, r2) := span isAttributeChar r1 in
      if String.eqb attribute "" then None
      else
        match dropPrefix "='" r2 with
        | None => None
        | Some r3 =>
            let (value, r4) := span notQuote r3 in
            match dropPrefix "']" r4 with
            | None => None
            | Some _ =>
                Some ((attribute, value),
                      6 + String.length attribute + 2
                      + String.length value + 2)
            end
        end
  end.

(** [booleanDataAttributeRegex] at the head of [s]: the text [[data-],
    a non-empty run of [[a-z-]] (group [attribute]), and a closing
    bracket that is looked at but not consumed. *)
Definition booleanDataAttributeRegex (s : string) : option (string * nat) :=
  match dropPrefix "[data-" s with
  | None => None
  | Some r1 =>
      let (attribute, r2) := span isAttributeChar r1 in
      if String.eqb attribute "" then None
      else
        match r2 with
        | String "]" _ => Some (attribute, 6 + String.length attribute)
        | _ => None
        end
  end.

Definition enumMatches : string -> list (string * string) :=
  matchAll enumDataAttributeRegex.

Definition booleanMatches : string -> list string :=
  matchAll booleanDataAttributeRegex.

(** [name.replace(/(?:^|-)([a-z])/g, (_, g) => g.toUpperCase())]:
    [atStart] tells whether the head of [s] is the start of the
    subject, where the alternative [^] applies. *)
Fixpoint pascalFrom (atStart : bool) (s : string) : string :=
  match s with
  | EmptyString => EmptyString
  | String c rest =>
      if atStart && isLower c then String (toUpperCase c) (pascalFrom false rest)
      else if Ascii.eqb c "-" then
        match rest with
        | String d rest' =>
            if isLower d then String (toUpperCase d) (pascalFrom false rest')
            else String c (pascalFrom false rest)
        | EmptyString => String c EmptyString
        end
      else String c (pascalFrom false rest)
  end.

Definition toPascalCase (s : string) : string := pascalFrom true s.

(** [attribute.replace(/-([a-z])/g, (g) => g[1]?.toUpperCase() ?? '')] *)
Fixpoint toCamelCase (s : string) : string :=
  match s with
  | EmptyString => EmptyString
  | String c rest =>
      if Ascii.eqb c "-" then
        match rest with
        | String d rest' =>
            if isLower d then String (toUpperCase d) (toCamelCase rest')
            else String c (toCamelCase rest)
        | EmptyString => String c EmptyString
        end
      else String c (toCamelCase rest)
  end.

(** [/(?<tag>\w+):scope/] at the head of [s] (single-component variant). *)
Definition tagRegex (s : string) : option string :=
  let (tag, r) := span isWord s in
  if String.eqb tag "" then None
  else match dropPrefix ":scope" r with
       | Some _ => Some tag
       | None => None
       end.

(** [tagRegex.exec(input)?.groups?.['tag']]: the leftmost match. *)
Fixpoint execTag (s : string) : option string :=
  match tagRegex s with
  | Some t => Some t
  | None => match s with
            | EmptyString => None
            | String _ s' => execTag s'
            end
  end.

End Regex.

(** ** Plain objects used as records keyed by strings

    The program keeps its maps in object literals.  Two traits of such an
    object are visible to it and are kept here: the order in which own
    keys are enumerated, and the members every object literal inherits. *)

Module JsObject.
Import Str.

(** Result of a property read [o[k]]. *)
Inductive Lookup (V : Type) : Type :=
| Value (v : V)      (* a value the program stored itself *)
| Foreign            (* a truthy value it did not store (inherited) *)
| Undefined.
Arguments Value {V} v.
Arguments Foreign {V}.
Arguments Undefined {V}.

(** Members of [Object.prototype]; all but [__proto__] are functions. *)
Definition objectPrototypeKeys : list string :=
  [ "constructor"; "__defineGetter__"; "__defineSetter__";
    "hasOwnProperty"; "__lookupGetter__"; "__lookupSetter__";
    "isPrototypeOf"; "propertyIsEnumerable"; "toString"; "valueOf";
    "__proto__"; "toLocaleString" ].

Definition inherited (k : string) : bool :=
  existsb (String.eqb k) objectPrototypeKeys.

Fixpoint digitsValue (acc : N) (s : string) : option N :=
  match s with
  | EmptyString => Some acc
  | String c s' =>
      if isDigit c
      then digitsValue (acc * 10 + N.of_nat (code c - 48)) s'
      else None
  end.

(** A key is an array index when it is the canonical decimal form of
    an integer from 0 to 2^32 - 2. *)
Definition arrayIndex (k : string) : option N :=
  match k with
  | EmptyString => None
  | String c rest =>
      if Ascii.eqb c "0" && negb (String.eqb rest "") then None
      else match digitsValue 0 k with
           | Some n => if (n <=? 4294967294)%N then Some n else None
           | None => None
           end
  end.

Section Own.
Context {V : Type}.

Fixpoint lookup (k : string) (o : list (string * V)) : option V :=
  match o with
  | [] => None
  | (k', v) :: r => if String.eqb k k' then Some v else lookup k r
  end.

Fixpoint replace (k : string) (v : V) (o : list (string * V))
  : list (string * V) :=
  match o with
  | [] => []
  | (k', v') :: r =>
      if String.eqb k k' then (k', v) :: r else (k', v') :: replace k v r
  end.

(** Array indices are enumerated first, in ascending numeric order. *)
Fixpoint insertIndex (i : N) (k : string) (v : V) (o : list (string * V))
  : list (string * V) :=
  match o with
  | [] => [(k, v)]
  | (k', v') :: r =>
      match arrayIndex k' with
      | Some j => if (j <? i)%N then (k', v') :: insertIndex i k v r
                  else (k, v) :: o
      | None => (k, v) :: o
      end
  end.

(** [o[k] = v] on own properties: an existing key keeps its place,
    a new one goes to the end unless it is an array index. *)
Definition set (k : string) (v : V) (o : list (string * V))
  : list (string * V) :=
  match lookup k o with
  | Some _ => replace k v o
  | None =>
      match arrayIndex k with
      | Some i => insertIndex i k v o
      | None => o ++ [(k, v)]
      end
  end.

(** [Object.keys(o)] *)
Definition keys (o : list (string * V)) : list string := map fst o.

(** [o[k]] on an object literal whose prototype was left alone. *)
Definition get (o : list (string * V)) (k : string) : Lookup V :=
  match lookup k o with
  | Some v => Value v
  | None => if inherited k then Foreign else Undefined
  end.
End Own.

End JsObject.

(** ** Data model *)

(** [string[] | boolean]; the only boolean ever stored is [true]. *)
Inductive AttributeSpec : Type :=
| Enum (values : list string)
| Boolean.

Definition Data : Type := list (string * AttributeSpec).

Record Component : Type := mkComponent { tag : string; data : Data }.

(** The [Components] object.  Assigning to the key [__proto__] replaces
    the object's prototype instead of adding an own key, so that slot is
    part of the state. *)
Record Components : Type := mkComponents {
  protoSlot : option Component;
  own : list (string * Component)
}.

Definition noComponents : Components :=
  {| protoSlot := None; own := [] |}.

Module Comps.
Import JsObject.

(** [components[name]] *)
Definition get (components : Components) (name : string)
  : Lookup Component :=
  match lookup name (own components) with
  | Some c => Value c
  | None =>
      if String.eqb name "__proto__" then
        match protoSlot components with
        | Some p => Value p
        | None => Foreign
        end
      else if inherited name then Foreign
      else match protoSlot components with
           | Some _ =>
               if String.eqb name "tag" || String.eqb name "data"
               then Foreign else Undefined
           | None => Undefined
           end
  end.

(** [components[name] = c] *)
Definition set (name : string) (c : Component) (components : Components)
  : Components :=
  if String.eqb name "__proto__"
  then {| protoSlot := Some c; own := own components |}
  else {| protoSlot := protoSlot components;
          own := JsObject.set name c (own components) |}.

(** [Object.keys(components)] *)
Definition keys (components : Components) : list string :=
  JsObject.keys (own components).

End Comps.

(** ** Tree reducer *)

(** A node of the parser's tree.  [props] and [children] are arrays for
    rules and at-rules and plain strings for declarations and comments. *)
#[local] Unset Elimination Schemes.
Inductive Element : Type :=
| mkElement (type : string)
            (props : string + list string)
            (children : string + list Element).
#[local] Set Elimination Schemes.

(** An entry of the flattened list, [{ type, props }]. *)
Record Node : Type := mkNode { nodeType : string; nodeProps : list string }.

(** [['@scope', 'rule'].includes(type)] *)
Definition recognized (type : string) : bool :=
  String.eqb type "@scope" || String.eqb type "rule".

(** One turn of the loop of [visit]: what the node itself contributes,
    then what its children contribute. *)
Fixpoint visitNode (node : Element) : list Node :=
  match node with
  | mkElement type props children =>
      (if recognized type
       then match props with
            | inr ps => [mkNode type ps]
            | inl _ => []
            end
       else [])
      ++
      match children with
      | inr cs =>
          (fix visitAll (l : list Element) : list Node :=
             match l with
             | [] => []
             | n :: r => visitNode n ++ visitAll r
             end) cs
      | inl _ => []
      end
  end.

Fixpoint visit (nodes : list Element) : list Node :=
  match nodes with
  | [] => []
  | node :: rest => visitNode node ++ visit rest
  end.

(** ** Component model builder *)

(** How a computation of the program ends. *)
Inductive Result (A : Type) : Type :=
| Return (a : A)
| Throw (message : string)     (* [throw new Error(message)] *)
| Stray.                       (* went on with a value it never stored *)
Arguments Return {A} a.
Arguments Throw {A} message.
Arguments Stray {A}.

Definition bind {A B : Type} (r : Result A) (k : A -> Result B) : Result B :=
  match r with
  | Return a => k a
  | Throw m => Throw m
  | Stray => Stray
  end.

Module Builder.
Import Str Regex JsObject.

(** [data[k] ||= v]: stores only where the read is falsy; every stored
    value (an array, [true]) and every inherited member is truthy. *)
Definition orAssign (k : string) (v : AttributeSpec) (d : Data) : Data :=
  match JsObject.get d k with
  | Undefined => JsObject.set k v d
  | _ => d
  end.

(** Body of the loop over [enumMatches]. *)
Definition enumStep (d : Data) (m : string * string) : Data :=
  let (attribute, value) := m in
  let camelCasedAttribute := toCamelCase attribute in
  let d1 := orAssign camelCasedAttribute (Enum []) d in
  match JsObject.get d1 camelCasedAttribute with
  | Value (Enum attr) =>
      if existsb (String.eqb value) attr then d1
      else JsObject.set camelCasedAttribute (Enum (attr ++ [value])) d1
  | _ => d1
  end.

(** Body of the loop over [booleanMatches]. *)
Definition booleanStep (d : Data) (attribute : string) : Data :=
  orAssign attribute Boolean d.

Definition scanEnum (prop : string) (d : Data) : Data :=
  fold_left enumStep (enumMatches prop) d.

Definition scanBoolean (prop : string) (d : Data) : Data :=
  fold_left booleanStep (booleanMatches prop) d.

(** What a rule does to the current component. *)
Definition applyRule (prop : string) (component : Component) : Component :=
  if endsWith prop ":scope"
  then {| tag := replaceFirst ":scope" "" prop; data := data component |}
  else {| tag := tag component;
          data := scanBoolean prop (scanEnum prop (data component)) |}.

(** [name.replace('(.', '').replace(')', '')], then PascalCase. *)
Definition componentName (prop : string) : string :=
  toPascalCase (replaceFirst ")" "" (replaceFirst "(." "" prop)).

(** The map and the cursor [name] ([None] is [undefined]). *)
Definition State : Type := (Components * option string)%type.

Definition initial : State := (noComponents, None).

(** One turn of the loop of [parseInput].  The component is an object
    held by the map, so changing it changes the map entry in place. *)
Definition step (st : State) (node : Node) : Result State :=
  let (components, name) := st in
  if String.eqb (nodeType node) "@scope" then
    match nodeProps node with
    | [] => Throw "Invalid MistCSS file, no class found in @scope"
    | prop :: _ =>
        let name' := componentName prop in
        Return (Comps.set name' {| tag := ""; data := [] |} components,
                Some name')
    end
  else if String.eqb (nodeType node) "rule" then
    match nodeProps node, name with
    | prop :: _, Some n =>
        match Comps.get components n with
        | Undefined => Return st
        | Foreign => Stray
        | Value component =>
            Return (Comps.set n (applyRule prop component) components, name)
        end
    | _, _ => Return st
    end
  else Return st.

Fixpoint run (st : State) (nodes : list Node) : Result State :=
  match nodes with
  | [] => Return st
  | node :: rest => bind (step st node) (fun st' => run st' rest)
  end.

Definition parseNodes (nodes : list Node) : Result Components :=
  bind (run initial nodes) (fun st => Return (fst st)).

End Builder.

Definition scopeNode (prop : string) : Node := mkNode "@scope" [prop].
Definition ruleNode (prop : string) : Node := mkNode "rule" [prop].

(** ** Code generator *)

Module Generator.
Import Str JsObject.
Local Open Scope string_scope.

(** Line feed and double quote, which a literal here cannot hold. *)
Definition nl : string := String "010" EmptyString.
Definition dq : string := String "034" EmptyString.

Definition renderAttribute (d : Data) (attribute : string) : string :=
  match JsObject.get d attribute with
  | Value (Enum values) =>
      attribute ++ "?: "
      ++ join " | " (map (fun value => "'" ++ value ++ "'") values)
  | _ => "  " ++ attribute ++ "?: boolean"
  end.

Definition renderProps (component : Component) : string :=
  join nl (map (renderAttribute (data component)) (keys (data component))).

(** The two arrays joined inside the template of [renderComponent]. *)
Definition parameters (component : Component) : list string :=
  List.app ("children" :: keys (data component)) ["...props"].

Definition dataBinding (key : string) : string :=
  "data-" ++ key ++ "={" ++ key ++ "}".

Definition openingTag (name : string) (component : Component) : list string :=
  List.app [tag component; "{...props}"; "className=" ++ dq ++ name ++ dq]
           (map dataBinding (keys (data component))).

(** The template of [renderComponent], filled in for a component. *)
Definition componentTemplate (name : string) (component : Component) : string :=
  "type " ++ name ++ "Props = {" ++ nl
  ++ "  children?: React.ReactNode" ++ nl
  ++ "  " ++ renderProps component ++ nl
  ++ "} & JSX.IntrinsicElements['" ++ tag component ++ "']" ++ nl
  ++ nl
  ++ "export function " ++ name ++ "({ "
  ++ join ", " (parameters component)
  ++ " }: " ++ name ++ "Props) {" ++ nl
  ++ "  return (" ++ nl
  ++ "    <"
  ++ join " " (openingTag name component)
  ++ ">" ++ nl
  ++ "      {children}" ++ nl
  ++ "    </" ++ tag component ++ ">" ++ nl
  ++ "  )" ++ nl
  ++ "}" ++ nl.

Definition renderComponent (components : Components) (name : string)
  : Result string :=
  match Comps.get components name with
  | Undefined => Return ""
  | Foreign => Stray
  | Value component => Return (componentTemplate name component)
  end.

(** [keys.map(f)] for an [f] that may not end well. *)
Fixpoint mapResult {A B : Type} (f : A -> Result B) (l : list A)
  : Result (list B) :=
  match l with
  | [] => Return []
  | x :: r =>
      bind (f x) (fun y => bind (mapResult f r) (fun ys => Return (y :: ys)))
  end.

Definition banner : string := "// Generated by MistCSS, do not modify".

Definition importLine (name : string) : string :=
  "import './" ++ name ++ ".mist.css'".

Definition render (name : string) (components : Components) : Result string :=
  bind (mapResult (renderComponent components) (Comps.keys components))
       (fun definitions =>
          Return (banner ++ nl
                  ++ importLine name ++ nl
                  ++ nl
                  ++ trim (join nl definitions) ++ nl)).

End Generator.

(** ** File driver *)

(** The file system as the drivers meet it.  A path stands for a file:
    two paths name one file only when they are equal.  [contents] holds
    the text of the files by path, latest write first.  Whether a call
    fails is the system's choice, not the program's: [readError] and
    [writeError] give for a path the error that a read or a write of it
    ends with, if any (a missing directory, a directory under that
    name, a missing permission, a full disk).  A write that fails may
    have emptied or partly written the file; [writeError] gives the
    text left behind in that case. *)
Record Files : Type := mkFiles {
  contents : list (string * string);
  readError : string -> option string;
  writeError : string -> option (string * option string) }.

(** The file [filename] now holds [text]. *)
Definition store (filename text : string) (fs : Files) : Files :=
  {| contents := (filename, text) :: contents fs;
     readError := readError fs;
     writeError := writeError fs |}.

(** A step of the driver: it ends as a [Result] and leaves files behind. *)
Definition IO (A : Type) : Type := Files -> Result A * Files.

Definition ioBind {A B : Type} (m : IO A) (k : A -> IO B) : IO B :=
  fun fs => match m fs with
            | (Return a, fs') => k a fs'
            | (Throw e, fs') => (Throw e, fs')
            | (Stray, fs') => (Stray, fs')
            end.

Definition lift {A : Type} (r : Result A) : IO A := fun fs => (r, fs).

Notation "x <- m ;; k" := (ioBind m (fun x => k))
  (at level 61, m at next level, right associativity).

(** [fs.readFileSync(filename, 'utf8')]: the text of the file, or the
    error of the system; a file that is not there is such an error. *)
Definition readFileSync (filename : string) : IO string :=
  fun fs =>
    match readError fs filename with
    | Some e => (Throw e, fs)
    | None =>
        match JsObject.lookup filename (contents fs) with
        | Some text => (Return text, fs)
        | None =>
            (Throw ("ENOENT: no such file or directory, open '"
                    ++ filename ++ "'")%string, fs)
        end
    end.

(** [fs.writeFileSync(filename, text)]: the file holds the text
    afterwards, or the call ends with the error of the system. *)
Definition writeFileSync (filename text : string) : IO unit :=
  fun fs =>
    match writeError fs filename with
    | None => (Return tt, store filename text fs)
    | Some (e, None) => (Throw e, fs)
    | Some (e, Some remains) => (Throw e, store filename remains fs)
    end.

Section Driver.

(** The tokenizer and [path.basename] come from libraries. *)
Variable compile : string -> list Element.
Variable basename : string -> string -> string.

Definition parseInput (input : string) : Result Components :=
  Builder.parseNodes (visit (compile input)).

Definition createFile (filename : string) : IO unit :=
  data <- readFileSync filename ;;
  parsedInput <- lift (parseInput data) ;;
  let name := basename filename ".mist.css" in
  data' <- lift (Generator.render name parsedInput) ;;
  writeFileSync (Str.replaceFirst ".css" ".tsx" filename) data'.

End Driver.

(** ** The single-component variant *)

Module Single.
Import Str JsObject.
Local Open Scope string_scope.

Record ParsedInput : Type := mkParsedInput { tag : string; data : Data }.

(** The two attribute patterns of this variant use lazy and optional
    parts, so a match is found by trying the alternatives in the order
    the pattern gives them.  Each part takes what it consumed so far,
    the text left, and the parts that follow as a continuation. *)

(** [p*]: the longest run first, then shorter ones. *)
Fixpoint greedyStar {R : Type} (p : ascii -> bool)
         (k : string -> string -> option R) (taken s : string) : option R :=
  match s with
  | String c s' =>
      if p c
      then match greedyStar p k (taken ++ String c EmptyString)%string s' with
           | Some r => Some r
           | None => k taken s
           end
      else k taken s
  | EmptyString => k taken s
  end.

(** [p*?]: the shortest run first, then longer ones. *)
Fixpoint lazyStar {R : Type} (p : ascii -> bool)
         (k : string -> string -> option R) (taken s : string) : option R :=
  match k taken s with
  | Some r => Some r
  | None =>
      match s with
      | String c s' =>
          if p c then lazyStar p k (taken ++ String c EmptyString)%string s'
          else None
      | EmptyString => None
      end
  end.

(** [p?]: with the character first, then without. *)
Definition optional {R : Type} (p : ascii -> bool)
           (k : string -> option R) (s : string) : option R :=
  match s with
  | String c s' =>
      if p c then match k s' with
                  | Some r => Some r
                  | None => k s
                  end
      else k s
  | EmptyString => k s
  end.

(** A literal text. *)
Definition literal {R : Type} (t : string) (k : string -> option R)
           (s : string) : option R :=
  match dropPrefix t s with
  | Some rest => k rest
  | None => None
  end.

(** [.]: any character but a line terminator. *)
Definition isDot (c : ascii) : bool :=
  negb ((code c =? 10)%nat || (code c =? 13)%nat).

Definition isQuote (c : ascii) : bool :=
  Ascii.eqb c "034" || Ascii.eqb c "'".

Definition matched (s rest : string) : nat :=
  String.length s - String.length rest.

(** [enumDataAttributeRegex] of this variant at the head of [s]: an
    opening bracket, white space, [data-], a lazy run of any characters
    (group [attribute]), white space, the equals sign, white space, an
    optional quote, a lazy run of any characters (group [value]), an
    optional quote, white space, a closing bracket. *)
Definition enumDataAttributeRegex (s : string)
  : option ((string * string) * nat) :=
  literal "[" (fun r0 =>
  greedyStar isSpace (fun _ =>
  literal "data-" (fun r1 =>
  lazyStar isDot (fun attribute =>
  greedyStar isSpace (fun _ =>
  literal "=" (fun r2 =>
  greedyStar isSpace (fun _ =>
  optional isQuote (fun r3 =>
  lazyStar isDot (fun value =>
  optional isQuote (fun r4 =>
  greedyStar isSpace (fun _ =>
  literal "]" (fun rest =>
  Some ((attribute, value), matched s rest)))
  EmptyString r4))
  EmptyString r3))
  EmptyString r2))
  EmptyString)
  EmptyString r1))
  EmptyString r0) s.

(** [booleanDataAttributeRegex] of this variant at the head of [s]: an
    opening bracket, white space, [data-], one character and a run of
    word characters (group [attribute]), white space, a closing
    bracket. *)
Definition booleanDataAttributeRegex (s : string) : option (string * nat) :=
  literal "[" (fun r0 =>
  greedyStar isSpace (fun _ =>
  literal "data-" (fun r1 =>
  match r1 with
  | String c r2 =>
      if isDot c
      then greedyStar isWord (fun attribute =>
           greedyStar isSpace (fun _ =>
           literal "]" (fun rest =>
           Some (attribute, matched s rest)))
           EmptyString)
           (String c EmptyString) r2
      else None
  | EmptyString => None
  end))
  EmptyString r0) s.

Definition enumMatches : string -> list (string * string) :=
  Regex.matchAll enumDataAttributeRegex.

Definition booleanMatches : string -> list string :=
  Regex.matchAll booleanDataAttributeRegex.

Definition enumStep (d : Data) (m : string * string) : Data :=
  let (attribute, value) := m in
  let d1 := Builder.orAssign attribute (Enum []) d in
  match JsObject.get d1 attribute with
  | Value (Enum attr) =>
      if existsb (String.eqb value) attr then d1
      else JsObject.set attribute (Enum (List.app attr [value])) d1
  | _ => d1
  end.

Definition parseInput (input : string) : Result ParsedInput :=
  match Regex.execTag input with
  | None => Throw "Could not parse tag"
  | Some t =>
      Return {| tag := t;
                data := fold_left Builder.booleanStep (booleanMatches input)
                          (fold_left enumStep (enumMatches input) []) |}
  end.

Definition renderAttribute (d : Data) (attribute : string) : string :=
  match JsObject.get d attribute with
  | Value (Enum values) =>
      attribute ++ ": "
      ++ join " | " (map (fun value => "'" ++ value ++ "'") values)
  | _ => "  " ++ attribute ++ ": boolean"
  end.

Definition renderProps (parsedInput : ParsedInput) : string :=
  join Generator.nl
       (map (renderAttribute (data parsedInput)) (keys (data parsedInput))).

Definition render (name : string) (parsedInput : ParsedInput) : string :=
  let nl := Generator.nl in
  Generator.banner ++ nl
  ++ Generator.importLine name ++ nl
  ++ nl
  ++ "type Props = {" ++ nl
  ++ "  children: React.ReactNode" ++ nl
  ++ "  " ++ renderProps parsedInput ++ nl
  ++ "}" ++ nl
  ++ nl
  ++ "export function " ++ name ++ "({ children, "
  ++ join ", " (keys (data parsedInput)) ++ ", ...props }: Props) {" ++ nl
  ++ "  return (" ++ nl
  ++ "    <" ++ tag parsedInput ++ " {...props} "
  ++ join " " (map Generator.dataBinding (keys (data parsedInput)))
  ++ ">" ++ nl
  ++ "      {children}" ++ nl
  ++ "    </" ++ tag parsedInput ++ ">" ++ nl
  ++ "  )" ++ nl
  ++ "}" ++ nl.

Section FileDriver.

Variable basename : string -> string -> string.

Definition genFile (filename : string) : IO unit :=
  data <- readFileSync filename ;;
  parsedInput <- lift (parseInput data) ;;
  let name := basename filename ".mist.css" in
  writeFileSync (filename ++ ".tsx") (render name parsedInput).

End FileDriver.
End Single.

(** ** Notions used to state the properties *)

(** Every node of a forest: a node before its children, siblings from
    left to right. *)
Fixpoint preorderNode (node : Element) : list Element :=
  match node with
  | mkElement _ _ children =>
      node ::
      match children with
      | inr cs =>
          (fix preorderAll (l : list Element) : list Element :=
             match l with
             | [] => []
             | n :: r => preorderNode n ++ preorderAll r
             end) cs
      | inl _ => []
      end
  end.

Fixpoint preorder (nodes : list Element) : list Element :=
  match nodes with
  | [] => []
  | node :: rest => preorderNode node ++ preorder rest
  end.

(** A node is kept when its type is recognized and its props are an
    array; the array may be empty. *)
Definition kept (node : Element) : list Node :=
  match node with
  | mkElement type (inr ps) _ => if recognized type then [mkNode type ps] else []
  | _ => []
  end.

(** The reading under which the props array must also hold an element. *)
Definition keptNonEmpty (node : Element) : list Node :=
  match node with
  | mkElement type (inr (p :: ps)) _ =>
      if recognized type then [mkNode type (p :: ps)] else []
  | _ => []
  end.

(** A scope written without a class, the tree of [@scope { div:scope {} }]. *)
Definition bareScopeForest : list Element :=
  [ mkElement "@scope" (inr [])
      (inr [ mkElement "rule" (inr ["div:scope"]) (inr []) ]) ].

(** The component a scope declaration registers. *)
Definition freshComponent : Component := {| tag := ""; data := [] |}.

(** A scope node with no first prop. *)
Definition scopeWithoutProp (node : Node) : bool :=
  String.eqb (nodeType node) "@scope"
  && match nodeProps node with [] => true | _ :: _ => false end.

(** [n] names a registered component: [components[n]] finds one. *)
Definition registered (components : Components) (n : string) : Prop :=
  exists component, Comps.get components n = JsObject.Value component.

(** What holds of the builder's state between two nodes: [__proto__] is
    never an own key, and a cursor that is set names a registered
    component. *)
Definition cursorInvariant (st : Builder.State) : Prop :=
  JsObject.lookup "__proto__" (own (fst st)) = None
  /\ forall n, snd st = Some n -> registered (fst st) n.

(** The input holds a tag binding: a word character directly followed
    by the text [:scope]. *)
Definition hasTagBinding (input : string) : Prop :=
  exists pre w post,
    input = (pre ++ String w (":scope" ++ post))%string
    /\ Str.isWord w = true.

Fixpoint allChars (p : ascii -> bool) (s : string) : bool :=
  match s with
  | EmptyString => true
  | String c s' => p c && allChars p s'
  end.

(** The line of the prop type that an entry of [data] stands for. *)
Definition attributeLine (entry : string * AttributeSpec) : string :=
  match snd entry with
  | Enum values =>
      (fst entry ++ "?: "
       ++ Str.join " | " (map (fun value => "'" ++ value ++ "'") values))%string
  | Boolean => ("  " ++ fst entry ++ "?: boolean")%string
  end.

(** Keys of an object are distinct; a list of entries stands for an
    object only under that condition. *)
Definition wellKeyed (components : Components) : Prop :=
  NoDup (Comps.keys components)
  /\ forall k c, In (k, c) (own components) -> NoDup (JsObject.keys (data c)).

(** The component of the end-to-end example. *)
Definition cardComponents : Components :=
  {| protoSlot := None;
     own := [("Card", {| tag := "button";
                         data := [("size", Enum ["sm"; "lg"]);
                                  ("disabled", Boolean)] |})] |}.

(** The generated text, written out as it stands in the file.  A prop
    line of an entry: the name as an optional prop, with the union of
    the quoted values for an Enum and [boolean] for a Boolean; the Enum
    line comes without the two blanks that open the Boolean line. *)
Definition propLine (entry : string * AttributeSpec) : string :=
  match snd entry with
  | Enum values =>
      (fst entry ++ "?: "
       ++ String.concat " | " (map (fun value => "'" ++ value ++ "'") values))%string
  | Boolean => ("  " ++ fst entry ++ "?: boolean")%string
  end.

(** The definition of the component of an entry, up to the line feed
    that ends it: the prop type, then the function. *)
Definition definitionText (entry : string * Component) : string :=
  let name := fst entry in
  let component := snd entry in
  let attributes := map fst (data component) in
  ("type " ++ name ++ "Props = {
  children?: React.ReactNode
  " ++ String.concat "
" (map propLine (data component)) ++ "
} & JSX.IntrinsicElements['" ++ tag component ++ "']

export function " ++ name ++ "({ "
   ++ String.concat ", " ("children" :: attributes ++ ["...props"])
   ++ " }: " ++ name ++ "Props) {
  return (
    <"
   ++ String.concat " "
        (tag component :: "{...props}"
         :: ("className=" ++ String "034" (name ++ String "034" EmptyString))
         :: map (fun key => "data-" ++ key ++ "={" ++ key ++ "}") attributes)
   ++ ">
      {children}
    </" ++ tag component ++ ">
  )
}")%string.

(** [y !== x] *)
Definition differs (x : string) : string -> bool :=
  fun y => negb (String.eqb y x).

(** The values of a list in the order of their first occurrence. *)
Fixpoint dedup (l : list string) : list string :=
  match l with
  | [] => []
  | x :: r => x :: filter (differs x) (dedup r)
  end.

(** [attr.includes(value) || attr.push(value)] *)
Definition appendNew (l : list string) (v : string) : list string :=
  if existsb (String.eqb v) l then l else l ++ [v].

(** The values that the enum matchers of a selector give for the data
    key [k], in the order of the matchers. *)
Definition valuesFor (k : string) (ms : list (string * string)) : list string :=
  map snd (filter (fun m => String.eqb (Regex.toCamelCase (fst m)) k) ms).

(** Every Enum list that a read of [d] can find is duplicate-free. *)
Definition enumsNoDup (d : Data) : Prop :=
  forall k l, JsObject.lookup k d = Some (Enum l) -> NoDup l.

Definition enumsDistinct (components : Components) : Prop :=
  (forall k c, JsObject.lookup k (own components) = Some c ->
               enumsNoDup (data c))
  /\ (forall p, protoSlot components = Some p -> enumsNoDup (data p)).

(** The component names declared by the scope nodes of a list, in the
    order of the declarations. *)
Definition scopeNames (nodes : list Node) : list string :=
  flat_map (fun node =>
              if String.eqb (nodeType node) "@scope"
              then match nodeProps node with
                   | prop :: _ => [Builder.componentName prop]
                   | [] => []
                   end
              else []) nodes.

(** A key that an object keeps in insertion order as an own key. *)
Definition plainKey (k : string) : Prop :=
  k <> "__proto__" /\ JsObject.arrayIndex k = None.

(** [word] with its first letter in upper case. *)
Definition capitalize (word : string) : string :=
  match word with
  | EmptyString => EmptyString
  | String c rest => String (Str.toUpperCase c) rest
  end.

(** A non-empty word of lower-case letters; kebab-case is such words
    joined by single hyphens. *)
Definition lowerWord (word : string) : Prop :=
  word <> EmptyString /\ allChars Str.isLower word = true.


(** ** Notions used for the further properties *)

(** What a run of rule nodes does to the component the cursor names:
    each rule with a first prop is applied in turn. *)
Definition applyRules (rules : list Node) (component : Component) : Component :=
  fold_left (fun c rule =>
               match nodeProps rule with
               | prop :: _ => Builder.applyRule prop c
               | [] => c
               end) rules component.

(** A rule node that is no tag binding. *)
Definition noTagBinding (rule : Node) : Prop :=
  match nodeProps rule with
  | prop :: _ => Str.endsWith prop ":scope" = false
  | [] => True
  end.

(** The head of a text is a lower-case letter. *)
Definition startsLower (s : string) : bool :=
  match s with
  | String c _ => Str.isLower c
  | EmptyString => false
  end.

(** The text holds a hyphen directly followed by a lower-case letter. *)
Fixpoint hasHyphenLower (s : string) : bool :=
  match s with
  | String c rest =>
      (Ascii.eqb c "-" && startsLower rest) || hasHyphenLower rest
  | EmptyString => false
  end.

(** The last character of a text, if any, is no word character. *)
Fixpoint endsOutsideWord (s : string) : bool :=
  match s with
  | EmptyString => true
  | String c EmptyString => negb (Str.isWord c)
  | String _ rest => endsOutsideWord rest
  end.

(** Every Enum list that a read of [d] can find holds a value, and its
    values hold no quote. *)
Definition enumsWellFormed (d : Data) : Prop :=
  forall k l,
    JsObject.lookup k d = Some (Enum l) ->
    l <> [] /\ Forall (fun v => allChars Regex.notQuote v = true) l.

Definition componentsWellFormed (components : Components) : Prop :=
  (forall k c, JsObject.lookup k (own components) = Some c ->
               enumsWellFormed (data c))
  /\ (forall p, protoSlot components = Some p -> enumsWellFormed (data p)).

(** The value is accounted for under its key: listed in an Enum, or
    the entry is Boolean, or the key is inherited and holds nothing. *)
Definition settled (k v : string) (d : Data) : Prop :=
  match JsObject.lookup k d with
  | Some (Enum l) => In v l
  | Some Boolean => True
  | None => JsObject.inherited k = true
  end.

(** The bare attribute is accounted for: an entry exists under it, or it
    is inherited and holds nothing. *)
Definition settledBoolean (n : string) (d : Data) : Prop :=
  JsObject.lookup n d <> None \/ JsObject.inherited n = true.

(** The values that the enum matches give for the key [k] when keys are
    stored as matched (single-component variant). *)
Definition rawValuesFor (k : string) (ms : list (string * string))
  : list string :=
  map snd (filter (fun m => String.eqb (fst m) k) ms).

(** An attribute matcher: a name, and a value unless it is bare. *)
Definition Matcher : Type := (string * option string)%type.

Definition matcherText (m : Matcher) : string :=
  match m with
  | (attribute, Some value) =>
      ("[data-" ++ attribute ++ "='" ++ value ++ "']")%string
  | (attribute, None) => ("[data-" ++ attribute ++ "]")%string
  end.

(** A selector: a leading text and attribute matchers one after the
    other. *)
Definition selectorOf (lead : string) (ms : list Matcher) : string :=
  (lead ++ String.concat EmptyString (map matcherText ms))%string.

Definition enumsOf (ms : list Matcher) : list (string * string) :=
  flat_map (fun m => match m with
                     | (a, Some v) => [(a, v)]
                     | (_, None) => []
                     end) ms.

Definition booleansOf (ms : list Matcher) : list string :=
  flat_map (fun m => match m with
                     | (a, None) => [a]
                     | (_, Some _) => []
                     end) ms.

Definition notBracket (c : ascii) : bool := negb (Ascii.eqb c "[").

(** A matcher the patterns can read: the name a non-empty run of
    lower-case letters and hyphens, the value free of quotes and of
    opening brackets. *)
Definition readable (m : Matcher) : Prop :=
  fst m <> EmptyString
  /\ allChars Regex.isAttributeChar (fst m) = true
  /\ match snd m with
     | Some v => allChars Regex.notQuote v = true
                 /\ allChars notBracket v = true
     | None => True
     end.
(** * Properties *)

(** ** The model on the examples of the documentation *)

Example enum_scan_ex :
  Regex.enumMatches "[data-variant='a'] x[data-is-on='b'][data-variant='a']"
  = [("variant", "a"); ("is-on", "b"); ("variant", "a")].
Proof. reflexivity. Qed.

Example boolean_scan_ex :
  Regex.booleanMatches "[data-size='sm'][data-disabled]a[data-x-y]"
  = ["disabled"; "x-y"].
Proof. reflexivity. Qed.

Example pascal_ex :
  Regex.toPascalCase "my-button" = "MyButton"
  /\ Regex.toPascalCase "button--primary" = "Button-Primary"
  /\ Regex.toCamelCase "is-active" = "isActive".
Proof. repeat split; reflexivity. Qed.

Example strings_ex :
  Str.replaceFirst ")" "" (Str.replaceFirst "(." "" "(.card)") = "card"
  /\ Str.endsWith "button:scope" ":scope" = true
  /\ Str.trim (String "010" " a b  ") = "a b"
  /\ Regex.execTag "x { } div:scope { }" = Some "div".
Proof. repeat split; reflexivity. Qed.

Example card_ex :
  Builder.parseNodes
    [ scopeNode "(.card)"; ruleNode "button:scope";
      ruleNode "&[data-size='sm']"; ruleNode "&[data-size='lg']";
      ruleNode "&[data-disabled]" ]
  = Return {| protoSlot := None;
              own := [("Card", {| tag := "button";
                                  data := [("size", Enum ["sm"; "lg"]);
                                           ("disabled", Boolean)] |})] |}.
Proof. reflexivity. Qed.


(** ** Own properties of an object *)

Section OwnFacts.
Context {V : Type}.
Implicit Types (o : list (string * V)) (k : string) (v : V).

Lemma lookup_replace_same k v o :
  JsObject.lookup k (JsObject.replace k v o)
  = match JsObject.lookup k o with Some _ => Some v | None => None end.
Proof.
  induction o as [|[k' v'] r IH]; simpl; [reflexivity|].
  destruct (String.eqb k k') eqn:E; simpl; rewrite E; auto.
Qed.

Lemma lookup_replace_other k k' v o :
  k' <> k ->
  JsObject.lookup k' (JsObject.replace k v o) = JsObject.lookup k' o.
Proof.
  intros Hne. induction o as [|[k0 v0] r IH]; simpl; [reflexivity|].
  destruct (String.eqb k k0) eqn:E; simpl.
  - apply String.eqb_eq in E. subst k0.
    destruct (String.eqb k' k) eqn:E'; [|reflexivity].
    apply String.eqb_eq in E'. contradiction.
  - destruct (String.eqb k' k0); auto.
Qed.

Lemma keys_replace k v o :
  JsObject.keys (JsObject.replace k v o) = JsObject.keys o.
Proof.
  unfold JsObject.keys.
  induction o as [|[k' v'] r IH]; simpl; [reflexivity|].
  destruct (String.eqb k k'); simpl; [reflexivity|].
  now rewrite IH.
Qed.

Lemma lookup_insertIndex_same i k v o :
  JsObject.lookup k o = None ->
  JsObject.lookup k (JsObject.insertIndex i k v o) = Some v.
Proof.
  induction o as [|[k' v'] r IH]; simpl; intros Hn.
  - now rewrite String.eqb_refl.
  - destruct (String.eqb k k') eqn:E; [discriminate|].
    destruct (JsObject.arrayIndex k') as [j|];
      [destruct (j <? i)%N|]; simpl; rewrite ?E, ?String.eqb_refl; auto.
Qed.

Lemma lookup_insertIndex_other i k k' v o :
  k' <> k ->
  JsObject.lookup k' (JsObject.insertIndex i k v o) = JsObject.lookup k' o.
Proof.
  intros Hne.
  assert (Hk : String.eqb k' k = false) by now apply String.eqb_neq.
  induction o as [|[k0 v0] r IH]; simpl.
  - now rewrite Hk.
  - destruct (JsObject.arrayIndex k0) as [j|];
      [destruct (j <? i)%N|]; simpl; rewrite ?Hk, ?IH; reflexivity.
Qed.

Lemma lookup_app_new k k' v o :
  JsObject.lookup k' (o ++ [(k, v)])
  = match JsObject.lookup k' o with
    | Some x => Some x
    | None => if String.eqb k' k then Some v else None
    end.
Proof.
  induction o as [|[k0 v0] r IH]; simpl; [reflexivity|].
  destruct (String.eqb k' k0); auto.
Qed.

Lemma lookup_set_same k v o :
  JsObject.lookup k (JsObject.set k v o) = Some v.
Proof.
  unfold JsObject.set.
  destruct (JsObject.lookup k o) eqn:E.
  - rewrite lookup_replace_same, E. reflexivity.
  - destruct (JsObject.arrayIndex k).
    + now apply lookup_insertIndex_same.
    + rewrite lookup_app_new, E, String.eqb_refl. reflexivity.
Qed.

Lemma lookup_set_other k k' v o :
  k' <> k ->
  JsObject.lookup k' (JsObject.set k v o) = JsObject.lookup k' o.
Proof.
  intros Hne. unfold JsObject.set.
  destruct (JsObject.lookup k o) eqn:E.
  - now apply lookup_replace_other.
  - destruct (JsObject.arrayIndex k).
    + now apply lookup_insertIndex_other.
    + rewrite lookup_app_new.
      apply String.eqb_neq in Hne. rewrite Hne.
      destruct (JsObject.lookup k' o); reflexivity.
Qed.

Lemma keys_set_present k v o :
  JsObject.lookup k o <> None ->
  JsObject.keys (JsObject.set k v o) = JsObject.keys o.
Proof.
  intros H. unfold JsObject.set.
  destruct (JsObject.lookup k o); [apply keys_replace | contradiction].
Qed.

Lemma keys_set_absent k v o :
  JsObject.lookup k o = None ->
  JsObject.arrayIndex k = None ->
  JsObject.keys (JsObject.set k v o) = JsObject.keys o ++ [k].
Proof.
  intros H Hi. unfold JsObject.set. rewrite H, Hi.
  unfold JsObject.keys. rewrite map_app. reflexivity.
Qed.

Lemma lookup_None_keys k o :
  JsObject.lookup k o = None <-> ~ In k (JsObject.keys o).
Proof.
  induction o as [|[k' v'] r IH]; simpl.
  - tauto.
  - destruct (String.eqb k k') eqn:E.
    + apply String.eqb_eq in E. subst. split; [discriminate | tauto].
    + apply String.eqb_neq in E. rewrite IH. unfold JsObject.keys.
      split; intros H; [intros [H1|H1]; [congruence | tauto] | tauto].
Qed.

Lemma lookup_In k v o :
  JsObject.lookup k o = Some v -> In (k, v) o.
Proof.
  induction o as [|[k' v'] r IH]; simpl; [discriminate|].
  destruct (String.eqb k k') eqn:E.
  - apply String.eqb_eq in E. intros [= ->]. subst. now left.
  - auto.
Qed.

End OwnFacts.

(** ** Tree reducer *)

Section ElementInduction.
Variable P : Element -> Prop.
Hypothesis leaf : forall t p s, P (mkElement t p (inl s)).
Hypothesis branch : forall t p cs, Forall P cs -> P (mkElement t p (inr cs)).

Fixpoint Element_forest_ind (node : Element) : P node :=
  match node with
  | mkElement t p (inl s) => leaf t p s
  | mkElement t p (inr cs) =>
      branch t p cs
        ((fix all (l : list Element) : Forall P l :=
            match l with
            | [] => Forall_nil P
            | n :: r => Forall_cons n (Element_forest_ind n) (all r)
            end) cs)
  end.
End ElementInduction.

Lemma visitNode_children type props cs :
  visitNode (mkElement type props (inr cs))
  = kept (mkElement type props (inr cs)) ++ visit cs.
Proof.
  assert (H : forall l,
             (fix visitAll (l : list Element) : list Node :=
                match l with
                | [] => []
                | n :: r => visitNode n ++ visitAll r
                end) l = visit l).
  { induction l as [|n r IH]; simpl; [reflexivity | now rewrite IH]. }
  simpl. rewrite H.
  destruct props, (recognized type); reflexivity.
Qed.

Lemma preorderNode_children type props cs :
  preorderNode (mkElement type props (inr cs))
  = mkElement type props (inr cs) :: preorder cs.
Proof.
  assert (H : forall l,
             (fix preorderAll (l : list Element) : list Element :=
                match l with
                | [] => []
                | n :: r => preorderNode n ++ preorderAll r
                end) l = preorder l).
  { induction l as [|n r IH]; simpl; [reflexivity | now rewrite IH]. }
  simpl. now rewrite H.
Qed.

Lemma visitNode_preorder node :
  visitNode node = flat_map kept (preorderNode node).
Proof.
  induction node as [t p s | t p cs IH] using Element_forest_ind.
  - simpl. destruct p, (recognized t); reflexivity.
  - rewrite visitNode_children, preorderNode_children.
    change (flat_map kept (?x :: ?l)) with (kept x ++ flat_map kept l).
    f_equal.
    induction IH as [|n r Hn _ IHr]; simpl; [reflexivity|].
    rewrite flat_map_app, Hn, IHr. reflexivity.
Qed.

(** C5, as amended.  [visit] returns, in pre-order (a node before its
    children, siblings from left to right), exactly the [{type, props}]
    pairs of the nodes whose type is ['@scope'] or ['rule'] and whose
    props are an array, empty or not; every node's children are walked,
    whether or not the node itself is kept. *)
Theorem visit_is_filtered_preorder (nodes : list Element) :
  visit nodes = flat_map kept (preorder nodes).
Proof.
  induction nodes as [|n r IH]; simpl; [reflexivity|].
  rewrite flat_map_app, visitNode_preorder, IH. reflexivity.
Qed.

(** C5, counterexample.  A scope node whose props array is empty is kept
    by [visit], so the flattened list is not made of nodes with a
    non-empty props list only. *)
Lemma visit_keeps_empty_props :
  visit bareScopeForest = [mkNode "@scope" []; mkNode "rule" ["div:scope"]]
  /\ flat_map keptNonEmpty (preorder bareScopeForest)
     = [mkNode "rule" ["div:scope"]]
  /\ visit bareScopeForest <> flat_map keptNonEmpty (preorder bareScopeForest).
Proof.
  repeat split; try reflexivity. discriminate.
Qed.

(** ** The builder's cursor *)

Lemma bind_Return {A B : Type} (r : Result A) (k : A -> Result B) (b : B) :
  bind r k = Return b -> exists a, r = Return a /\ k a = Return b.
Proof.
  destruct r; simpl; intros H; try discriminate. eauto.
Qed.

Lemma run_app st (xs ys : list Node) :
  Builder.run st (xs ++ ys)
  = bind (Builder.run st xs) (fun st' => Builder.run st' ys).
Proof.
  revert st. induction xs as [|x r IH]; intros st; simpl; [reflexivity|].
  destruct (Builder.step st x); simpl; auto.
Qed.

Lemma Comps_set_own_proto n c components :
  JsObject.lookup "__proto__" (own components) = None ->
  JsObject.lookup "__proto__" (own (Comps.set n c components)) = None.
Proof.
  intros H. unfold Comps.set.
  destruct (String.eqb n "__proto__") eqn:E; simpl; [assumption|].
  apply String.eqb_neq in E.
  rewrite lookup_set_other; [assumption | congruence].
Qed.

Lemma Comps_get_set_same n c components :
  JsObject.lookup "__proto__" (own components) = None ->
  Comps.get (Comps.set n c components) n = JsObject.Value c.
Proof.
  intros H. unfold Comps.set, Comps.get.
  destruct (String.eqb n "__proto__") eqn:E; simpl.
  - apply String.eqb_eq in E. subst n. rewrite H. reflexivity.
  - rewrite lookup_set_same. reflexivity.
Qed.

Lemma initial_invariant : cursorInvariant Builder.initial.
Proof. split; [reflexivity | discriminate]. Qed.

Lemma step_invariant st node st' :
  cursorInvariant st -> Builder.step st node = Return st' ->
  cursorInvariant st'.
Proof.
  destruct st as [components name]. intros [Hp Hc]. simpl in Hp, Hc.
  unfold Builder.step.
  destruct (String.eqb (nodeType node) "@scope").
  - destruct (nodeProps node) as [|prop ps]; [discriminate|].
    intros [= <-]. split; simpl.
    + now apply Comps_set_own_proto.
    + intros n [= <-]. eexists. now apply Comps_get_set_same.
  - destruct (String.eqb (nodeType node) "rule").
    + destruct (nodeProps node) as [|prop ps];
        [intros [= <-]; now split|].
      destruct name as [n|]; [|intros [= <-]; now split].
      destruct (Comps.get components n) as [component| |];
        [|discriminate|intros [= <-]; now split].
      intros [= <-]. split; simpl.
      * now apply Comps_set_own_proto.
      * intros n' [= <-]. eexists. now apply Comps_get_set_same.
    + intros [= <-]. now split.
Qed.

Lemma run_invariant nodes st st' :
  cursorInvariant st -> Builder.run st nodes = Return st' ->
  cursorInvariant st'.
Proof.
  revert st. induction nodes as [|node rest IH]; intros st Hi; simpl.
  - now intros [= <-].
  - intros H. apply bind_Return in H as (st1 & H1 & H2).
    eauto using step_invariant.
Qed.

(** On the states the builder reaches, a node either raises the error
    of a scope without class or yields the next state. *)
Lemma step_outcome st node :
  cursorInvariant st ->
  if scopeWithoutProp node
  then Builder.step st node
       = Throw "Invalid MistCSS file, no class found in @scope"
  else exists st', Builder.step st node = Return st'.
Proof.
  destruct st as [components name]. intros [Hp Hc]. simpl in Hc.
  unfold scopeWithoutProp, Builder.step.
  destruct (String.eqb (nodeType node) "@scope"); simpl.
  - destruct (nodeProps node); [reflexivity | eauto].
  - destruct (String.eqb (nodeType node) "rule"); [|eauto].
    destruct (nodeProps node); [eauto|].
    destruct name as [n|]; [|eauto].
    destruct (Hc n eq_refl) as [component ->]. eauto.
Qed.

Lemma run_outcome nodes st :
  cursorInvariant st ->
  if existsb scopeWithoutProp nodes
  then Builder.run st nodes
       = Throw "Invalid MistCSS file, no class found in @scope"
  else exists st', Builder.run st nodes = Return st'.
Proof.
  revert st. induction nodes as [|node rest IH]; intros st Hi; simpl.
  - eauto.
  - pose proof (step_outcome st node Hi) as Hs.
    destruct (scopeWithoutProp node); simpl.
    + now rewrite Hs.
    + destruct Hs as [st1 Hs]. rewrite Hs. simpl.
      apply IH. eauto using step_invariant.
Qed.





(** ** Rules that are skipped *)

(** C8.  A rule node met while the cursor is unset, or carrying no first
    prop, leaves the state as it is and raises nothing; in particular
    the rules that precede the first scope declaration have no effect
    on the run. *)
Theorem rule_without_cursor_or_prop_skipped
  (st : Builder.State) (node : Node) (rules rest : list Node)
  (Hrule : nodeType node = "rule")
  (Hskip : snd st = None \/ nodeProps node = [])
  (Hrules : Forall (fun r => nodeType r = "rule") rules) :
  Builder.step st node = Return st
  /\ Builder.run Builder.initial (rules ++ rest)
     = Builder.run Builder.initial rest.
Proof.
  split.
  - destruct st as [components name]. unfold Builder.step.
    rewrite Hrule. simpl.
    destruct Hskip as [Hn | Hp]; simpl in *.
    + subst name. destruct (nodeProps node); reflexivity.
    + rewrite Hp. reflexivity.
  - rewrite run_app.
    assert (H : Builder.run Builder.initial rules = Return Builder.initial).
    { induction Hrules as [|r l Hr _ IH]; simpl; [reflexivity|].
      unfold Builder.step, Builder.initial. rewrite Hr. simpl.
      destruct (nodeProps r); simpl; exact IH. }
    rewrite H. reflexivity.
Qed.

Lemma rule_without_cursor_or_prop_skipped_witness :
  Builder.step Builder.initial (ruleNode "[data-size='sm']")
  = Return Builder.initial
  /\ Builder.parseNodes [ruleNode "[data-size='sm']"; scopeNode "(.card)"]
     = Builder.parseNodes [scopeNode "(.card)"].
Proof.
  pose proof (rule_without_cursor_or_prop_skipped
                Builder.initial (ruleNode "[data-size='sm']")
                [ruleNode "[data-size='sm']"] [scopeNode "(.card)"]
                eq_refl (or_introl eq_refl)
                (Forall_cons (P := fun r => nodeType r = "rule")
                   (ruleNode "[data-size='sm']") eq_refl (Forall_nil _)))
    as [H1 H2].
  split; [exact H1|].
  unfold Builder.parseNodes.
  change [ruleNode "[data-size='sm']"; scopeNode "(.card)"]
    with ([ruleNode "[data-size='sm']"] ++ [scopeNode "(.card)"]).
  rewrite H2. reflexivity.
Defined.

(** ** Strings and patterns *)

Lemma dropPrefix_Some p s r :
  Str.dropPrefix p s = Some r -> s = (p ++ r)%string.
Proof.
  revert s. induction p as [|a p IH]; intros s; simpl.
  - now intros [= ->].
  - destruct s as [|b s]; [discriminate|].
    destruct (Ascii.eqb a b) eqn:E; [|discriminate].
    apply Ascii.eqb_eq in E. subst b. intros H. now rewrite (IH _ H).
Qed.

Lemma dropPrefix_app p r : Str.dropPrefix p (p ++ r)%string = Some r.
Proof.
  induction p as [|a p IH]; simpl; [reflexivity|].
  now rewrite Ascii.eqb_refl.
Qed.

Lemma span_spec p s a b :
  Str.span p s = (a, b) ->
  s = (a ++ b)%string /\ allChars p a = true
  /\ match b with String c _ => p c = false | EmptyString => True end.
Proof.
  revert a b. induction s as [|c s IH]; intros a b; simpl.
  - intros [= <- <-]. auto.
  - destruct (p c) eqn:E.
    + destruct (Str.span p s) as [a' b'] eqn:Es.
      intros [= <- <-]. destruct (IH _ _ eq_refl) as (-> & Ha & Hb).
      simpl. rewrite E, Ha. auto.
    + intros [= <- <-]. simpl. auto.
Qed.

Lemma allChars_last p a :
  allChars p a = true -> a <> EmptyString ->
  exists a' w, a = (a' ++ String w EmptyString)%string /\ p w = true.
Proof.
  induction a as [|c a IH]; simpl; intros H Hne; [contradiction|].
  apply andb_prop in H as [Hc Ha].
  destruct a as [|d a].
  - exists EmptyString, c. auto.
  - destruct (IH Ha ltac:(discriminate)) as (a' & w & E & Hw).
    exists (String c a'), w. simpl. rewrite <- E. auto.
Qed.

Lemma append_assoc_cons (a : string) w (b : string) :
  ((a ++ String w EmptyString) ++ b)%string = (a ++ String w b)%string.
Proof.
  induction a as [|c a IH]; simpl; [reflexivity | now rewrite IH].
Qed.

Lemma tagRegex_binding s t :
  Regex.tagRegex s = Some t ->
  exists a w post,
    s = (a ++ String w (":scope" ++ post))%string /\ Str.isWord w = true.
Proof.
  unfold Regex.tagRegex.
  destruct (Str.span Str.isWord s) as [tg r] eqn:Es.
  destruct (String.eqb tg "") eqn:Et; [discriminate|].
  destruct (Str.dropPrefix ":scope" r) as [post|] eqn:Ed; [|discriminate].
  intros _. apply span_spec in Es as (-> & Ha & _).
  apply dropPrefix_Some in Ed. subst r.
  apply String.eqb_neq in Et.
  destruct (allChars_last _ _ Ha Et) as (a' & w & -> & Hw).
  exists a', w, post. split; [apply append_assoc_cons | assumption].
Qed.

(** The search of the tag pattern succeeds exactly on the inputs that
    hold a tag binding. *)
Lemma execTag_binding input :
  (exists t, Regex.execTag input = Some t) <-> hasTagBinding input.
Proof.
  split.
  - intros [t H]. induction input as [|c s IH]; simpl in H.
    + discriminate.
    + destruct (Regex.tagRegex (String c s)) as [t'|] eqn:Et.
      * destruct (tagRegex_binding _ _ Et) as (a & w & post & E & Hw).
        exists a, w, post. auto.
      * destruct (IH H) as (pre & w & post & -> & Hw).
        exists (String c pre), w, post. auto.
  - intros (pre & w & post & -> & Hw).
    induction pre as [|c pre IH]; simpl.
    + unfold Regex.tagRegex. simpl. rewrite Hw. simpl. eauto.
    + destruct IH as [t IH].
      match goal with
      | |- exists t, match ?x with _ => _ end = _ => destruct x; eauto
      end.
Qed.

Lemma execTag_None input :
  Regex.execTag input = None <-> ~ hasTagBinding input.
Proof.
  rewrite <- execTag_binding.
  destruct (Regex.execTag input) as [t|].
  - split; [discriminate | intros H; exfalso; eauto].
  - split; [intros _ [t H]; discriminate | reflexivity].
Qed.

(** ** Code generator *)

Lemma lookup_of_In {V : Type} (o : list (string * V)) k v :
  NoDup (JsObject.keys o) -> In (k, v) o -> JsObject.lookup k o = Some v.
Proof.
  unfold JsObject.keys.
  induction o as [|[k' v'] r IH]; simpl; intros Hnd Hin; [contradiction|].
  inversion Hnd as [|? ? Hnot Hr]; subst.
  destruct Hin as [[= -> ->] | Hin].
  - now rewrite String.eqb_refl.
  - destruct (String.eqb k k') eqn:E.
    + apply String.eqb_eq in E. subst k'. exfalso. apply Hnot.
      apply (in_map fst) in Hin. exact Hin.
    + auto.
Qed.

Lemma renderProps_lines (component : Component) :
  NoDup (JsObject.keys (data component)) ->
  Generator.renderProps component
  = Str.join Generator.nl (map attributeLine (data component)).
Proof.
  intros Hnd. unfold Generator.renderProps. f_equal.
  unfold JsObject.keys. rewrite map_map.
  apply map_ext_in. intros [k v] Hin. simpl.
  unfold Generator.renderAttribute, JsObject.get.
  rewrite (lookup_of_In _ _ _ Hnd Hin).
  destruct v; reflexivity.
Qed.

Lemma renderComponent_entries components (l : list (string * Component)) :
  (forall k c, In (k, c) l -> JsObject.lookup k (own components) = Some c) ->
  Generator.mapResult (Generator.renderComponent components) (map fst l)
  = Return (map (fun e => Generator.componentTemplate (fst e) (snd e)) l).
Proof.
  induction l as [|[k c] r IH]; intros H; simpl; [reflexivity|].
  unfold Generator.renderComponent at 1, Comps.get.
  rewrite (H k c (or_introl eq_refl)). simpl.
  rewrite IH; [reflexivity|]. intros k' c' Hin. apply H. now right.
Qed.

Lemma render_of_entries (name : string) (components : Components) :
  NoDup (Comps.keys components) ->
  Generator.render name components
  = Return (Generator.banner ++ Generator.nl
            ++ Generator.importLine name ++ Generator.nl
            ++ Generator.nl
            ++ Str.trim
                 (Str.join Generator.nl
                    (map (fun e => Generator.componentTemplate (fst e) (snd e))
                         (own components)))
            ++ Generator.nl)%string.
Proof.
  intros Hnd. unfold Generator.render, Comps.keys, JsObject.keys.
  rewrite renderComponent_entries; [reflexivity|].
  intros k c Hin. now apply lookup_of_In.
Qed.

Lemma string_app_assoc (x y z : string) :
  ((x ++ y) ++ z)%string = (x ++ (y ++ z))%string.
Proof.
  induction x as [|c x IH]; simpl; [reflexivity | now rewrite IH].
Qed.

Lemma string_app_nil_r (x : string) : (x ++ "")%string = x.
Proof.
  induction x as [|c x IH]; simpl; [reflexivity | now rewrite IH].
Qed.

Lemma trimEnd_after_line (s : string) :
  Str.endsWith s "}" = true ->
  Str.trimEnd (s ++ Generator.nl) = s.
Proof.
  induction s as [|c s IH]; [discriminate|].
  cbn [Str.endsWith]. destruct (String.eqb_spec (String c s) "}") as [E|_].
  - intros _. rewrite E. reflexivity.
  - intros H. cbn [append Str.trimEnd]. rewrite (IH H).
    destruct s; [discriminate | reflexivity].
Qed.

Lemma endsWith_app_r (a b t : string) :
  Str.endsWith b t = true -> Str.endsWith (a ++ b)%string t = true.
Proof.
  intros H. induction a as [|c a IH]; [assumption|].
  cbn [append Str.endsWith].
  destruct (String.eqb (String c (a ++ b)) t); [reflexivity | exact IH].
Qed.

Lemma definitionText_ends (entry : string * Component) :
  Str.endsWith (definitionText entry) "}" = true.
Proof.
  unfold definitionText. repeat first [reflexivity | apply endsWith_app_r].
Qed.

Lemma definitionText_starts (entry : string * Component) :
  exists rest, definitionText entry = String "t" rest.
Proof. eexists. reflexivity. Qed.

(** The template of the code is the definition and a line feed. *)
Lemma componentTemplate_text (name : string) (component : Component) :
  NoDup (JsObject.keys (data component)) ->
  Generator.componentTemplate name component
  = (definitionText (name, component) ++ Generator.nl)%string.
Proof.
  intros Hnd. unfold Generator.componentTemplate, definitionText.
  rewrite (renderProps_lines _ Hnd).
  unfold Generator.parameters, Generator.openingTag, Generator.dataBinding,
    Generator.dq, Generator.nl, Str.join, JsObject.keys.
  cbn [fst snd].
  replace (map attributeLine (data component))
    with (map propLine (data component))
    by (apply map_ext; intros [k []]; reflexivity).
  rewrite !string_app_assoc. reflexivity.
Qed.

(** Definitions joined by line feeds and trimmed: a blank line stands
    between two of them and nothing around them. *)
Lemma trim_joined_definitions (l : list (string * Component)) :
  Str.trim (Str.join Generator.nl
              (map (fun e => definitionText e ++ Generator.nl)%string l))
  = String.concat (Generator.nl ++ Generator.nl) (map definitionText l).
Proof.
  destruct l as [|e l]; [reflexivity|].
  assert (H : forall e l,
             Str.join Generator.nl
               (map (fun e => definitionText e ++ Generator.nl)%string (e :: l))
             = (String.concat (Generator.nl ++ Generator.nl)
                  (map definitionText (e :: l)) ++ Generator.nl)%string
             /\ Str.endsWith
                  (String.concat (Generator.nl ++ Generator.nl)
                     (map definitionText (e :: l))) "}" = true).
  { clear. intros e l. revert e.
    induction l as [|e' l IH]; intros e.
    - split; [reflexivity | apply definitionText_ends].
    - destruct (IH e') as [E1 E2]. split.
      + change (Str.join Generator.nl
                  (map (fun e => definitionText e ++ Generator.nl)%string
                       (e :: e' :: l)))
          with ((definitionText e ++ Generator.nl)
                ++ Generator.nl
                ++ Str.join Generator.nl
                     (map (fun e => definitionText e ++ Generator.nl)%string
                          (e' :: l)))%string.
        rewrite E1.
        change (String.concat (Generator.nl ++ Generator.nl)
                  (map definitionText (e :: e' :: l)))
          with (definitionText e
                ++ (Generator.nl ++ Generator.nl)
                ++ String.concat (Generator.nl ++ Generator.nl)
                     (map definitionText (e' :: l)))%string.
        rewrite !string_app_assoc. reflexivity.
      + change (String.concat (Generator.nl ++ Generator.nl)
                  (map definitionText (e :: e' :: l)))
          with (definitionText e
                ++ (Generator.nl ++ Generator.nl)
                ++ String.concat (Generator.nl ++ Generator.nl)
                     (map definitionText (e' :: l)))%string.
        now do 2 apply endsWith_app_r. }
  destruct (H e l) as [E1 E2]. rewrite E1. unfold Str.trim.
  assert (Hs : exists rest,
             String.concat (Generator.nl ++ Generator.nl)
               (map definitionText (e :: l)) = String "t" rest).
  { destruct (definitionText_starts e) as [rest Hr].
    cbn [map String.concat]. rewrite Hr.
    destruct (map definitionText l); eexists; reflexivity. }
  destruct Hs as [rest Hs]. rewrite Hs in *.
  cbn [append Str.trimStart]. cbv beta iota.
  change (Str.isSpace "t") with false. cbv iota.
  change (String "t" (rest ++ Generator.nl))
    with (String "t" rest ++ Generator.nl)%string.
  now apply trimEnd_after_line.
Qed.

(** C9.  For a module name and a map with distinct keys, [render] ends
    with this text: the banner line, the import of [./<name>.mist.css],
    an empty line, then the definitions of the entries in the order of
    the map with an empty line between two of them and no white space
    around them, then a line feed.  Each definition is the text of its
    entry, in which every attribute has a prop line: an optional union
    of the quoted values in stored order for an Enum, an optional
    boolean for a Boolean. *)
Theorem render_layout (name : string) (components : Components)
  (Hkeys : wellKeyed components) :
  Generator.render name components
  = Return ("// Generated by MistCSS, do not modify
import './" ++ name ++ ".mist.css'

" ++ String.concat "

" (map definitionText (own components)) ++ "
")%string.
Proof.
  destruct Hkeys as [Hnd Hdata].
  rewrite (render_of_entries _ _ Hnd). f_equal.
  replace (map (fun e => Generator.componentTemplate (fst e) (snd e))
               (own components))
    with (map (fun e => definitionText e ++ Generator.nl)%string
              (own components)).
  - rewrite trim_joined_definitions. unfold Generator.importLine.
    rewrite !string_app_assoc. reflexivity.
  - apply map_ext_in. intros [k c] Hin. symmetry.
    apply componentTemplate_text. eauto.
Qed.

Lemma cardComponents_wellKeyed : wellKeyed cardComponents.
Proof.
  split.
  - repeat constructor; simpl; tauto.
  - intros k c [[= <- <-] | []]. simpl.
    repeat constructor; simpl; intuition discriminate.
Qed.

Lemma render_layout_witness :
  wellKeyed cardComponents
  /\ exists text,
       Generator.render "card" cardComponents = Return text
       /\ Str.includes text "size?: 'sm' | 'lg'" = true
       /\ Str.includes text "disabled?: boolean" = true
       /\ Str.dropPrefix
            "// Generated by MistCSS, do not modify
import './card.mist.css'

type CardProps = {
  children?: React.ReactNode
  size?: 'sm' | 'lg'
  disabled?: boolean
} & JSX.IntrinsicElements['button']
" text <> None.
Proof.
  split; [exact cardComponents_wellKeyed|].
  eexists. split.
  - exact (render_layout "card" cardComponents cardComponents_wellKeyed).
  - repeat split; try reflexivity. vm_compute. discriminate.
Defined.

(** ** First-seen order *)

Lemma filter_differs_comm x y (l : list string) :
  filter (differs x) (filter (differs y) l)
  = filter (differs y) (filter (differs x) l).
Proof.
  induction l as [|z l IH]; simpl; [reflexivity|].
  destruct (differs y z) eqn:Ey, (differs x z) eqn:Ex; simpl;
    rewrite ?Ey, ?Ex, IH; reflexivity.
Qed.

Lemma filter_differs_idem x (l : list string) :
  filter (differs x) (filter (differs x) l) = filter (differs x) l.
Proof.
  induction l as [|z l IH]; simpl; [reflexivity|].
  destruct (differs x z) eqn:Ex; simpl; rewrite ?Ex, IH; reflexivity.
Qed.

Lemma dedup_cons x l : dedup (x :: l) = x :: filter (differs x) (dedup l).
Proof. reflexivity. Qed.

Lemma filter_dedup x (l : list string) :
  filter (differs x) (dedup l) = dedup (filter (differs x) l).
Proof.
  induction l as [|z l IH]; [reflexivity|].
  rewrite dedup_cons. simpl.
  destruct (differs x z) eqn:Ex.
  - rewrite dedup_cons, <- IH, filter_differs_comm. reflexivity.
  - unfold differs in Ex. apply negb_false_iff, String.eqb_eq in Ex.
    subst z. rewrite filter_differs_idem. exact IH.
Qed.

Lemma filter_differs_notin x (l : list string) :
  ~ In x l -> filter (differs x) l = l.
Proof.
  induction l as [|z l IH]; simpl; intros H; [reflexivity|].
  unfold differs at 1.
  destruct (String.eqb z x) eqn:E; simpl.
  - apply String.eqb_eq in E. subst. tauto.
  - rewrite IH; tauto.
Qed.

Lemma dedup_NoDup_id (l : list string) : NoDup l -> dedup l = l.
Proof.
  induction 1 as [|x l Hx _ IH]; [reflexivity|].
  rewrite dedup_cons, IH, filter_differs_notin; auto.
Qed.

Lemma In_filter_differs x y (l : list string) :
  In y (filter (differs x) l) <-> In y l /\ y <> x.
Proof.
  rewrite filter_In. unfold differs.
  rewrite negb_true_iff, String.eqb_neq. reflexivity.
Qed.

Lemma In_dedup y (l : list string) : In y (dedup l) <-> In y l.
Proof.
  induction l as [|x l IH]; [reflexivity|].
  rewrite dedup_cons. simpl. rewrite In_filter_differs, IH.
  destruct (string_dec x y); intuition congruence.
Qed.

Lemma NoDup_filter_differs x (l : list string) :
  NoDup l -> NoDup (filter (differs x) l).
Proof. apply NoDup_filter. Qed.

Lemma NoDup_dedup (l : list string) : NoDup (dedup l).
Proof.
  induction l as [|x l IH]; [constructor|].
  rewrite dedup_cons. constructor.
  - rewrite In_filter_differs. tauto.
  - now apply NoDup_filter_differs.
Qed.

Lemma dedup_seen v (l r : list string) :
  In v l -> dedup (l ++ v :: r) = dedup (l ++ r).
Proof.
  induction l as [|x l IH]; simpl; [tauto|].
  intros [-> | Hin].
  - rewrite !filter_dedup, !filter_app. simpl.
    unfold differs at 2. now rewrite String.eqb_refl.
  - now rewrite IH.
Qed.

Lemma existsb_eqb_In v (l : list string) :
  existsb (String.eqb v) l = true <-> In v l.
Proof.
  rewrite existsb_exists. split.
  - intros (x & Hin & E). apply String.eqb_eq in E. now subst.
  - intros Hin. exists v. now rewrite String.eqb_refl.
Qed.

Lemma NoDup_appendNew l v : NoDup l -> NoDup (appendNew l v).
Proof.
  intros H. unfold appendNew.
  destruct (existsb (String.eqb v) l) eqn:E; [assumption|].
  apply NoDup_app; [assumption | repeat constructor; simpl; tauto |].
  intros x Hx [<- | []].
  apply existsb_eqb_In in Hx. congruence.
Qed.

(** Pushing each value unless it is included already yields the values
    in the order of their first occurrence. *)
Lemma appendNew_first_seen (vs l : list string) :
  NoDup l -> fold_left appendNew vs l = dedup (l ++ vs).
Proof.
  revert l. induction vs as [|v vs IH]; intros l Hl; simpl.
  - rewrite app_nil_r. symmetry. now apply dedup_NoDup_id.
  - rewrite IH by now apply NoDup_appendNew.
    unfold appendNew.
    destruct (existsb (String.eqb v) l) eqn:E.
    + apply existsb_eqb_In in E. symmetry. now apply dedup_seen.
    + now rewrite <- app_assoc.
Qed.

(** ** Attribute scans *)

Lemma orAssign_lookup k k' v (d : Data) :
  JsObject.lookup k' (Builder.orAssign k v d)
  = if String.eqb k' k
    then match JsObject.lookup k' d with
         | Some x => Some x
         | None => if JsObject.inherited k' then None else Some v
         end
    else JsObject.lookup k' d.
Proof.
  unfold Builder.orAssign, JsObject.get.
  destruct (String.eqb k' k) eqn:E.
  - apply String.eqb_eq in E. subst k'.
    destruct (JsObject.lookup k d) eqn:El; [now rewrite El|].
    destruct (JsObject.inherited k); [exact El | apply lookup_set_same].
  - apply String.eqb_neq in E.
    destruct (JsObject.lookup k d); [reflexivity|].
    destruct (JsObject.inherited k);
      [reflexivity | now apply lookup_set_other].
Qed.

Lemma enumStep_lookup k attribute value (d : Data) :
  JsObject.lookup k (Builder.enumStep d (attribute, value))
  = if String.eqb (Regex.toCamelCase attribute) k
    then match JsObject.lookup k d with
         | Some (Enum l) => Some (Enum (appendNew l value))
         | Some Boolean => Some Boolean
         | None => if JsObject.inherited k then None else Some (Enum [value])
         end
    else JsObject.lookup k d.
Proof.
  unfold Builder.enumStep.
  set (k0 := Regex.toCamelCase attribute).
  assert (Hset : forall (x : AttributeSpec) (d0 : Data),
             JsObject.lookup k (JsObject.set k0 x d0)
             = if String.eqb k0 k then Some x else JsObject.lookup k d0).
  { intros x d0. destruct (String.eqb k0 k) eqn:E.
    - apply String.eqb_eq in E. subst k. apply lookup_set_same.
    - apply String.eqb_neq in E. apply lookup_set_other. congruence. }
  unfold Builder.orAssign, JsObject.get.
  destruct (String.eqb k0 k) eqn:E.
  - apply String.eqb_eq in E. subst k.
    destruct (JsObject.lookup k0 d) as [[l|]|] eqn:El.
    + rewrite El. unfold appendNew.
      destruct (existsb (String.eqb value) l); [exact El | apply Hset].
    + rewrite El. exact El.
    + destruct (JsObject.inherited k0) eqn:Ei.
      * rewrite ?El, ?Ei. reflexivity.
      * rewrite lookup_set_same. simpl. apply Hset.
  - destruct (JsObject.lookup k0 d) as [[l|]|] eqn:El.
    + rewrite El.
      destruct (existsb (String.eqb value) l); [reflexivity | apply Hset].
    + rewrite El. reflexivity.
    + destruct (JsObject.inherited k0) eqn:Ei.
      * rewrite ?El, ?Ei. reflexivity.
      * rewrite lookup_set_same. simpl. rewrite !Hset. reflexivity.
Qed.

Lemma enumStep_enumsNoDup d m :
  enumsNoDup d -> enumsNoDup (Builder.enumStep d m).
Proof.
  destruct m as [attribute value]. intros Hd k l.
  rewrite enumStep_lookup.
  destruct (String.eqb (Regex.toCamelCase attribute) k); [|apply Hd].
  destruct (JsObject.lookup k d) as [[l0|]|] eqn:El.
  - intros [= <-]. apply NoDup_appendNew. eauto.
  - discriminate.
  - destruct (JsObject.inherited k); [discriminate|].
    intros [= <-]. repeat constructor. simpl. tauto.
Qed.

Lemma booleanStep_enumsNoDup d n :
  enumsNoDup d -> enumsNoDup (Builder.booleanStep d n).
Proof.
  intros Hd k l. unfold Builder.booleanStep. rewrite orAssign_lookup.
  destruct (String.eqb k n); [|apply Hd].
  destruct (JsObject.lookup k d) eqn:El.
  - intros [= ->]. eauto.
  - destruct (JsObject.inherited k); discriminate.
Qed.

Lemma fold_enumsNoDup {A : Type} (f : Data -> A -> Data) (l : list A) d :
  (forall d x, enumsNoDup d -> enumsNoDup (f d x)) ->
  enumsNoDup d -> enumsNoDup (fold_left f l d).
Proof.
  intros Hf. revert d. induction l as [|x l IH]; simpl; auto.
Qed.

Lemma applyRule_enumsNoDup prop component :
  enumsNoDup (data component) ->
  enumsNoDup (data (Builder.applyRule prop component)).
Proof.
  intros H. unfold Builder.applyRule.
  destruct (Str.endsWith prop ":scope"); simpl; [assumption|].
  unfold Builder.scanBoolean, Builder.scanEnum.
  apply fold_enumsNoDup; [apply booleanStep_enumsNoDup|].
  apply fold_enumsNoDup; [apply enumStep_enumsNoDup | assumption].
Qed.

(** What the enum matchers [ms] leave under a key that is not a member
    of [Object.prototype]. *)
Lemma fold_enumStep_lookup k (ms : list (string * string)) (d : Data) :
  JsObject.inherited k = false ->
  JsObject.lookup k (fold_left Builder.enumStep ms d)
  = match JsObject.lookup k d with
    | Some (Enum l) => Some (Enum (fold_left appendNew (valuesFor k ms) l))
    | Some Boolean => Some Boolean
    | None => match valuesFor k ms with
              | [] => None
              | v :: vs => Some (Enum (fold_left appendNew vs [v]))
              end
    end.
Proof.
  intros Hi. revert d.
  induction ms as [|[attribute value] ms IH]; intros d; cbn [fold_left].
  - destruct (JsObject.lookup k d) as [[l|]|]; reflexivity.
  - rewrite IH, enumStep_lookup. unfold valuesFor. simpl.
    destruct (String.eqb (Regex.toCamelCase attribute) k); simpl.
    + destruct (JsObject.lookup k d) as [[l|]|]; try reflexivity.
      rewrite Hi. reflexivity.
    + reflexivity.
Qed.

Lemma fold_booleanStep_lookup k (ns : list string) (d : Data) :
  JsObject.lookup k (fold_left Builder.booleanStep ns d)
  = match JsObject.lookup k d with
    | Some x => Some x
    | None => if existsb (String.eqb k) ns && negb (JsObject.inherited k)
              then Some Boolean else None
    end.
Proof.
  revert d. induction ns as [|n ns IH]; intros d; simpl.
  - destruct (JsObject.lookup k d); reflexivity.
  - rewrite IH. unfold Builder.booleanStep. rewrite orAssign_lookup.
    destruct (String.eqb k n); simpl.
    + destruct (JsObject.lookup k d); [reflexivity|].
      destruct (JsObject.inherited k); simpl;
        [now rewrite andb_false_r | reflexivity].
    + reflexivity.
Qed.

Lemma enumsNoDup_nil : enumsNoDup [].
Proof. intros k l. discriminate. Qed.

Lemma get_Value_enumsNoDup components n c :
  enumsDistinct components ->
  Comps.get components n = JsObject.Value c -> enumsNoDup (data c).
Proof.
  intros [Ho Hp]. unfold Comps.get.
  destruct (JsObject.lookup n (own components)) eqn:El.
  - intros [= <-]. eauto.
  - destruct (String.eqb n "__proto__").
    + destruct (protoSlot components) eqn:Ep; [|discriminate].
      intros [= <-]. eauto.
    + destruct (JsObject.inherited n); [discriminate|].
      destruct (protoSlot components); [|discriminate].
      destruct (String.eqb n "tag" || String.eqb n "data"); discriminate.
Qed.

Lemma set_enumsDistinct components n c :
  enumsDistinct components -> enumsNoDup (data c) ->
  enumsDistinct (Comps.set n c components).
Proof.
  intros [Ho Hp] Hc. unfold Comps.set.
  destruct (String.eqb n "__proto__"); split; simpl; auto.
  - now intros p [= <-].
  - intros k c'. destruct (string_dec k n) as [->|Hne].
    + rewrite lookup_set_same. now intros [= <-].
    + rewrite lookup_set_other by assumption. apply Ho.
Qed.

Lemma step_enumsDistinct st node st' :
  enumsDistinct (fst st) -> Builder.step st node = Return st' ->
  enumsDistinct (fst st').
Proof.
  destruct st as [components name]. simpl. intros Hd.
  unfold Builder.step.
  destruct (String.eqb (nodeType node) "@scope").
  - destruct (nodeProps node); [discriminate|].
    intros [= <-]. simpl. apply set_enumsDistinct; auto using enumsNoDup_nil.
  - destruct (String.eqb (nodeType node) "rule"); [|now intros [= <-]].
    destruct (nodeProps node) as [|prop ps]; [now intros [= <-]|].
    destruct name as [n|]; [|now intros [= <-]].
    destruct (Comps.get components n) as [component| |] eqn:Eg;
      [|discriminate|now intros [= <-]].
    intros [= <-]. simpl. apply set_enumsDistinct; [assumption|].
    apply applyRule_enumsNoDup. eauto using get_Value_enumsNoDup.
Qed.

Lemma run_enumsDistinct nodes st st' :
  enumsDistinct (fst st) -> Builder.run st nodes = Return st' ->
  enumsDistinct (fst st').
Proof.
  revert st. induction nodes as [|node rest IH]; intros st Hd; simpl.
  - now intros [= <-].
  - intros H. apply bind_Return in H as (st1 & H1 & H2).
    eauto using step_enumsDistinct.
Qed.

Lemma parseNodes_enumsDistinct nodes components :
  Builder.parseNodes nodes = Return components -> enumsDistinct components.
Proof.
  unfold Builder.parseNodes. intros H.
  apply bind_Return in H as (st & H1 & [= <-]).
  apply (run_enumsDistinct nodes Builder.initial); [|assumption].
  split; simpl; discriminate.
Qed.

Lemma applyRule_scans prop component :
  Str.endsWith prop ":scope" = false ->
  data (Builder.applyRule prop component)
  = Builder.scanBoolean prop (Builder.scanEnum prop (data component)).
Proof.
  intros H. unfold Builder.applyRule. now rewrite H.
Qed.

(** C1, as amended.  For a selector that is no tag binding, processed
    for a component whose Enum lists are duplicate-free, and a data key
    [k] that is no member of [Object.prototype]: the enum matchers whose
    attribute name converts to [k] in camelCase are the ones that count
    for [k]; an Enum list under [k] becomes the first-seen order of its
    old values followed by the matched ones, an absent entry becomes the
    first-seen order of the matched values, and an entry that is
    already Boolean stays Boolean, the matched values being dropped.
    Every Enum list stays duplicate-free, in the component and in every
    map the builder returns. *)
Theorem enum_matchers_accumulate
  (prop : string) (component : Component) (k : string)
  (Hrule : Str.endsWith prop ":scope" = false)
  (Hown : JsObject.inherited k = false)
  (Hdistinct : enumsNoDup (data component)) :
  JsObject.lookup k (data (Builder.applyRule prop component))
  = match JsObject.lookup k (data component) with
    | Some Boolean => Some Boolean
    | Some (Enum l) =>
        Some (Enum (dedup (l ++ valuesFor k (Regex.enumMatches prop))))
    | None =>
        match valuesFor k (Regex.enumMatches prop) with
        | [] => if existsb (String.eqb k) (Regex.booleanMatches prop)
                then Some Boolean else None
        | vs => Some (Enum (dedup vs))
        end
    end
  /\ enumsNoDup (data (Builder.applyRule prop component))
  /\ forall nodes components n c,
       Builder.parseNodes nodes = Return components ->
       Comps.get components n = JsObject.Value c ->
       enumsNoDup (data c).
Proof.
  split; [|split].
  - rewrite applyRule_scans by assumption.
    unfold Builder.scanBoolean, Builder.scanEnum.
    rewrite fold_booleanStep_lookup, fold_enumStep_lookup by assumption.
    rewrite Hown, andb_true_r.
    destruct (JsObject.lookup k (data component)) as [[l|]|] eqn:El.
    + rewrite appendNew_first_seen by eauto. reflexivity.
    + reflexivity.
    + destruct (valuesFor k (Regex.enumMatches prop)) as [|v vs];
        [reflexivity|].
      rewrite appendNew_first_seen by (repeat constructor; simpl; tauto).
      reflexivity.
  - now apply applyRule_enumsNoDup.
  - intros nodes components n c Hp Hg.
    eauto using get_Value_enumsNoDup, parseNodes_enumsDistinct.
Qed.

Lemma enum_matchers_accumulate_witness :
  Str.endsWith "[data-variant='a'][data-variant='b'][data-variant='a']"
               ":scope" = false
  /\ JsObject.inherited "variant" = false
  /\ JsObject.lookup "variant"
       (data (Builder.applyRule
                "[data-variant='a'][data-variant='b'][data-variant='a']"
                freshComponent))
     = Some (Enum ["a"; "b"]).
Proof.
  split; [reflexivity | split; [reflexivity|]].
  exact (proj1 (enum_matchers_accumulate
                  "[data-variant='a'][data-variant='b'][data-variant='a']"
                  freshComponent "variant" eq_refl eq_refl enumsNoDup_nil)).
Defined.

(** C1, counterexample.  An enum matcher for a name that already has a
    Boolean entry does not make the entry an Enum list: the entry stays
    Boolean and the value is dropped. *)
Lemma enum_matcher_after_boolean_entry :
  Builder.parseNodes
    [ scopeNode "(.card)"; ruleNode "[data-disabled]";
      ruleNode "[data-disabled='x']" ]
  = Return {| protoSlot := None;
              own := [("Card", {| tag := "";
                                  data := [("disabled", Boolean)] |})] |}
  /\ Regex.enumMatches "[data-disabled='x']" = [("disabled", "x")]
  /\ Regex.toCamelCase "disabled" = "disabled".
Proof. repeat split; reflexivity. Qed.

Lemma span_app p (a b : string) :
  allChars p a = true ->
  match b with String c _ => p c = false | EmptyString => True end ->
  Str.span p (a ++ b)%string = (a, b).
Proof.
  intros Ha Hb. induction a as [|c a IH]; simpl in *.
  - destruct b as [|c b]; simpl in *; [reflexivity | now rewrite Hb].
  - apply andb_prop in Ha as [Hc Ha]. now rewrite Hc, IH.
Qed.

(** A bare matcher at the head of a text is a match of the boolean
    pattern and no match of the enum pattern. *)
Lemma bare_matcher_patterns (attribute rest : string) :
  attribute <> EmptyString ->
  allChars Regex.isAttributeChar attribute = true ->
  Regex.enumDataAttributeRegex ("[data-" ++ attribute ++ "]" ++ rest)%string
  = None
  /\ Regex.booleanDataAttributeRegex ("[data-" ++ attribute ++ "]" ++ rest)%string
     = Some (attribute, 6 + String.length attribute).
Proof.
  intros Hne Ha. apply String.eqb_neq in Hne.
  unfold Regex.enumDataAttributeRegex, Regex.booleanDataAttributeRegex.
  rewrite dropPrefix_app.
  rewrite (span_app _ attribute ("]" ++ rest)%string Ha eq_refl).
  rewrite Hne. split; reflexivity.
Qed.

(** C2, as amended.  For a selector that is no tag binding and a bare
    matcher [[data-n]] in it, [n] being no member of [Object.prototype]:
    once the selector is processed the entry under [n] is Boolean,
    unless an entry was there when the boolean scan started (from an
    earlier rule, or from an enum matcher for [n] anywhere in the same
    selector), in which case that entry is kept as it is.  The boolean
    scan changes no existing entry and adds only Boolean entries, for
    names it matched; a bare matcher by itself is no enum match. *)
Theorem bare_matcher_boolean_unless_present
  (prop : string) (component : Component) (n : string)
  (Hrule : Str.endsWith prop ":scope" = false)
  (Hmatch : In n (Regex.booleanMatches prop))
  (Hown : JsObject.inherited n = false) :
  JsObject.lookup n (data (Builder.applyRule prop component))
  = match JsObject.lookup n (Builder.scanEnum prop (data component)) with
    | Some v => Some v
    | None => Some Boolean
    end
  /\ (forall k v,
        JsObject.lookup k (Builder.scanEnum prop (data component)) = Some v ->
        JsObject.lookup k (data (Builder.applyRule prop component)) = Some v)
  /\ (forall k v,
        JsObject.lookup k (data (Builder.applyRule prop component)) = Some v ->
        JsObject.lookup k (Builder.scanEnum prop (data component)) = Some v
        \/ (v = Boolean /\ In k (Regex.booleanMatches prop)))
  /\ (JsObject.lookup n (data component) = None ->
      valuesFor n (Regex.enumMatches prop) = [] ->
      JsObject.lookup n (data (Builder.applyRule prop component))
      = Some Boolean)
  /\ (forall attribute rest,
        attribute <> EmptyString ->
        allChars Regex.isAttributeChar attribute = true ->
        Regex.enumDataAttributeRegex
          ("[data-" ++ attribute ++ "]" ++ rest)%string = None).
Proof.
  rewrite applyRule_scans by assumption.
  unfold Builder.scanBoolean.
  assert (Hn : existsb (String.eqb n) (Regex.booleanMatches prop) = true)
    by now apply existsb_eqb_In.
  repeat split.
  - rewrite fold_booleanStep_lookup, Hn, Hown. reflexivity.
  - intros k v H. now rewrite fold_booleanStep_lookup, H.
  - intros k v. rewrite fold_booleanStep_lookup.
    destruct (JsObject.lookup k (Builder.scanEnum prop (data component)));
      [now left|].
    destruct (existsb (String.eqb k) (Regex.booleanMatches prop)) eqn:E;
      simpl; [|discriminate].
    destruct (JsObject.inherited k); simpl; [discriminate|].
    intros [= <-]. right. split; [reflexivity|].
    now apply existsb_eqb_In.
  - intros Hd Hv. rewrite fold_booleanStep_lookup, Hn, Hown.
    unfold Builder.scanEnum.
    rewrite fold_enumStep_lookup, Hd, Hv by assumption. reflexivity.
  - intros attribute rest Hne Ha.
    now apply bare_matcher_patterns.
Qed.

Lemma bare_matcher_boolean_unless_present_witness :
  Str.endsWith "[data-disabled][data-size='sm']" ":scope" = false
  /\ In "disabled" (Regex.booleanMatches "[data-disabled][data-size='sm']")
  /\ JsObject.inherited "disabled" = false
  /\ JsObject.lookup "disabled"
       (data (Builder.applyRule "[data-disabled][data-size='sm']"
                                freshComponent))
     = Some Boolean.
Proof.
  split; [reflexivity | split; [now left | split; [reflexivity|]]].
  exact (proj1 (bare_matcher_boolean_unless_present
                  "[data-disabled][data-size='sm']" freshComponent "disabled"
                  eq_refl (or_introl eq_refl) eq_refl)).
Defined.

(** C2, counterexample.  A selector holding a bare matcher and an enum
    matcher for the same name leaves that attribute an Enum, whichever
    of the two matchers comes first: the bare matcher yields no
    Boolean. *)
Lemma bare_matcher_beside_enum_matcher :
  Builder.parseNodes [scopeNode "(.card)"; ruleNode "[data-x][data-x='a']"]
  = Return {| protoSlot := None;
              own := [("Card", {| tag := "";
                                  data := [("x", Enum ["a"])] |})] |}
  /\ Builder.parseNodes [scopeNode "(.card)"; ruleNode "[data-x='a'][data-x]"]
     = Return {| protoSlot := None;
                 own := [("Card", {| tag := "";
                                     data := [("x", Enum ["a"])] |})] |}
  /\ Regex.booleanMatches "[data-x][data-x='a']" = ["x"]
  /\ Regex.booleanMatches "[data-x='a'][data-x]" = ["x"].
Proof. repeat split; reflexivity. Qed.

(** ** Keys of the data map *)

Lemma In_keys_lookup {V : Type} k (o : list (string * V)) :
  In k (JsObject.keys o) <-> JsObject.lookup k o <> None.
Proof.
  pose proof (lookup_None_keys k o) as H.
  destruct (in_dec string_dec k (JsObject.keys o)) as [Hin|Hn].
  - split; [|tauto]. intros _ E. apply H in E. contradiction.
  - split; [contradiction|]. intros E. apply H in Hn. contradiction.
Qed.

(** Keys come from the matchers: in camelCase from the enum scan, as
    written in the selector from the boolean scan. *)
Lemma data_keys_origin prop (d : Data) k :
  In k (JsObject.keys (Builder.scanBoolean prop (Builder.scanEnum prop d))) ->
  In k (JsObject.keys d)
  \/ (exists attribute value,
        In (attribute, value) (Regex.enumMatches prop)
        /\ k = Regex.toCamelCase attribute)
  \/ In k (Regex.booleanMatches prop).
Proof.
  rewrite !In_keys_lookup. unfold Builder.scanBoolean, Builder.scanEnum.
  rewrite fold_booleanStep_lookup.
  assert (He : forall ms d0,
             JsObject.lookup k (fold_left Builder.enumStep ms d0) <> None ->
             JsObject.lookup k d0 <> None
             \/ exists attribute value,
                  In (attribute, value) ms
                  /\ k = Regex.toCamelCase attribute).
  { induction ms as [|[a v] ms IH]; intros d0; cbn [fold_left]; [now left|].
    intros H. apply IH in H as [H | (a' & v' & Hin & ->)].
    - rewrite enumStep_lookup in H.
      destruct (String.eqb (Regex.toCamelCase a) k) eqn:E; [|now left].
      apply String.eqb_eq in E. right. exists a, v. split; [now left | auto].
    - right. exists a', v'. split; [now right | reflexivity]. }
  destruct (JsObject.lookup k (fold_left Builder.enumStep
                                 (Regex.enumMatches prop) d)) eqn:El.
  - intros _. destruct (He (Regex.enumMatches prop) d) as [H|H];
      [congruence | now left | right; now left].
  - destruct (existsb (String.eqb k) (Regex.booleanMatches prop)) eqn:E;
      simpl; [|congruence].
    intros _. right. right. now apply existsb_eqb_In.
Qed.

(** C3, the code at the failing input.  A bare matcher stores its key as
    written, hyphen included, where the enum matcher for the same
    attribute stores the camelCase key. *)
Theorem boolean_key_keeps_hyphen :
  Builder.parseNodes [scopeNode "(.card)"; ruleNode "[data-is-active]"]
  = Return {| protoSlot := None;
              own := [("Card", {| tag := "";
                                  data := [("is-active", Boolean)] |})] |}
  /\ Builder.parseNodes
       [scopeNode "(.card)"; ruleNode "[data-is-active='on']"]
     = Return {| protoSlot := None;
                 own := [("Card", {| tag := "";
                                     data := [("isActive", Enum ["on"])] |})] |}
  /\ Regex.toCamelCase "is-active" = "isActive".
Proof. repeat split; reflexivity. Qed.

(** ** Tag binding *)

Lemma marker_not_across (s r : string) :
  Str.dropPrefix ":scope" (s ++ ":scope")%string = Some r ->
  s = EmptyString \/ Str.dropPrefix ":scope" s <> None.
Proof.
  intros H0.
  destruct s as [|c0 [|c1 [|c2 [|c3 [|c4 [|c5 s]]]]]];
    [left; reflexivity | right ..];
    revert H0; cbn [Str.dropPrefix append];
    repeat (match goal with
            | |- context [Ascii.eqb ?a ?b] =>
                destruct (Ascii.eqb_spec a b) as [E|E];
                [try discriminate E; subst | try congruence]
            end; cbn [Str.dropPrefix append]);
    intros H; try discriminate H; discriminate.
Qed.

(** When the marker occurs only at the end, removing its first
    occurrence removes the suffix. *)
Lemma tag_of_single_marker (t : string) :
  Str.includes t ":scope" = false ->
  Str.replaceFirst ":scope" "" (t ++ ":scope")%string = t.
Proof.
  induction t as [|c t IH]; intros H; [reflexivity|].
  cbn [Str.includes] in H.
  destruct (Str.dropPrefix ":scope" (String c t)) eqn:Ed; [discriminate|].
  cbn [Str.replaceFirst append].
  destruct (Str.dropPrefix ":scope" (String c (t ++ ":scope"))) eqn:Ed'.
  - exfalso. destruct (marker_not_across (String c t) s Ed');
      [discriminate | contradiction].
  - now rewrite IH.
Qed.

(** A tag binding sets the tag and runs neither attribute scan. *)
Lemma tag_binding_skips_scans prop component :
  Str.endsWith prop ":scope" = true ->
  Builder.applyRule prop component
  = {| tag := Str.replaceFirst ":scope" "" prop; data := data component |}.
Proof.
  intros H. unfold Builder.applyRule. now rewrite H.
Qed.

(** C6, the code at the failing input.  The selector ends with the
    marker and holds it once more before; the tag is the selector
    without the first marker, not without the suffix.  The data map is
    left alone, also when the selector holds attribute matchers. *)
Theorem tag_drops_first_marker :
  Str.endsWith "ul:scope li:scope" ":scope" = true
  /\ Builder.applyRule "ul:scope li:scope"
       {| tag := ""; data := [("size", Enum ["sm"])] |}
     = {| tag := "ul li:scope"; data := [("size", Enum ["sm"])] |}
  /\ Builder.parseNodes [scopeNode "(.card)"; ruleNode "ul:scope li:scope"]
     = Return {| protoSlot := None;
                 own := [("Card", {| tag := "ul li:scope"; data := [] |})] |}
  /\ Builder.parseNodes
       [scopeNode "(.card)"; ruleNode "a[data-open][data-size='sm']:scope"]
     = Return {| protoSlot := None;
                 own := [("Card", {| tag := "a[data-open][data-size='sm']";
                                     data := [] |})] |}.
Proof. repeat split; reflexivity. Qed.

(** ** Component names and keys of the map *)

Lemma keys_Comps_set n c components :
  n <> "__proto__" -> JsObject.arrayIndex n = None ->
  Comps.keys (Comps.set n c components)
  = appendNew (Comps.keys components) n.
Proof.
  intros Hn Hi. unfold Comps.set, Comps.keys, appendNew.
  apply String.eqb_neq in Hn. rewrite Hn. simpl.
  destruct (existsb (String.eqb n) (JsObject.keys (own components))) eqn:E.
  - apply existsb_eqb_In, In_keys_lookup in E.
    now apply keys_set_present.
  - apply keys_set_absent; [|assumption].
    apply lookup_None_keys. intros Hin.
    apply existsb_eqb_In in Hin. congruence.
Qed.

Lemma keys_Comps_set_found n c c' components :
  Comps.get components n = JsObject.Value c ->
  Comps.keys (Comps.set n c' components) = Comps.keys components.
Proof.
  unfold Comps.get, Comps.set, Comps.keys.
  destruct (String.eqb n "__proto__") eqn:E; simpl; [reflexivity|].
  destruct (JsObject.lookup n (own components)) eqn:El.
  - intros _. apply keys_set_present. congruence.
  - destruct (JsObject.inherited n); [discriminate|].
    destruct (protoSlot components); [|discriminate].
    destruct (String.eqb n "tag" || String.eqb n "data"); discriminate.
Qed.

Lemma step_keys st node st' :
  Forall plainKey (scopeNames [node]) ->
  Builder.step st node = Return st' ->
  Comps.keys (fst st')
  = fold_left appendNew (scopeNames [node]) (Comps.keys (fst st)).
Proof.
  destruct st as [components name]. unfold scopeNames, Builder.step. simpl.
  destruct (String.eqb (nodeType node) "@scope").
  - destruct (nodeProps node) as [|prop ps]; [discriminate|].
    simpl. intros Hp [= <-]. simpl.
    inversion Hp as [|? ? [Hn Hi] _]; subst.
    now apply keys_Comps_set.
  - intros _. simpl.
    destruct (String.eqb (nodeType node) "rule"); [|now intros [= <-]].
    destruct (nodeProps node) as [|prop ps]; [now intros [= <-]|].
    destruct name as [n|]; [|now intros [= <-]].
    destruct (Comps.get components n) as [component| |] eqn:Eg;
      [|discriminate|now intros [= <-]].
    intros [= <-]. simpl. eauto using keys_Comps_set_found.
Qed.

Lemma scopeNames_cons node rest :
  scopeNames (node :: rest) = scopeNames [node] ++ scopeNames rest.
Proof.
  unfold scopeNames. simpl. now rewrite app_nil_r.
Qed.

Lemma run_keys nodes st st' :
  Forall plainKey (scopeNames nodes) ->
  Builder.run st nodes = Return st' ->
  Comps.keys (fst st')
  = fold_left appendNew (scopeNames nodes) (Comps.keys (fst st)).
Proof.
  revert st. induction nodes as [|node rest IH]; intros st Hp; cbn [Builder.run].
  - now intros [= <-].
  - intros H. apply bind_Return in H as (st1 & H1 & H2).
    rewrite scopeNames_cons in Hp |- *.
    apply Forall_app in Hp as [Hp1 Hp2].
    rewrite fold_left_app, (IH _ Hp2 H2). f_equal.
    now apply step_keys.
Qed.

(** Away from the two kinds of keys that an object treats specially,
    the keys of the map are the declared names in first-appearance
    order. *)
Lemma keys_first_appearance nodes components :
  Forall plainKey (scopeNames nodes) ->
  Builder.parseNodes nodes = Return components ->
  Comps.keys components = dedup (scopeNames nodes).
Proof.
  intros Hp H. unfold Builder.parseNodes in H.
  apply bind_Return in H as (st & H1 & [= <-]).
  rewrite (run_keys _ _ _ Hp H1).
  apply (appendNew_first_seen (scopeNames nodes) []). constructor.
Qed.

(** A scope declared again starts afresh in the place it had. *)
Lemma redeclared_scope_overwrites n old components :
  n <> "__proto__" ->
  JsObject.lookup n (own components) = Some old ->
  Comps.keys (Comps.set n freshComponent components) = Comps.keys components
  /\ JsObject.lookup n (own (Comps.set n freshComponent components))
     = Some freshComponent.
Proof.
  intros Hn Hl. unfold Comps.set, Comps.keys.
  apply String.eqb_neq in Hn. rewrite Hn. simpl. split.
  - apply keys_set_present. congruence.
  - apply lookup_set_same.
Qed.

Lemma isLower_not_hyphen c : Str.isLower c = true -> Ascii.eqb c "-" = false.
Proof.
  intros H. destruct (Ascii.eqb_spec c "-") as [->|]; [|reflexivity].
  vm_compute in H. discriminate.
Qed.

Lemma pascalFrom_word (word tail : string) :
  allChars Str.isLower word = true ->
  Regex.pascalFrom false (word ++ tail)%string
  = (word ++ Regex.pascalFrom false tail)%string.
Proof.
  induction word as [|c w IH]; simpl; intros H; [reflexivity|].
  apply andb_prop in H as [Hc Hw].
  rewrite (isLower_not_hyphen c Hc), IH by assumption. reflexivity.
Qed.

Lemma pascalFrom_words (words : list string) :
  Forall lowerWord words ->
  Regex.pascalFrom false
    (String.concat EmptyString (map (String "-") words))
  = String.concat EmptyString (map capitalize words).
Proof.
  induction 1 as [|w r [Hne Hw] _ IH]; [reflexivity|].
  assert (E : forall (f : string -> string) l,
             String.concat EmptyString (f w :: l)
             = (f w ++ String.concat EmptyString l)%string).
  { intros f [|x l]; simpl; [|reflexivity].
    induction (f w) as [|c s IHs]; simpl; [reflexivity | now rewrite <- IHs]. }
  cbn [map]. rewrite !E.
  destruct w as [|c w]; [contradiction|].
  simpl in Hw. apply andb_prop in Hw as [Hc Hw].
  cbn [append Regex.pascalFrom andb]. rewrite Ascii.eqb_refl.
  rewrite Hc, pascalFrom_word, IH by assumption. reflexivity.
Qed.

(** On a kebab-case name, PascalCase is the words with their first
    letters in upper case and no hyphen left. *)
Lemma toPascalCase_kebab (first : string) (others : list string) :
  lowerWord first -> Forall lowerWord others ->
  Regex.toPascalCase
    (first ++ String.concat EmptyString (map (String "-") others))%string
  = (capitalize first
     ++ String.concat EmptyString (map capitalize others))%string.
Proof.
  intros [Hne Hw] Ho. unfold Regex.toPascalCase.
  destruct first as [|c w]; [contradiction|].
  simpl in Hw. apply andb_prop in Hw as [Hc Hw].
  cbn [append Regex.pascalFrom andb]. rewrite Hc.
  rewrite pascalFrom_word, pascalFrom_words by assumption. reflexivity.
Qed.

Lemma toCamelCase_word (word tail : string) :
  allChars Str.isLower word = true ->
  Regex.toCamelCase (word ++ tail)%string
  = (word ++ Regex.toCamelCase tail)%string.
Proof.
  induction word as [|c w IH]; simpl; intros H; [reflexivity|].
  apply andb_prop in H as [Hc Hw].
  rewrite (isLower_not_hyphen c Hc), IH by assumption. reflexivity.
Qed.

Lemma toCamelCase_words (words : list string) :
  Forall lowerWord words ->
  Regex.toCamelCase (String.concat EmptyString (map (String "-") words))
  = String.concat EmptyString (map capitalize words).
Proof.
  induction 1 as [|w r [Hne Hw] _ IH]; [reflexivity|].
  assert (E : forall (f : string -> string) l,
             String.concat EmptyString (f w :: l)
             = (f w ++ String.concat EmptyString l)%string).
  { intros f [|x l]; simpl; [|reflexivity].
    induction (f w) as [|c s IHs]; simpl; [reflexivity | now rewrite <- IHs]. }
  cbn [map]. rewrite !E.
  destruct w as [|c w]; [contradiction|].
  simpl in Hw. apply andb_prop in Hw as [Hc Hw].
  cbn [append Regex.toCamelCase]. rewrite Ascii.eqb_refl.
  rewrite Hc, toCamelCase_word, IH by assumption. reflexivity.
Qed.

(** On a kebab-case name, camelCase leaves the first word as it is and
    turns every other word into upper-case first, no hyphen left. *)
Lemma toCamelCase_kebab (first : string) (others : list string) :
  lowerWord first -> Forall lowerWord others ->
  Regex.toCamelCase
    (first ++ String.concat EmptyString (map (String "-") others))%string
  = (first ++ String.concat EmptyString (map capitalize others))%string.
Proof.
  intros [Hne Hw] Ho.
  rewrite toCamelCase_word, toCamelCase_words by assumption. reflexivity.
Qed.

(** C4, the code at the failing inputs.  A hyphen that is not followed
    by a lower-case letter stays in the component name.  Besides, a
    scope for the class [__proto__] leaves the map without any key, the
    component going to the prototype slot, and scopes named by array
    indices are enumerated in numeric order, not in the order of their
    declarations. *)
Theorem component_keys_at_special_names :
  bind (Builder.parseNodes [scopeNode "(.col-2)"; scopeNode "(.my-button)"])
       (fun components => Return (Comps.keys components))
  = Return ["Col-2"; "MyButton"]
  /\ Builder.componentName "(.__proto__)" = "__proto__"
  /\ Builder.parseNodes [scopeNode "(.__proto__)"; ruleNode "div:scope"]
     = Return {| protoSlot := Some {| tag := "div"; data := [] |};
                 own := [] |}
  /\ scopeNames [scopeNode "(.2)"; scopeNode "(.b)"; scopeNode "(.1)"]
     = ["2"; "B"; "1"]
  /\ bind (Builder.parseNodes
             [scopeNode "(.2)"; scopeNode "(.b)"; scopeNode "(.1)"])
          (fun components => Return (Comps.keys components))
     = Return ["1"; "2"; "B"].
Proof. repeat split; reflexivity. Qed.

(** ** Distinct keys *)

Section OwnKeys.
Context {V : Type}.
Implicit Types (o : list (string * V)) (k : string) (v : V).

Lemma In_replace k v o e :
  In e (JsObject.replace k v o) -> e = (k, v) \/ In e o.
Proof.
  induction o as [|[k' v'] r IH]; simpl; [tauto|].
  destruct (String.eqb k k') eqn:E; simpl.
  - apply String.eqb_eq in E. subst k'. intros [<- | H]; auto.
  - intros [<- | H]; auto. destruct (IH H); auto.
Qed.

Lemma In_insertIndex i k v o e :
  In e (JsObject.insertIndex i k v o) <-> e = (k, v) \/ In e o.
Proof.
  induction o as [|[k' v'] r IH]; simpl; [intuition congruence|].
  destruct (JsObject.arrayIndex k') as [j|]; [destruct (j <? i)%N|];
    simpl; rewrite ?IH; intuition congruence.
Qed.

Lemma In_set k v o e : In e (JsObject.set k v o) -> e = (k, v) \/ In e o.
Proof.
  unfold JsObject.set.
  destruct (JsObject.lookup k o); [apply In_replace|].
  destruct (JsObject.arrayIndex k).
  - apply In_insertIndex.
  - rewrite in_app_iff. simpl. intuition congruence.
Qed.

Lemma NoDup_keys_insertIndex i k v o :
  ~ In k (JsObject.keys o) -> NoDup (JsObject.keys o) ->
  NoDup (JsObject.keys (JsObject.insertIndex i k v o)).
Proof.
  unfold JsObject.keys.
  induction o as [|[k' v'] r IH]; simpl; intros Hn Hd.
  - repeat constructor. simpl. tauto.
  - inversion Hd as [|? ? Hk' Hr]; subst.
    assert (Hc : NoDup (k :: k' :: map fst r))
      by (constructor; [simpl; tauto | assumption]).
    destruct (JsObject.arrayIndex k') as [j|]; [destruct (j <? i)%N|];
      simpl; try exact Hc.
    constructor; [|apply IH; tauto].
    intros Hin. apply in_map_iff in Hin as ([k0 v0] & E & Hin).
    simpl in E. subst k0. apply In_insertIndex in Hin as [[= -> ->] | Hin].
    + tauto.
    + apply Hk'. apply (in_map fst) in Hin. exact Hin.
Qed.

Lemma NoDup_keys_set k v o :
  NoDup (JsObject.keys o) -> NoDup (JsObject.keys (JsObject.set k v o)).
Proof.
  intros Hd. unfold JsObject.set.
  destruct (JsObject.lookup k o) eqn:El.
  - now rewrite keys_replace.
  - apply lookup_None_keys in El.
    destruct (JsObject.arrayIndex k).
    + now apply NoDup_keys_insertIndex.
    + unfold JsObject.keys in *. rewrite map_app. simpl.
      apply NoDup_app; [assumption | repeat constructor; simpl; tauto |].
      intros x Hx [<- | []]. contradiction.
Qed.

End OwnKeys.

Lemma applyRule_keys_NoDup prop component :
  NoDup (JsObject.keys (data component)) ->
  NoDup (JsObject.keys (data (Builder.applyRule prop component))).
Proof.
  intros Hd. unfold Builder.applyRule.
  destruct (Str.endsWith prop ":scope"); simpl; [assumption|].
  assert (Ho : forall k v (d : Data),
             NoDup (JsObject.keys d) ->
             NoDup (JsObject.keys (Builder.orAssign k v d))).
  { intros k v d H. unfold Builder.orAssign.
    destruct (JsObject.get d k); auto using NoDup_keys_set. }
  assert (Hf : forall {A : Type} (f : Data -> A -> Data) (l : list A) d,
             (forall d x, NoDup (JsObject.keys d) ->
                          NoDup (JsObject.keys (f d x))) ->
             NoDup (JsObject.keys d) ->
             NoDup (JsObject.keys (fold_left f l d))).
  { intros A f l. induction l as [|x l IH]; simpl; auto. }
  unfold Builder.scanBoolean, Builder.scanEnum.
  apply Hf; [intros d x; apply Ho|].
  apply Hf; [|assumption].
  intros d [attribute value] H. unfold Builder.enumStep.
  set (d1 := Builder.orAssign _ _ d).
  assert (H1 : NoDup (JsObject.keys d1)) by now apply Ho.
  destruct (JsObject.get d1 _) as [[attr|]| |]; auto.
  destruct (existsb _ attr); auto using NoDup_keys_set.
Qed.

Lemma set_wellKeyed n c components :
  wellKeyed components -> NoDup (JsObject.keys (data c)) ->
  wellKeyed (Comps.set n c components).
Proof.
  intros [Hk Hd] Hc. unfold Comps.set, wellKeyed, Comps.keys.
  destruct (String.eqb n "__proto__"); simpl; [now split|].
  split; [now apply NoDup_keys_set|].
  intros k c' Hin. apply In_set in Hin as [[= -> ->] | Hin]; eauto.
Qed.

Lemma step_wellKeyed st node st' :
  wellKeyed (fst st) -> Builder.step st node = Return st' ->
  wellKeyed (fst st').
Proof.
  destruct st as [components name]. simpl. intros Hw.
  unfold Builder.step.
  destruct (String.eqb (nodeType node) "@scope").
  - destruct (nodeProps node); [discriminate|].
    intros [= <-]. simpl. apply set_wellKeyed; [assumption | constructor].
  - destruct (String.eqb (nodeType node) "rule"); [|now intros [= <-]].
    destruct (nodeProps node) as [|prop ps]; [now intros [= <-]|].
    destruct name as [n|]; [|now intros [= <-]].
    destruct (Comps.get components n) as [component| |] eqn:Eg;
      [|discriminate|now intros [= <-]].
    intros [= <-]. simpl.
    unfold Comps.get in Eg.
    destruct (JsObject.lookup n (own components)) eqn:El.
    + injection Eg as ->. apply set_wellKeyed; [assumption|].
      apply applyRule_keys_NoDup.
      destruct Hw as [_ Hd]. eauto using lookup_In.
    + destruct (String.eqb n "__proto__") eqn:E.
      * unfold Comps.set. rewrite E. exact Hw.
      * destruct (JsObject.inherited n); [discriminate|].
        destruct (protoSlot components); [|discriminate].
        destruct (String.eqb n "tag" || String.eqb n "data"); discriminate.
Qed.

(** Every map the builder returns has distinct keys. *)
Lemma parseNodes_wellKeyed nodes components :
  Builder.parseNodes nodes = Return components -> wellKeyed components.
Proof.
  unfold Builder.parseNodes. intros H.
  apply bind_Return in H as (st & H1 & [= <-]).
  assert (Hi : wellKeyed (fst Builder.initial))
    by (split; [constructor | intros k c []]).
  revert H1 Hi. generalize Builder.initial. revert st.
  induction nodes as [|node rest IH]; intros st st0; simpl.
  - now intros [= <-].
  - intros H Hi. apply bind_Return in H as (st1 & H1 & H2).
    eauto using step_wellKeyed.
Qed.

(** ** Failure *)

Lemma parseNodes_outcome nodes :
  if existsb scopeWithoutProp nodes
  then Builder.parseNodes nodes
       = Throw "Invalid MistCSS file, no class found in @scope"
  else exists components, Builder.parseNodes nodes = Return components.
Proof.
  unfold Builder.parseNodes.
  pose proof (run_outcome nodes Builder.initial initial_invariant) as H.
  destruct (existsb scopeWithoutProp nodes).
  - now rewrite H.
  - destruct H as [[components name] ->]. simpl. eauto.
Qed.

(** C7.  The builder fails exactly when the flattened list holds a scope
    node without a first prop, and then with the error of the missing
    class.  The single-component variant has no such check: it fails
    exactly when the text of the input holds no word character directly
    followed by [:scope].  In both drivers the error of the parser
    comes out of the call and the files are what they were, parsing
    coming before writing; when parsing succeeds the driver ends as its
    one write of the rendered text ends. *)
Theorem parse_failure_stops_before_write
  (compile : string -> list Element)
  (basename : string -> string -> string)
  (filename input : string) (fs : Files)
  (Hread : readFileSync filename fs = (Return input, fs)) :
  (if existsb scopeWithoutProp (visit (compile input))
   then parseInput compile input
        = Throw "Invalid MistCSS file, no class found in @scope"
        /\ createFile compile basename filename fs
           = (Throw "Invalid MistCSS file, no class found in @scope", fs)
   else exists components text,
          parseInput compile input = Return components
          /\ Generator.render (basename filename ".mist.css") components
             = Return text
          /\ createFile compile basename filename fs
             = writeFileSync (Str.replaceFirst ".css" ".tsx" filename) text fs)
  /\ (hasTagBinding input ->
      exists parsed,
        Single.parseInput input = Return parsed
        /\ Single.genFile basename filename fs
           = writeFileSync (filename ++ ".tsx")%string
               (Single.render (basename filename ".mist.css") parsed) fs)
  /\ (~ hasTagBinding input ->
      Single.parseInput input
      = Throw "Could not parse tag"
      /\ Single.genFile basename filename fs
         = (Throw "Could not parse tag", fs)).
Proof.
  split; [|split].
  - unfold createFile, ioBind, lift.
    rewrite Hread. unfold parseInput.
    pose proof (parseNodes_outcome (visit (compile input))) as H.
    destruct (existsb scopeWithoutProp (visit (compile input))).
    + rewrite H. split; reflexivity.
    + destruct H as [components H]. rewrite H.
      pose proof (parseNodes_wellKeyed _ _ H) as [Hk _].
      pose proof (render_of_entries (basename filename ".mist.css")
                    components Hk) as Hr.
      exists components. eexists. split; [reflexivity|].
      split; [exact Hr|]. cbn iota beta. now rewrite Hr.
  - intros Hb. apply execTag_binding in Hb as [t Ht].
    unfold Single.genFile, ioBind, lift, Single.parseInput.
    rewrite Hread, Ht. eauto.
  - intros Hb. apply execTag_None in Hb.
    unfold Single.genFile, ioBind, lift, Single.parseInput.
    rewrite Hread, Hb. split; reflexivity.
Qed.

Lemma parse_failure_stops_before_write_witness :
  readFileSync "card.mist.css"
    (mkFiles [("card.mist.css", "@scope { div:scope {} }")]
             (fun _ => None) (fun _ => None))
  = (Return "@scope { div:scope {} }",
     mkFiles [("card.mist.css", "@scope { div:scope {} }")]
             (fun _ => None) (fun _ => None))
  /\ createFile (fun _ => bareScopeForest) (fun f _ => f) "card.mist.css"
       (mkFiles [("card.mist.css", "@scope { div:scope {} }")]
                (fun _ => None) (fun _ => None))
     = (Throw "Invalid MistCSS file, no class found in @scope",
        mkFiles [("card.mist.css", "@scope { div:scope {} }")]
                (fun _ => None) (fun _ => None)).
Proof.
  split; [reflexivity|].
  exact (proj2 (proj1 (parse_failure_stops_before_write
                         (fun _ => bareScopeForest) (fun f _ => f)
                         "card.mist.css" "@scope { div:scope {} }"
                         (mkFiles [("card.mist.css",
                                    "@scope { div:scope {} }")]
                                  (fun _ => None) (fun _ => None))
                         eq_refl))).
Defined.

(** C7, counterexample.  The single-component variant does not fail on
    a scope declaration without class, on which the builder fails: the
    input [@scope { div:scope {} }] is parsed with tag [div].  Nor does
    it ask for a rule: a comment that holds a word before [:scope] is
    enough. *)
Lemma single_variant_accepts_scope_without_class :
  existsb scopeWithoutProp (visit bareScopeForest) = true
  /\ Builder.parseNodes (visit bareScopeForest)
     = Throw "Invalid MistCSS file, no class found in @scope"
  /\ Single.parseInput "@scope { div:scope {} }"
     = Return {| Single.tag := "div"; Single.data := [] |}
  /\ Single.parseInput "/* x:scope */"
     = Return {| Single.tag := "x"; Single.data := [] |}.
Proof. repeat split; reflexivity. Qed.

(** * Further properties of the code *)

(** ** Tree reducer: wrappers *)

Lemma visit_app (xs ys : list Element) :
  visit (xs ++ ys) = visit xs ++ visit ys.
Proof.
  induction xs as [|x r IH]; simpl; [reflexivity|].
  now rewrite IH, app_assoc.
Qed.

(** X1.  A node that is not kept itself (its type is neither ['@scope']
    nor ['rule'], or its props are no array) is transparent: inside any
    forest, [visit] returns what it returns for the node's children,
    between what it returns for the nodes before and after. *)
Theorem visit_through_wrapper
  (type : string) (props : string + list string)
  (cs before after : list Element)
  (Hwrap : recognized type = false \/ exists s, props = inl s) :
  visit (before ++ mkElement type props (inr cs) :: after)
  = visit before ++ visit cs ++ visit after.
Proof.
  rewrite visit_app. f_equal.
  change (visit (mkElement type props (inr cs) :: after))
    with (visitNode (mkElement type props (inr cs)) ++ visit after).
  rewrite visitNode_children. f_equal.
  destruct Hwrap as [H | [s ->]]; simpl.
  - rewrite H. now destruct props.
  - reflexivity.
Qed.

Lemma visit_through_wrapper_witness :
  (recognized "@media" = false
   \/ exists s, @inr string (list string) ["(min-width:1px)"] = inl s)
  /\ visit [ mkElement "@media" (inr ["(min-width:1px)"])
               (inr [ mkElement "@scope" (inr ["(.card)"]) (inr []) ]) ]
     = [mkNode "@scope" ["(.card)"]].
Proof.
  split; [now left|].
  exact (visit_through_wrapper "@media" (inr ["(min-width:1px)"])
           [mkElement "@scope" (inr ["(.card)"]) (inr [])] [] []
           (or_introl eq_refl)).
Defined.

(** ** Builder: keys, frame and redeclaration *)

(** X2.  When no declared name is [__proto__] or an array index, the
    keys of the map the builder returns are the declared component
    names in the order of their first declaration, each once. *)
Theorem keys_in_declaration_order
  (nodes : list Node) (components : Components)
  (Hplain : Forall plainKey (scopeNames nodes))
  (Hparse : Builder.parseNodes nodes = Return components) :
  Comps.keys components = dedup (scopeNames nodes)
  /\ NoDup (Comps.keys components).
Proof.
  rewrite (keys_first_appearance nodes components Hplain Hparse).
  split; [reflexivity | apply NoDup_dedup].
Qed.

Lemma plainKey_examples :
  Forall plainKey
    (scopeNames [ scopeNode "(.card)"; ruleNode "div:scope";
                  scopeNode "(.my-button)"; scopeNode "(.card)" ]).
Proof.
  repeat constructor; try discriminate; reflexivity.
Qed.

Lemma keys_in_declaration_order_witness :
  Forall plainKey
    (scopeNames [ scopeNode "(.card)"; ruleNode "div:scope";
                  scopeNode "(.my-button)"; scopeNode "(.card)" ])
  /\ Comps.keys
       {| protoSlot := None;
          own := [("Card", freshComponent); ("MyButton", freshComponent)] |}
     = ["Card"; "MyButton"].
Proof.
  split; [exact plainKey_examples|].
  exact (proj1 (keys_in_declaration_order
                  [ scopeNode "(.card)"; ruleNode "div:scope";
                    scopeNode "(.my-button)"; scopeNode "(.card)" ]
                  {| protoSlot := None;
                     own := [("Card", freshComponent);
                             ("MyButton", freshComponent)] |}
                  plainKey_examples eq_refl)).
Defined.

Lemma Comps_get_set_other n k c components :
  k <> n ->
  (n = "__proto__" -> protoSlot components <> None) ->
  Comps.get (Comps.set n c components) k = Comps.get components k.
Proof.
  intros Hk Hp. unfold Comps.set, Comps.get.
  destruct (String.eqb n "__proto__") eqn:E; simpl.
  - apply String.eqb_eq in E. subst n.
    destruct (JsObject.lookup k (own components)); [reflexivity|].
    apply String.eqb_neq in Hk. rewrite Hk.
    destruct (JsObject.inherited k); [reflexivity|].
    destruct (protoSlot components); [reflexivity|].
    exfalso. now apply Hp.
  - now rewrite lookup_set_other.
Qed.

Lemma get_proto_slot components c :
  JsObject.lookup "__proto__" (own components) = None ->
  Comps.get components "__proto__" = JsObject.Value c ->
  protoSlot components <> None.
Proof.
  unfold Comps.get. intros ->. simpl.
  destruct (protoSlot components); [discriminate | discriminate].
Qed.

(** X3.  In any state the builder reaches, a rule node leaves the cursor
    and the keys of the map as they are, and changes no component but
    the one the cursor names. *)
Theorem rule_touches_only_current
  (pre : list Node) (node : Node) (components components' : Components)
  (name name' : option string)
  (Hrun : Builder.run Builder.initial pre = Return (components, name))
  (Hrule : nodeType node = "rule")
  (Hstep : Builder.step (components, name) node = Return (components', name')) :
  name' = name
  /\ Comps.keys components' = Comps.keys components
  /\ forall k, name <> Some k ->
       Comps.get components' k = Comps.get components k.
Proof.
  pose proof (run_invariant _ _ _ initial_invariant Hrun) as [Hp _].
  simpl in Hp. revert Hstep. unfold Builder.step. rewrite Hrule. simpl.
  destruct (nodeProps node) as [|prop ps];
    [intros [= <- <-]; auto|].
  destruct name as [n|]; [|intros [= <- <-]; auto].
  destruct (Comps.get components n) as [component| |] eqn:Eg;
    [|discriminate|intros [= <- <-]; auto].
  intros [= <- <-]. split; [reflexivity|]. split.
  - eauto using keys_Comps_set_found.
  - intros k Hk. apply Comps_get_set_other; [congruence|].
    intros ->. eauto using get_proto_slot.
Qed.

Lemma rule_touches_only_current_witness :
  Builder.run Builder.initial [scopeNode "(.a)"; scopeNode "(.b)"]
  = Return ({| protoSlot := None;
               own := [("A", freshComponent); ("B", freshComponent)] |},
            Some "B")
  /\ Comps.get
       {| protoSlot := None;
          own := [("A", freshComponent);
                  ("B", {| tag := "div"; data := [] |})] |} "A"
     = JsObject.Value freshComponent.
Proof.
  split; [reflexivity|].
  exact (proj2 (proj2 (rule_touches_only_current
                         [scopeNode "(.a)"; scopeNode "(.b)"]
                         (ruleNode "div:scope")
                         {| protoSlot := None;
                            own := [("A", freshComponent);
                                    ("B", freshComponent)] |}
                         {| protoSlot := None;
                            own := [("A", freshComponent);
                                    ("B", {| tag := "div"; data := [] |})] |}
                         (Some "B") (Some "B") eq_refl eq_refl eq_refl))
           "A" ltac:(discriminate)).
Defined.

Lemma run_rules_current rules :
  Forall (fun r => nodeType r = "rule") rules ->
  forall components n component,
    JsObject.lookup "__proto__" (own components) = None ->
    Comps.get components n = JsObject.Value component ->
    exists components',
      Builder.run (components, Some n) rules = Return (components', Some n)
      /\ JsObject.lookup "__proto__" (own components') = None
      /\ Comps.get components' n
         = JsObject.Value (applyRules rules component).
Proof.
  induction 1 as [|r rules Hr _ IH]; intros components n component Hp Hg.
  - exists components. auto.
  - cbn [Builder.run]. unfold Builder.step at 1. rewrite Hr. simpl.
    unfold applyRules. cbn [fold_left].
    destruct (nodeProps r) as [|prop ps]; simpl.
    + apply IH; assumption.
    + rewrite Hg. simpl.
      apply IH; [now apply Comps_set_own_proto|].
      now apply Comps_get_set_same.
Qed.

(** X4.  A scope declaration starts its component afresh, whatever was
    processed before, also under the same name: after the declaration
    and the rule nodes that follow it, the component found under the
    declared name is the fresh component to which those rules were
    applied in order, and the cursor is that name. *)
Theorem component_from_rules_since_declaration
  (pre rules : list Node) (prop : string) (props : list string)
  (components0 : Components) (name0 : option string)
  (Hpre : Builder.run Builder.initial pre = Return (components0, name0))
  (Hrules : Forall (fun r => nodeType r = "rule") rules) :
  exists components,
    Builder.run Builder.initial (pre ++ mkNode "@scope" (prop :: props) :: rules)
    = Return (components, Some (Builder.componentName prop))
    /\ Comps.get components (Builder.componentName prop)
       = JsObject.Value (applyRules rules freshComponent).
Proof.
  pose proof (run_invariant _ _ _ initial_invariant Hpre) as [Hp _].
  simpl in Hp. rewrite run_app, Hpre. cbn [bind Builder.run].
  unfold Builder.step at 1. simpl.
  destruct (run_rules_current rules Hrules
              (Comps.set (Builder.componentName prop)
                         {| tag := ""; data := [] |} components0)
              (Builder.componentName prop) freshComponent)
    as (components & Hr & _ & Hg).
  - now apply Comps_set_own_proto.
  - now apply Comps_get_set_same.
  - exists components. auto.
Qed.

Lemma component_from_rules_since_declaration_witness :
  Builder.run Builder.initial
    [scopeNode "(.card)"; ruleNode "div:scope"; ruleNode "[data-x]"]
  = Return ({| protoSlot := None;
               own := [("Card", {| tag := "div";
                                   data := [("x", Boolean)] |})] |},
            Some "Card")
  /\ Forall (fun r => nodeType r = "rule") [ruleNode "[data-size='sm']"]
  /\ exists components,
       Builder.run Builder.initial
         ([scopeNode "(.card)"; ruleNode "div:scope"; ruleNode "[data-x]"]
          ++ mkNode "@scope" ["(.card)"] :: [ruleNode "[data-size='sm']"])
       = Return (components, Some "Card")
       /\ Comps.get components "Card"
          = JsObject.Value {| tag := ""; data := [("size", Enum ["sm"])] |}.
Proof.
  split; [reflexivity|]. split; [repeat constructor|].
  exact (component_from_rules_since_declaration
           [scopeNode "(.card)"; ruleNode "div:scope"; ruleNode "[data-x]"]
           [ruleNode "[data-size='sm']"] "(.card)" []
           _ _ eq_refl
           (Forall_cons (P := fun r => nodeType r = "rule")
              (ruleNode "[data-size='sm']") eq_refl (Forall_nil _))).
Defined.

(** ** Builder: tag binding and names *)

Lemma endsWith_app (a b : string) : Str.endsWith (a ++ b)%string b = true.
Proof.
  induction a as [|c a IH].
  - destruct b; simpl; now rewrite ?String.eqb_refl, ?Ascii.eqb_refl.
  - cbn [append Str.endsWith].
    destruct (String.eqb (String c (a ++ b)) b); [reflexivity | exact IH].
Qed.

(** X5.  For a selector made of a text without the marker [:scope]
    followed by the marker, the rule sets the tag to that text and
    leaves the data map as it is. *)
Theorem tag_binding_sets_prefix (t : string) (component : Component)
  (Hsingle : Str.includes t ":scope" = false) :
  Builder.applyRule (t ++ ":scope")%string component
  = {| tag := t; data := data component |}.
Proof.
  rewrite tag_binding_skips_scans by apply endsWith_app.
  now rewrite tag_of_single_marker.
Qed.

Lemma tag_binding_sets_prefix_witness :
  Str.includes "button" ":scope" = false
  /\ Builder.applyRule "button:scope"
       {| tag := "div"; data := [("x", Boolean)] |}
     = {| tag := "button"; data := [("x", Boolean)] |}.
Proof.
  split; [reflexivity|].
  exact (tag_binding_sets_prefix "button"
           {| tag := "div"; data := [("x", Boolean)] |} eq_refl).
Defined.

Lemma allChars_app p (a b : string) :
  allChars p (a ++ b)%string = allChars p a && allChars p b.
Proof.
  induction a as [|c a IH]; simpl; [reflexivity|].
  now rewrite IH, andb_assoc.
Qed.

Lemma allChars_weaken (p q : ascii -> bool) (s : string) :
  (forall c, p c = true -> q c = true) ->
  allChars p s = true -> allChars q s = true.
Proof.
  intros Hpq. induction s as [|c s IH]; simpl; [reflexivity|].
  intros H. apply andb_prop in H as [Hc Hs].
  now rewrite (Hpq c Hc), IH.
Qed.

Lemma allChars_concat p (l : list string) :
  Forall (fun w => allChars p w = true) l ->
  allChars p (String.concat EmptyString l) = true.
Proof.
  induction 1 as [|w r Hw _ IH]; [reflexivity|].
  destruct r as [|x r]; simpl in *; [assumption|].
  now rewrite allChars_app, Hw, IH.
Qed.

Lemma replaceFirst_closing (s : string) :
  allChars (fun c => negb (Ascii.eqb c ")")) s = true ->
  Str.replaceFirst ")" "" (s ++ ")")%string = s.
Proof.
  induction s as [|c s IH]; intros H; [reflexivity|].
  cbn [allChars] in H. apply andb_prop in H as [Hc Hs].
  apply negb_true_iff in Hc.
  cbn [append Str.replaceFirst Str.dropPrefix].
  rewrite Ascii.eqb_sym, Hc. now rewrite IH.
Qed.

Lemma isLower_not_paren c :
  Str.isLower c = true -> negb (Ascii.eqb c ")") = true.
Proof.
  intros H. destruct (Ascii.eqb_spec c ")") as [->|]; [|reflexivity].
  vm_compute in H. discriminate.
Qed.

Lemma kebab_has_no_paren (first : string) (others : list string) :
  lowerWord first -> Forall lowerWord others ->
  allChars (fun c => negb (Ascii.eqb c ")"))
    (first ++ String.concat EmptyString (map (String "-") others))%string
  = true.
Proof.
  intros [_ Hf] Ho. rewrite allChars_app.
  rewrite (allChars_weaken _ _ first isLower_not_paren Hf). simpl.
  apply allChars_concat. apply Forall_map.
  apply Forall_impl with (2 := Ho). intros w [_ Hw]. simpl.
  now apply (allChars_weaken _ _ w isLower_not_paren).
Qed.

(** X6.  For a scope prop [(.name)] whose name is kebab-case (non-empty
    lower-case words joined by single hyphens), the component name is
    the words with their first letters in upper case, joined without
    hyphens. *)
Theorem componentName_of_kebab (first : string) (others : list string)
  (Hfirst : lowerWord first) (Hothers : Forall lowerWord others) :
  Builder.componentName
    ("(." ++ (first ++ String.concat EmptyString (map (String "-") others))
     ++ ")")%string
  = (capitalize first
     ++ String.concat EmptyString (map capitalize others))%string.
Proof.
  unfold Builder.componentName.
  change (Str.replaceFirst "(." "" ("(." ++ ?x)%string) with x.
  rewrite replaceFirst_closing by now apply kebab_has_no_paren.
  now apply toPascalCase_kebab.
Qed.

Lemma lowerWord_my : lowerWord "my".
Proof. split; [discriminate | reflexivity]. Qed.

Lemma lowerWord_button : Forall lowerWord ["big"; "button"].
Proof. repeat constructor; discriminate. Qed.

Lemma componentName_of_kebab_witness :
  lowerWord "my" /\ Forall lowerWord ["big"; "button"]
  /\ Builder.componentName "(.my-big-button)" = "MyBigButton".
Proof.
  split; [exact lowerWord_my|]. split; [exact lowerWord_button|].
  exact (componentName_of_kebab "my" ["big"; "button"]
           lowerWord_my lowerWord_button).
Defined.

(** ** Case conversions *)

Lemma toUpperCase_not_lower c :
  Str.isLower c = true -> Str.isLower (Str.toUpperCase c) = false.
Proof.
  destruct c as [[] [] [] [] [] [] [] []]; vm_compute; congruence.
Qed.

Lemma toUpperCase_not_hyphen c :
  Str.isLower c = true -> Ascii.eqb (Str.toUpperCase c) "-" = false.
Proof.
  destruct c as [[] [] [] [] [] [] [] []]; vm_compute; congruence.
Qed.

Lemma pascalFrom_false (s : string) :
  Regex.pascalFrom false s = Regex.toCamelCase s.
Proof.
  assert (H : forall n s, String.length s <= n ->
                          Regex.pascalFrom false s = Regex.toCamelCase s).
  { induction n as [|n IH]; intros [|c rest] Hl; simpl in *;
      try reflexivity; [lia|].
    destruct (Ascii.eqb c "-").
    - destruct rest as [|d rest']; [reflexivity|]. simpl in Hl.
      destruct (Str.isLower d); f_equal; apply IH; simpl; lia.
    - f_equal. apply IH. lia. }
  now apply (H (String.length s)).
Qed.

Lemma startsLower_toCamelCase (s : string) :
  startsLower (Regex.toCamelCase s) = startsLower s.
Proof.
  destruct s as [|c rest]; [reflexivity|]. simpl.
  destruct (Ascii.eqb_spec c "-") as [->|Hc]; [|reflexivity].
  destruct rest as [|d rest']; [reflexivity|].
  destruct (Str.isLower d) eqn:Ed; [|reflexivity].
  simpl. now rewrite toUpperCase_not_lower.
Qed.

Lemma toCamelCase_converted (s : string) :
  hasHyphenLower (Regex.toCamelCase s) = false.
Proof.
  assert (H : forall n s, String.length s <= n ->
                          hasHyphenLower (Regex.toCamelCase s) = false).
  { induction n as [|n IH]; intros [|c rest] Hl; simpl in *;
      try reflexivity; [lia|].
    destruct (Ascii.eqb_spec c "-") as [->|Hc].
    - destruct rest as [|d rest']; [reflexivity|]. simpl in Hl.
      destruct (Str.isLower d) eqn:Ed.
      + cbn [hasHyphenLower]. rewrite toUpperCase_not_hyphen by assumption.
        simpl. apply IH. lia.
      + cbn [hasHyphenLower]. rewrite startsLower_toCamelCase.
        cbn [startsLower]. rewrite Ed, andb_false_r. cbn [orb].
        apply IH. simpl. lia.
    - cbn [hasHyphenLower]. apply Ascii.eqb_neq in Hc. rewrite Hc. simpl.
      apply IH. lia. }
  now apply (H (String.length s)).
Qed.

Lemma toCamelCase_fixed (t : string) :
  hasHyphenLower t = false -> Regex.toCamelCase t = t.
Proof.
  induction t as [|c rest IH]; [reflexivity|].
  cbn [hasHyphenLower]. intros H. apply orb_false_elim in H as [H1 H2].
  cbn [Regex.toCamelCase].
  destruct (Ascii.eqb c "-"); simpl in H1.
  - destruct rest as [|d rest']; [reflexivity|]. simpl in H1.
    rewrite H1. now rewrite IH.
  - now rewrite IH.
Qed.

(** X7.  Whatever the scope prop, the component name does not start
    with a lower-case letter and holds no hyphen directly followed by a
    lower-case letter; converting it again changes nothing.  Likewise
    the camelCase form of an attribute name holds no hyphen directly
    followed by a lower-case letter and is left unchanged by a second
    conversion. *)
Theorem converted_names_are_stable (prop attribute : string) :
  startsLower (Builder.componentName prop) = false
  /\ hasHyphenLower (Builder.componentName prop) = false
  /\ Regex.toPascalCase (Builder.componentName prop)
     = Builder.componentName prop
  /\ hasHyphenLower (Regex.toCamelCase attribute) = false
  /\ Regex.toCamelCase (Regex.toCamelCase attribute)
     = Regex.toCamelCase attribute.
Proof.
  assert (Hs : forall s, startsLower (Regex.toPascalCase s) = false).
  { intros [|c rest]; [reflexivity|]. unfold Regex.toPascalCase. simpl.
    destruct (Str.isLower c) eqn:Ec; simpl.
    - now apply toUpperCase_not_lower.
    - change (startsLower (Regex.pascalFrom false (String c rest)) = false).
      rewrite pascalFrom_false, startsLower_toCamelCase. exact Ec. }
  assert (Hh : forall s, hasHyphenLower (Regex.toPascalCase s) = false).
  { intros [|c rest]; [reflexivity|]. unfold Regex.toPascalCase. simpl.
    destruct (Str.isLower c) eqn:Ec; simpl.
    - rewrite toUpperCase_not_hyphen by assumption. simpl.
      rewrite pascalFrom_false. apply toCamelCase_converted.
    - change (hasHyphenLower (Regex.pascalFrom false (String c rest)) = false).
      rewrite pascalFrom_false. apply toCamelCase_converted. }
  assert (Hf : forall t, startsLower t = false -> hasHyphenLower t = false ->
                         Regex.toPascalCase t = t).
  { intros [|c rest] H1 H2; [reflexivity|]. simpl in H1.
    unfold Regex.toPascalCase. cbn [Regex.pascalFrom]. rewrite H1. simpl.
    change (Regex.pascalFrom false (String c rest) = String c rest).
    rewrite pascalFrom_false. now apply toCamelCase_fixed. }
  unfold Builder.componentName. repeat split; auto.
  - apply toCamelCase_converted.
  - apply toCamelCase_fixed, toCamelCase_converted.
Qed.

(** ** Matchers found in a selector *)

Lemma matchAllFrom_sound {A : Type} (execAt : string -> option (A * nat))
      (m : A) (s : string) :
  forall skip,
    In m (Regex.matchAllFrom execAt skip s) ->
    exists pre suf len,
      s = (pre ++ suf)%string /\ execAt suf = Some (m, len).
Proof.
  induction s as [|c s IH]; intros skip; simpl.
  - destruct skip; [|intros []].
    destruct (execAt EmptyString) as [[m' len]|] eqn:E; [|intros []].
    intros [<- | []]. exists EmptyString, EmptyString, len. auto.
  - assert (Hrest : forall k,
               In m (Regex.matchAllFrom execAt k s) ->
               exists pre suf len,
                 String c s = (pre ++ suf)%string
                 /\ execAt suf = Some (m, len)).
    { intros k H. destruct (IH k H) as (pre & suf & len & -> & E).
      exists (String c pre), suf, len. auto. }
    destruct skip as [|k]; [|apply Hrest].
    destruct (execAt (String c s)) as [[m' len]|] eqn:E; [|apply Hrest].
    intros [<- | H]; [|eapply Hrest; eassumption].
    exists EmptyString, (String c s), len. auto.
Qed.

Lemma enumDataAttributeRegex_head s a v len :
  Regex.enumDataAttributeRegex s = Some ((a, v), len) ->
  exists rest,
    s = ("[data-" ++ a ++ "='" ++ v ++ "']" ++ rest)%string
    /\ a <> EmptyString
    /\ allChars Regex.isAttributeChar a = true
    /\ allChars Regex.notQuote v = true.
Proof.
  unfold Regex.enumDataAttributeRegex.
  destruct (Str.dropPrefix "[data-" s) as [r1|] eqn:E1; [|discriminate].
  destruct (Str.span Regex.isAttributeChar r1) as [a' r2] eqn:E2.
  destruct (String.eqb a' "") eqn:Ea; [discriminate|].
  destruct (Str.dropPrefix "='" r2) as [r3|] eqn:E3; [|discriminate].
  destruct (Str.span Regex.notQuote r3) as [v' r4] eqn:E4.
  destruct (Str.dropPrefix "']" r4) as [rest|] eqn:E5; [|discriminate].
  intros [= <- <- _].
  apply dropPrefix_Some in E1, E3, E5.
  apply span_spec in E2 as (-> & Ha & _).
  apply span_spec in E4 as (-> & Hv & _).
  subst. exists rest. apply String.eqb_neq in Ea. auto.
Qed.

Lemma booleanDataAttributeRegex_head s a len :
  Regex.booleanDataAttributeRegex s = Some (a, len) ->
  exists rest,
    s = ("[data-" ++ a ++ "]" ++ rest)%string
    /\ a <> EmptyString
    /\ allChars Regex.isAttributeChar a = true.
Proof.
  unfold Regex.booleanDataAttributeRegex.
  destruct (Str.dropPrefix "[data-" s) as [r1|] eqn:E1; [|discriminate].
  destruct (Str.span Regex.isAttributeChar r1) as [a' r2] eqn:E2.
  destruct (String.eqb a' "") eqn:Ea; [discriminate|].
  destruct r2 as [|c rest]; [discriminate|].
  destruct (Ascii.eqb_spec c "]") as [->|Hc].
  - intros [= <- _]. apply dropPrefix_Some in E1.
    apply span_spec in E2 as (-> & Ha & _).
    subst. exists rest. apply String.eqb_neq in Ea. auto.
  - intros H. exfalso. revert H.
    destruct c as [[] [] [] [] [] [] [] []]; try discriminate.
    now contradiction Hc.
Qed.

Lemma matchers_occur_in_selector_aux (prop attribute value : string) :
  (In (attribute, value) (Regex.enumMatches prop) ->
   attribute <> EmptyString
   /\ allChars Regex.isAttributeChar attribute = true)
  /\ (In attribute (Regex.booleanMatches prop) ->
      attribute <> EmptyString
      /\ allChars Regex.isAttributeChar attribute = true).
Proof.
  split; intros H;
    apply matchAllFrom_sound in H as (pre & suf & len & -> & E).
  - apply enumDataAttributeRegex_head in E as (rest & -> & H). tauto.
  - apply booleanDataAttributeRegex_head in E as (rest & -> & H). tauto.
Qed.

Lemma enumMatches_quote_free (prop attribute value : string) :
  In (attribute, value) (Regex.enumMatches prop) ->
  allChars Regex.notQuote value = true.
Proof.
  intros H. apply matchAllFrom_sound in H as (pre & suf & len & -> & E).
  apply enumDataAttributeRegex_head in E as (rest & -> & H). tauto.
Qed.

(** X8.  The scans invent nothing: every enum match [(attribute,
    value)] of a selector stands in it as the text
    [[data-attribute='value']], the attribute a non-empty run of
    lower-case letters and hyphens and the value free of quotes, and
    every boolean match stands in it as [[data-attribute]]. *)
Theorem matchers_occur_in_selector (prop attribute value : string) :
  (In (attribute, value) (Regex.enumMatches prop) ->
   exists pre post,
     prop = (pre ++ "[data-" ++ attribute ++ "='" ++ value ++ "']"
             ++ post)%string
     /\ attribute <> EmptyString
     /\ allChars Regex.isAttributeChar attribute = true
     /\ allChars Regex.notQuote value = true)
  /\ (In attribute (Regex.booleanMatches prop) ->
      exists pre post,
        prop = (pre ++ "[data-" ++ attribute ++ "]" ++ post)%string
        /\ attribute <> EmptyString
        /\ allChars Regex.isAttributeChar attribute = true).
Proof.
  split; intros H;
    apply matchAllFrom_sound in H as (pre & suf & len & -> & E).
  - apply enumDataAttributeRegex_head in E as (rest & -> & H).
    exists pre, rest. auto.
  - apply booleanDataAttributeRegex_head in E as (rest & -> & H).
    exists pre, rest. auto.
Qed.

Lemma matchers_occur_in_selector_witness :
  In ("size", "sm") (Regex.enumMatches "a[data-on][data-size='sm']")
  /\ In "on" (Regex.booleanMatches "a[data-on][data-size='sm']")
  /\ (exists pre post,
        "a[data-on][data-size='sm']"
        = (pre ++ "[data-" ++ "size" ++ "='" ++ "sm" ++ "']" ++ post)%string)
  /\ (exists pre post,
        "a[data-on][data-size='sm']"
        = (pre ++ "[data-" ++ "on" ++ "]" ++ post)%string).
Proof.
  split; [now left|]. split; [now left|]. split.
  - destruct (proj1 (matchers_occur_in_selector
                       "a[data-on][data-size='sm']" "size" "sm")
                (or_introl eq_refl)) as (pre & post & E & _).
    exists pre, post. exact E.
  - destruct (proj2 (matchers_occur_in_selector
                       "a[data-on][data-size='sm']" "on" "sm")
                (or_introl eq_refl)) as (pre & post & E & _).
    exists pre, post. exact E.
Defined.

(** ** Order of the data keys *)

Lemma arrayIndex_nondigit c rest :
  Str.isDigit c = false -> JsObject.arrayIndex (String c rest) = None.
Proof.
  intros H. unfold JsObject.arrayIndex.
  destruct (Ascii.eqb c "0" && negb (String.eqb rest "")); [reflexivity|].
  simpl. now rewrite H.
Qed.

Lemma isLower_not_digit c : Str.isLower c = true -> Str.isDigit c = false.
Proof.
  destruct c as [[] [] [] [] [] [] [] []]; vm_compute; congruence.
Qed.

Lemma toUpperCase_not_digit c :
  Str.isLower c = true -> Str.isDigit (Str.toUpperCase c) = false.
Proof.
  destruct c as [[] [] [] [] [] [] [] []]; vm_compute; congruence.
Qed.

Lemma attribute_not_index (a : string) :
  a <> EmptyString -> allChars Regex.isAttributeChar a = true ->
  JsObject.arrayIndex a = None
  /\ JsObject.arrayIndex (Regex.toCamelCase a) = None.
Proof.
  destruct a as [|c rest]; [contradiction|]. intros _ H.
  cbn [allChars] in H. apply andb_prop in H as [Hc _].
  unfold Regex.isAttributeChar in Hc.
  destruct (Ascii.eqb_spec c "-") as [->|Hne].
  - split; [now apply arrayIndex_nondigit|].
    cbn [Regex.toCamelCase]. rewrite Ascii.eqb_refl.
    destruct rest as [|d rest']; [reflexivity|].
    destruct (Str.isLower d) eqn:Ed; apply arrayIndex_nondigit;
      [now apply toUpperCase_not_digit | reflexivity].
  - rewrite orb_false_r in Hc.
    split; [now apply arrayIndex_nondigit, isLower_not_digit|].
    cbn [Regex.toCamelCase]. apply Ascii.eqb_neq in Hne. rewrite Hne.
    now apply arrayIndex_nondigit, isLower_not_digit.
Qed.

Lemma keys_orAssign k v (d : Data) :
  JsObject.arrayIndex k = None ->
  JsObject.keys (Builder.orAssign k v d) = JsObject.keys d
  \/ (JsObject.lookup k d = None
      /\ JsObject.keys (Builder.orAssign k v d) = JsObject.keys d ++ [k]).
Proof.
  intros Hi. unfold Builder.orAssign, JsObject.get.
  destruct (JsObject.lookup k d) eqn:El; [now left|].
  destruct (JsObject.inherited k); [now left|].
  right. split; [reflexivity|]. now apply keys_set_absent.
Qed.

Lemma keys_enumStep (d : Data) attribute value :
  JsObject.arrayIndex (Regex.toCamelCase attribute) = None ->
  JsObject.keys (Builder.enumStep d (attribute, value)) = JsObject.keys d
  \/ JsObject.keys (Builder.enumStep d (attribute, value))
     = JsObject.keys d ++ [Regex.toCamelCase attribute].
Proof.
  intros Hi. unfold Builder.enumStep.
  set (k := Regex.toCamelCase attribute) in *.
  set (d1 := Builder.orAssign k (Enum []) d).
  assert (H1 : JsObject.keys d1 = JsObject.keys d
               \/ JsObject.keys d1 = JsObject.keys d ++ [k]).
  { destruct (keys_orAssign k (Enum []) d Hi) as [H | [_ H]]; auto. }
  unfold JsObject.get.
  destruct (JsObject.lookup k d1) as [[attr|]|] eqn:El; try exact H1.
  - destruct (existsb (String.eqb value) attr); [exact H1|].
    rewrite keys_set_present by congruence. exact H1.
  - destruct (JsObject.inherited k); exact H1.
Qed.

Lemma keys_fold {A : Type} (f : Data -> A -> Data) (key : A -> string)
      (ms : list A) :
  (forall d m, In m ms ->
               JsObject.keys (f d m) = JsObject.keys d
               \/ JsObject.keys (f d m) = JsObject.keys d ++ [key m]) ->
  forall d, exists added,
    JsObject.keys (fold_left f ms d) = JsObject.keys d ++ added
    /\ Forall (fun k => exists m, In m ms /\ k = key m) added.
Proof.
  induction ms as [|m ms IH]; intros Hf d; simpl.
  - exists []. now rewrite app_nil_r.
  - destruct (IH (fun d0 m0 H => Hf d0 m0 (or_intror H)) (f d m))
      as (added & E & Ha).
    assert (Ha' : Forall (fun k => exists m0, (m = m0 \/ In m0 ms)
                                              /\ k = key m0) added).
    { apply Forall_impl with (2 := Ha). intros k (m0 & H & ->). eauto. }
    destruct (Hf d m (or_introl eq_refl)) as [Hk | Hk]; rewrite Hk in E.
    + exists added. auto.
    + exists (key m :: added). rewrite <- app_assoc in E. split; [exact E|].
      constructor; [eauto | exact Ha'].
Qed.

(** X9.  A rule never removes or reorders data keys: the keys after the
    rule are the keys before it followed by new ones, and each new key
    is the camelCase form of an attribute of an enum match of the
    selector or the attribute of a boolean match as written. *)
Theorem data_keys_only_grow (prop : string) (component : Component) :
  exists added,
    JsObject.keys (data (Builder.applyRule prop component))
    = JsObject.keys (data component) ++ added
    /\ Forall (fun k =>
                 (exists attribute value,
                    In (attribute, value) (Regex.enumMatches prop)
                    /\ k = Regex.toCamelCase attribute)
                 \/ In k (Regex.booleanMatches prop)) added.
Proof.
  unfold Builder.applyRule.
  destruct (Str.endsWith prop ":scope"); simpl.
  { exists []. now rewrite app_nil_r. }
  unfold Builder.scanBoolean, Builder.scanEnum.
  destruct (keys_fold Builder.enumStep (fun m => Regex.toCamelCase (fst m))
              (Regex.enumMatches prop)) with (d := data component)
    as (added1 & E1 & H1).
  { intros d [a v] Hin.
    destruct (proj1 (matchers_occur_in_selector_aux prop a v) Hin) as [Hne Ha].
    apply keys_enumStep. now apply attribute_not_index. }
  destruct (keys_fold Builder.booleanStep (fun a => a)
              (Regex.booleanMatches prop))
    with (d := fold_left Builder.enumStep (Regex.enumMatches prop)
                 (data component))
    as (added2 & E2 & H2).
  { intros d a Hin.
    destruct (proj2 (matchers_occur_in_selector_aux prop a a) Hin) as [Hne Ha].
    unfold Builder.booleanStep.
    destruct (keys_orAssign a Boolean d) as [H | [_ H]]; auto.
    now apply attribute_not_index. }
  exists (added1 ++ added2). rewrite E2, E1, app_assoc. split; [reflexivity|].
  apply Forall_app. split.
  - apply Forall_impl with (2 := H1). intros k ([a v] & Hin & ->).
    left. eauto.
  - apply Forall_impl with (2 := H2). intros k (a & Hin & ->). now right.
Qed.

(** ** Enum lists the builder stores *)

Lemma enumStep_wellFormed d attribute value :
  allChars Regex.notQuote value = true ->
  enumsWellFormed d ->
  enumsWellFormed (Builder.enumStep d (attribute, value)).
Proof.
  intros Hv Hd k l. rewrite enumStep_lookup.
  destruct (String.eqb (Regex.toCamelCase attribute) k); [|apply Hd].
  destruct (JsObject.lookup k d) as [[l0|]|] eqn:El.
  - intros [= <-]. destruct (Hd k l0 El) as [Hne Hall]. unfold appendNew.
    destruct (existsb (String.eqb value) l0); [now split|]. split.
    + destruct l0; discriminate.
    + apply Forall_app. split; [assumption | now repeat constructor].
  - discriminate.
  - destruct (JsObject.inherited k); [discriminate|].
    intros [= <-]. split; [discriminate | now repeat constructor].
Qed.

Lemma booleanStep_wellFormed d n :
  enumsWellFormed d -> enumsWellFormed (Builder.booleanStep d n).
Proof.
  intros Hd k l. unfold Builder.booleanStep. rewrite orAssign_lookup.
  destruct (String.eqb k n); [|apply Hd].
  destruct (JsObject.lookup k d) eqn:El.
  - intros [= ->]. eauto.
  - destruct (JsObject.inherited k); discriminate.
Qed.

Lemma fold_left_invariant {A S : Type} (P : S -> Prop) (f : S -> A -> S)
      (l : list A) :
  (forall s x, In x l -> P s -> P (f s x)) ->
  forall s, P s -> P (fold_left f l s).
Proof.
  induction l as [|x l IH]; intros Hf s Hs; simpl; [assumption|].
  apply IH; [intros; apply Hf; auto; now right|].
  apply Hf; [now left | assumption].
Qed.

Lemma applyRule_wellFormed prop component :
  enumsWellFormed (data component) ->
  enumsWellFormed (data (Builder.applyRule prop component)).
Proof.
  intros H. unfold Builder.applyRule.
  destruct (Str.endsWith prop ":scope"); simpl; [assumption|].
  unfold Builder.scanBoolean, Builder.scanEnum.
  apply fold_left_invariant;
    [intros d n _; apply booleanStep_wellFormed|].
  apply fold_left_invariant; [|assumption].
  intros d [a v] Hin. apply enumStep_wellFormed.
  eauto using enumMatches_quote_free.
Qed.

Lemma get_Value_wellFormed components n c :
  componentsWellFormed components ->
  Comps.get components n = JsObject.Value c -> enumsWellFormed (data c).
Proof.
  intros [Ho Hp]. unfold Comps.get.
  destruct (JsObject.lookup n (own components)) eqn:El.
  - intros [= <-]. eauto.
  - destruct (String.eqb n "__proto__").
    + destruct (protoSlot components) eqn:Ep; [|discriminate].
      intros [= <-]. eauto.
    + destruct (JsObject.inherited n); [discriminate|].
      destruct (protoSlot components); [|discriminate].
      destruct (String.eqb n "tag" || String.eqb n "data"); discriminate.
Qed.

Lemma set_componentsWellFormed components n c :
  componentsWellFormed components -> enumsWellFormed (data c) ->
  componentsWellFormed (Comps.set n c components).
Proof.
  intros [Ho Hp] Hc. unfold Comps.set.
  destruct (String.eqb n "__proto__"); split; simpl; auto.
  - now intros p [= <-].
  - intros k c'. destruct (string_dec k n) as [->|Hne].
    + rewrite lookup_set_same. now intros [= <-].
    + rewrite lookup_set_other by assumption. apply Ho.
Qed.

Lemma step_componentsWellFormed st node st' :
  componentsWellFormed (fst st) -> Builder.step st node = Return st' ->
  componentsWellFormed (fst st').
Proof.
  destruct st as [components name]. simpl. intros Hd.
  unfold Builder.step.
  destruct (String.eqb (nodeType node) "@scope").
  - destruct (nodeProps node); [discriminate|].
    intros [= <-]. simpl. apply set_componentsWellFormed; [assumption|].
    intros k0 l0. discriminate.
  - destruct (String.eqb (nodeType node) "rule"); [|now intros [= <-]].
    destruct (nodeProps node) as [|prop ps]; [now intros [= <-]|].
    destruct name as [n|]; [|now intros [= <-]].
    destruct (Comps.get components n) as [component| |] eqn:Eg;
      [|discriminate|now intros [= <-]].
    intros [= <-]. simpl. apply set_componentsWellFormed; [assumption|].
    apply applyRule_wellFormed. eauto using get_Value_wellFormed.
Qed.

Lemma run_componentsWellFormed nodes st st' :
  componentsWellFormed (fst st) -> Builder.run st nodes = Return st' ->
  componentsWellFormed (fst st').
Proof.
  revert st. induction nodes as [|node rest IH]; intros st Hd; simpl.
  - now intros [= <-].
  - intros H. apply bind_Return in H as (st1 & H1 & H2).
    eauto using step_componentsWellFormed.
Qed.

(** X10.  In every map the builder returns, an Enum list holds at least
    one value and none of its values holds a single quote. *)
Theorem enum_lists_nonempty_and_quote_free
  (nodes : list Node) (components : Components) (n k : string)
  (c : Component) (l : list string)
  (Hparse : Builder.parseNodes nodes = Return components)
  (Hget : Comps.get components n = JsObject.Value c)
  (Henum : JsObject.lookup k (data c) = Some (Enum l)) :
  l <> [] /\ Forall (fun v => allChars Regex.notQuote v = true) l.
Proof.
  unfold Builder.parseNodes in Hparse.
  apply bind_Return in Hparse as (st & H1 & [= <-]).
  assert (Hw : componentsWellFormed (fst st)).
  { apply (run_componentsWellFormed nodes Builder.initial); [|assumption].
    split; simpl; discriminate. }
  exact (get_Value_wellFormed _ _ _ Hw Hget k l Henum).
Qed.

Lemma enum_lists_nonempty_and_quote_free_witness :
  Builder.parseNodes [scopeNode "(.card)"; ruleNode "[data-size='sm']"]
  = Return {| protoSlot := None;
              own := [("Card", {| tag := "";
                                  data := [("size", Enum ["sm"])] |})] |}
  /\ ["sm"] <> []
  /\ Forall (fun v => allChars Regex.notQuote v = true) ["sm"].
Proof.
  split; [reflexivity|].
  exact (enum_lists_nonempty_and_quote_free
           [scopeNode "(.card)"; ruleNode "[data-size='sm']"]
           {| protoSlot := None;
              own := [("Card", {| tag := "";
                                  data := [("size", Enum ["sm"])] |})] |}
           "Card" "size" {| tag := ""; data := [("size", Enum ["sm"])] |}
           ["sm"] eq_refl eq_refl eq_refl).
Defined.

(** ** Processing a selector twice *)

Lemma In_appendNew l v x : In x l \/ x = v -> In x (appendNew l v).
Proof.
  unfold appendNew. intros [H | ->].
  - destruct (existsb (String.eqb v) l); [assumption|].
    apply in_or_app. now left.
  - destruct (existsb (String.eqb v) l) eqn:E.
    + now apply existsb_eqb_In.
    + apply in_or_app. right. now left.
Qed.

Lemma enumStep_id d attribute value :
  settled (Regex.toCamelCase attribute) value d ->
  Builder.enumStep d (attribute, value) = d.
Proof.
  unfold settled, Builder.enumStep, Builder.orAssign, JsObject.get.
  cbv zeta.
  destruct (JsObject.lookup (Regex.toCamelCase attribute) d)
    as [[l|]|] eqn:El; intros H; rewrite ?El.
  - apply existsb_eqb_In in H. now rewrite H.
  - reflexivity.
  - rewrite H. cbn iota. rewrite El. reflexivity.
Qed.

Lemma enumStep_settles d attribute value :
  settled (Regex.toCamelCase attribute) value
          (Builder.enumStep d (attribute, value)).
Proof.
  unfold settled. rewrite enumStep_lookup, String.eqb_refl.
  destruct (JsObject.lookup (Regex.toCamelCase attribute) d) as [[l|]|].
  - apply In_appendNew. now right.
  - exact I.
  - destruct (JsObject.inherited (Regex.toCamelCase attribute)) eqn:Ei;
      [reflexivity | now left].
Qed.

Lemma enumStep_keeps_settled k v d m :
  settled k v d -> settled k v (Builder.enumStep d m).
Proof.
  destruct m as [a v']. unfold settled. rewrite enumStep_lookup.
  destruct (String.eqb (Regex.toCamelCase a) k); [|easy].
  destruct (JsObject.lookup k d) as [[l|]|]; intros H.
  - apply In_appendNew. now left.
  - exact I.
  - now rewrite H.
Qed.

Lemma booleanStep_keeps_settled k v d n :
  settled k v d -> settled k v (Builder.booleanStep d n).
Proof.
  unfold settled, Builder.booleanStep. rewrite orAssign_lookup.
  destruct (String.eqb k n); [|easy].
  destruct (JsObject.lookup k d) as [[l|]|]; intros H; try assumption.
  now rewrite H.
Qed.

Lemma fold_enumStep_settles ms :
  forall d a v, In (a, v) ms ->
    settled (Regex.toCamelCase a) v (fold_left Builder.enumStep ms d).
Proof.
  induction ms as [|m ms IH]; intros d a v; [intros []|].
  cbn [fold_left]. intros [-> | Hin]; [|now apply IH].
  apply fold_left_invariant; [|apply enumStep_settles].
  intros d0 m0 _. apply enumStep_keeps_settled.
Qed.

Lemma fold_left_id {A S : Type} (f : S -> A -> S) (l : list A) (s : S) :
  (forall x, In x l -> f s x = s) -> fold_left f l s = s.
Proof.
  induction l as [|x l IH]; intros H; simpl; [reflexivity|].
  rewrite (H x (or_introl eq_refl)). apply IH. intros y Hy. apply H. now right.
Qed.

Lemma booleanStep_id d n :
  settledBoolean n d -> Builder.booleanStep d n = d.
Proof.
  unfold settledBoolean, Builder.booleanStep, Builder.orAssign, JsObject.get.
  destruct (JsObject.lookup n d); intros [H | H];
    try reflexivity; try contradiction.
  now rewrite H.
Qed.

(** X11.  Applying a rule a second time to its own result changes
    nothing: a selector that occurs again right after itself adds no
    key, no value and no tag change. *)
Theorem rule_twice_is_rule_once (prop : string) (component : Component) :
  Builder.applyRule prop (Builder.applyRule prop component)
  = Builder.applyRule prop component.
Proof.
  unfold Builder.applyRule.
  destruct (Str.endsWith prop ":scope") eqn:E; simpl; [reflexivity|].
  f_equal.
  set (D := Builder.scanBoolean prop (Builder.scanEnum prop (data component))).
  assert (He : Builder.scanEnum prop D = D).
  { unfold Builder.scanEnum. apply fold_left_id. intros [a v] Hin.
    apply enumStep_id. unfold D, Builder.scanBoolean.
    apply fold_left_invariant;
      [intros d0 n0 _; apply booleanStep_keeps_settled|].
    now apply fold_enumStep_settles. }
  rewrite He. unfold Builder.scanBoolean at 1. apply fold_left_id.
  intros n Hin. apply booleanStep_id. unfold settledBoolean, D.
  unfold Builder.scanBoolean. rewrite fold_booleanStep_lookup.
  destruct (JsObject.lookup n (Builder.scanEnum prop (data component)));
    [left; discriminate|].
  apply existsb_eqb_In in Hin. rewrite Hin. simpl.
  destruct (JsObject.inherited n); [now right | left; discriminate].
Qed.

(** ** File drivers *)

Lemma replaceFirst_absent (pat rep s : string) :
  Str.includes s pat = false -> Str.replaceFirst pat rep s = s.
Proof.
  induction s as [|c s IH]; simpl.
  - destruct (Str.dropPrefix pat EmptyString); [discriminate | reflexivity].
  - destruct (Str.dropPrefix pat (String c s)); [discriminate|].
    intros H. now rewrite IH.
Qed.

Lemma css_not_across (s r : string) :
  Str.dropPrefix ".css" (s ++ ".mist.css")%string = Some r ->
  Str.dropPrefix ".css" s <> None.
Proof.
  intros H0.
  destruct s as [|c0 [|c1 [|c2 [|c3 s]]]];
    revert H0; cbn [Str.dropPrefix append];
    repeat (match goal with
            | |- context [Ascii.eqb ?a ?b] =>
                destruct (Ascii.eqb_spec a b) as [E|E];
                [try discriminate E; subst | try congruence]
            end; cbn [Str.dropPrefix append]);
    intros H; try discriminate H; discriminate.
Qed.

Lemma output_path_of_mist_css (stem : string) :
  Str.includes stem ".css" = false ->
  Str.replaceFirst ".css" ".tsx" (stem ++ ".mist.css")%string
  = (stem ++ ".mist.tsx")%string.
Proof.
  induction stem as [|c t IH]; intros H; [reflexivity|].
  cbn [Str.includes] in H.
  destruct (Str.dropPrefix ".css" (String c t)) eqn:Ed; [discriminate|].
  cbn [Str.replaceFirst append].
  destruct (Str.dropPrefix ".css" (String c (t ++ ".mist.css"))) eqn:Ed'.
  - exfalso. now apply (css_not_across (String c t) s Ed').
  - now rewrite IH.
Qed.

Lemma append_inv_head (a b c : string) :
  (a ++ b)%string = (a ++ c)%string -> b = c.
Proof.
  induction a as [|x a IH]; simpl; [easy|]. intros [= H]. auto.
Qed.

Lemma append_length (a b : string) :
  String.length (a ++ b) = String.length a + String.length b.
Proof.
  induction a as [|x a IH]; simpl; [reflexivity | now rewrite IH].
Qed.

Lemma parseNodes_Return nodes :
  existsb scopeWithoutProp nodes = false ->
  exists components,
    Builder.parseNodes nodes = Return components
    /\ NoDup (Comps.keys components).
Proof.
  intros H. pose proof (parseNodes_outcome nodes) as Ho. rewrite H in Ho.
  destruct Ho as [components Hp]. exists components. split; [assumption|].
  now destruct (parseNodes_wellKeyed _ _ Hp).
Qed.

(** X12.  For an input file [<stem>.mist.css] whose stem holds no
    [.css] and whose flattened nodes hold no scope without class, when
    the system accepts the write of [<stem>.mist.tsx], [createFile]
    ends well and has stored the rendered text of the parsed input in
    that file and nothing else: the output file holds the text, and the
    input file reads as before. *)
Theorem createFile_writes_beside_input
  (compile : string -> list Element)
  (basename : string -> string -> string)
  (stem input : string) (fs : Files)
  (Hstem : Str.includes stem ".css" = false)
  (Hread : readFileSync (stem ++ ".mist.css")%string fs = (Return input, fs))
  (Hscopes : existsb scopeWithoutProp (visit (compile input)) = false)
  (Hwrite : writeError fs (stem ++ ".mist.tsx")%string = None) :
  exists components text fs',
    parseInput compile input = Return components
    /\ Generator.render (basename (stem ++ ".mist.css")%string ".mist.css")
                        components = Return text
    /\ createFile compile basename (stem ++ ".mist.css")%string fs
       = (Return tt, fs')
    /\ contents fs' = ((stem ++ ".mist.tsx")%string, text) :: contents fs
    /\ JsObject.lookup (stem ++ ".mist.tsx")%string (contents fs') = Some text
    /\ readFileSync (stem ++ ".mist.css")%string fs' = (Return input, fs').
Proof.
  destruct (parseNodes_Return _ Hscopes) as (components & Hp & Hk).
  pose proof (render_of_entries
                (basename (stem ++ ".mist.css")%string ".mist.css")
                components Hk) as Hr.
  eexists components, _, _. split; [exact Hp|]. split; [exact Hr|].
  split; [|split; [|split]].
  - unfold createFile, ioBind, lift, parseInput.
    rewrite Hread, Hp, Hr. unfold writeFileSync.
    rewrite output_path_of_mist_css by assumption.
    rewrite Hwrite. reflexivity.
  - reflexivity.
  - cbn [contents store JsObject.lookup]. now rewrite String.eqb_refl.
  - unfold readFileSync in *. cbn [contents store readError JsObject.lookup].
    destruct (readError fs (stem ++ ".mist.css")); [discriminate|].
    destruct (String.eqb_spec (stem ++ ".mist.css") (stem ++ ".mist.tsx"))
      as [E|_].
    + apply append_inv_head in E. discriminate.
    + destruct (JsObject.lookup (stem ++ ".mist.css") (contents fs));
        [|discriminate].
      now injection Hread as ->.
Qed.

Lemma createFile_writes_beside_input_witness :
  Str.includes "card" ".css" = false
  /\ existsb scopeWithoutProp
       (visit [mkElement "@scope" (inr ["(.card)"]) (inr [])]) = false
  /\ exists text fs',
       createFile (fun _ => [mkElement "@scope" (inr ["(.card)"]) (inr [])])
                  (fun f _ => "card") "card.mist.css"
                  (mkFiles [("card.mist.css", "@scope (.card) {}")]
                           (fun _ => None) (fun _ => None))
       = (Return tt, fs')
       /\ contents fs'
          = [("card.mist.tsx", text); ("card.mist.css", "@scope (.card) {}")].
Proof.
  split; [reflexivity|]. split; [reflexivity|].
  destruct (createFile_writes_beside_input
              (fun _ => [mkElement "@scope" (inr ["(.card)"]) (inr [])])
              (fun f _ => "card") "card" "@scope (.card) {}"
              (mkFiles [("card.mist.css", "@scope (.card) {}")]
                       (fun _ => None) (fun _ => None))
              eq_refl eq_refl eq_refl eq_refl)
    as (components & text & fs' & _ & _ & H & Hc & _).
  exists text, fs'. split; [exact H | exact Hc].
Defined.

(** X13.  When the name of the input file holds no [.css], the output
    path is the input path: if the system accepts the write,
    [createFile] stores the text rendered from the parsed input in the
    input file itself, which reads as that text afterwards. *)
Theorem createFile_overwrites_input_without_css
  (compile : string -> list Element)
  (basename : string -> string -> string)
  (filename input : string) (fs : Files)
  (Hname : Str.includes filename ".css" = false)
  (Hread : readFileSync filename fs = (Return input, fs))
  (Hscopes : existsb scopeWithoutProp (visit (compile input)) = false)
  (Hwrite : writeError fs filename = None) :
  exists components text,
    parseInput compile input = Return components
    /\ Generator.render (basename filename ".mist.css") components
       = Return text
    /\ createFile compile basename filename fs
       = (Return tt, store filename text fs)
    /\ readFileSync filename (store filename text fs)
       = (Return text, store filename text fs).
Proof.
  destruct (parseNodes_Return _ Hscopes) as (components & Hp & Hk).
  pose proof (render_of_entries (basename filename ".mist.css")
                components Hk) as Hr.
  eexists components, _. split; [exact Hp|]. split; [exact Hr|].
  split.
  - unfold createFile, ioBind, lift, parseInput.
    rewrite Hread, Hp, Hr. unfold writeFileSync.
    rewrite replaceFirst_absent by assumption.
    now rewrite Hwrite.
  - unfold readFileSync in *. cbn [contents store readError JsObject.lookup].
    destruct (readError fs filename); [discriminate|].
    now rewrite String.eqb_refl.
Qed.

Lemma createFile_overwrites_input_without_css_witness :
  Str.includes "card.mist" ".css" = false
  /\ exists text,
       createFile (fun _ => []) (fun f _ => f) "card.mist"
                  (mkFiles [("card.mist", "a {}")]
                           (fun _ => None) (fun _ => None))
       = (Return tt,
          store "card.mist" text
            (mkFiles [("card.mist", "a {}")] (fun _ => None) (fun _ => None)))
       /\ readFileSync "card.mist"
            (store "card.mist" text
               (mkFiles [("card.mist", "a {}")]
                        (fun _ => None) (fun _ => None)))
          = (Return text,
             store "card.mist" text
               (mkFiles [("card.mist", "a {}")]
                        (fun _ => None) (fun _ => None))).
Proof.
  split; [reflexivity|].
  destruct (createFile_overwrites_input_without_css
              (fun _ => []) (fun f _ => f) "card.mist" "a {}"
              (mkFiles [("card.mist", "a {}")] (fun _ => None) (fun _ => None))
              eq_refl eq_refl eq_refl eq_refl)
    as (components & text & _ & _ & H & Hback).
  exists text. split; [exact H | exact Hback].
Defined.

(** X14.  The driver of the single-component variant appends [.tsx] to
    the file name, so its output path never is its input path: for an
    input with a tag binding, when the system accepts the write,
    [genFile] ends well, the file [<filename>.tsx] holds the rendered
    text and the input file reads as before. *)
Theorem genFile_keeps_input
  (basename : string -> string -> string)
  (filename input : string) (fs : Files)
  (Hread : readFileSync filename fs = (Return input, fs))
  (Htag : hasTagBinding input)
  (Hwrite : writeError fs (filename ++ ".tsx")%string = None) :
  exists parsed fs',
    Single.parseInput input = Return parsed
    /\ Single.genFile basename filename fs = (Return tt, fs')
    /\ contents fs'
       = ((filename ++ ".tsx")%string,
          Single.render (basename filename ".mist.css") parsed) :: contents fs
    /\ readFileSync filename fs' = (Return input, fs').
Proof.
  apply execTag_binding in Htag as [t Ht].
  unfold Single.genFile, ioBind, lift, Single.parseInput.
  rewrite Hread, Ht. unfold writeFileSync. rewrite Hwrite.
  eexists _, _. split; [reflexivity|]. split; [reflexivity|].
  split; [reflexivity|].
  unfold readFileSync in *. cbn [contents store readError JsObject.lookup].
  destruct (readError fs filename); [discriminate|].
  destruct (String.eqb_spec filename (filename ++ ".tsx")) as [E|_].
  - apply (f_equal String.length) in E. rewrite append_length in E.
    simpl in E. lia.
  - destruct (JsObject.lookup filename (contents fs)); [|discriminate].
    now injection Hread as ->.
Qed.

Lemma hasTagBinding_example : hasTagBinding "div:scope {}".
Proof. exists "di", "v"%char, " {}". split; reflexivity. Qed.

Lemma genFile_keeps_input_witness :
  hasTagBinding "div:scope {}"
  /\ exists parsed fs',
       Single.genFile (fun f _ => f) "x.css"
         (mkFiles [("x.css", "div:scope {}")] (fun _ => None) (fun _ => None))
       = (Return tt, fs')
       /\ readFileSync "x.css" fs' = (Return "div:scope {}", fs')
       /\ Single.parseInput "div:scope {}" = Return parsed.
Proof.
  split; [exact hasTagBinding_example|].
  destruct (genFile_keeps_input (fun f _ => f) "x.css" "div:scope {}"
              (mkFiles [("x.css", "div:scope {}")]
                       (fun _ => None) (fun _ => None))
              eq_refl hasTagBinding_example eq_refl)
    as (parsed & fs' & Hp & Hg & _ & Hi).
  exists parsed, fs'. auto.
Defined.

(** ** The tag of the single-component variant *)

Lemma tagRegex_head s t :
  Regex.tagRegex s = Some t ->
  exists post,
    s = (t ++ ":scope" ++ post)%string
    /\ t <> EmptyString /\ allChars Str.isWord t = true.
Proof.
  unfold Regex.tagRegex.
  destruct (Str.span Str.isWord s) as [tg r] eqn:Es.
  destruct (String.eqb tg "") eqn:Et; [discriminate|].
  destruct (Str.dropPrefix ":scope" r) as [post|] eqn:Ed; [|discriminate].
  intros [= <-]. apply span_spec in Es as (-> & Ha & _).
  apply dropPrefix_Some in Ed. subst r.
  apply String.eqb_neq in Et. eauto.
Qed.

Lemma tagRegex_word (t post : string) :
  t <> EmptyString -> allChars Str.isWord t = true ->
  Regex.tagRegex (t ++ ":scope" ++ post)%string = Some t.
Proof.
  intros Hne Ht. unfold Regex.tagRegex.
  rewrite (span_app Str.isWord t (":scope" ++ post)%string Ht eq_refl).
  apply String.eqb_neq in Hne. rewrite Hne.
  now rewrite dropPrefix_app.
Qed.

Lemma execTag_leftmost s t :
  Regex.execTag s = Some t ->
  exists pre suf,
    s = (pre ++ suf)%string
    /\ Regex.tagRegex suf = Some t
    /\ forall p1 p2, pre = (p1 ++ p2)%string -> p2 <> EmptyString ->
                     Regex.tagRegex (p2 ++ suf)%string = None.
Proof.
  induction s as [|c s IH]; cbn [Regex.execTag].
  - destruct (Regex.tagRegex EmptyString) eqn:E; [|discriminate].
    vm_compute in E. discriminate.
  - destruct (Regex.tagRegex (String c s)) as [t'|] eqn:E.
    + intros [= <-]. exists EmptyString, (String c s).
      split; [reflexivity|]. split; [assumption|].
      intros [|x p1] [|y p2]; try discriminate. contradiction.
    + intros H. destruct (IH H) as (pre & suf & -> & Ht & Hl).
      exists (String c pre), suf. split; [reflexivity|].
      split; [assumption|].
      intros [|x p1] p2 Hp Hne; simpl in Hp.
      * subst p2. exact E.
      * injection Hp as _ Hp. eauto.
Qed.

Lemma endsOutsideWord_false (s : string) :
  endsOutsideWord s = false ->
  exists p w, s = (p ++ String w EmptyString)%string /\ Str.isWord w = true.
Proof.
  induction s as [|c s IH]; [discriminate|].
  destruct s as [|d s].
  - simpl. intros H. apply negb_false_iff in H.
    exists EmptyString, c. auto.
  - intros H. change (endsOutsideWord (String d s) = false) in H.
    destruct (IH H) as (p & w & E & Hw).
    exists (String c p), w. simpl. now rewrite <- E.
Qed.

(** X15.  When the single-component variant parses an input, its tag is
    a whole word standing directly before the first tag binding: the
    input is some text, the tag, [:scope] and a rest, where the tag is
    a non-empty run of word characters, the text before it does not end
    with a word character and holds no tag binding itself. *)
Theorem single_tag_is_first_whole_word
  (input : string) (parsed : Single.ParsedInput)
  (Hparse : Single.parseInput input = Return parsed) :
  exists pre post,
    input = (pre ++ Single.tag parsed ++ ":scope" ++ post)%string
    /\ Single.tag parsed <> EmptyString
    /\ allChars Str.isWord (Single.tag parsed) = true
    /\ endsOutsideWord pre = true
    /\ ~ hasTagBinding pre.
Proof.
  unfold Single.parseInput in Hparse.
  destruct (Regex.execTag input) as [t|] eqn:Et; [|discriminate].
  injection Hparse as <-. simpl.
  destruct (execTag_leftmost _ _ Et) as (pre & suf & -> & Hs & Hl).
  destruct (tagRegex_head _ _ Hs) as (post & -> & Hne & Hw).
  exists pre, post. repeat split; auto.
  - destruct (endsOutsideWord pre) eqn:Ee; [reflexivity|].
    destruct (endsOutsideWord_false _ Ee) as (p & w & -> & Hww).
    specialize (Hl p (String w EmptyString) eq_refl ltac:(discriminate)).
    change (String w "" ++ t ++ ":scope" ++ post)%string
      with (String w t ++ ":scope" ++ post)%string in Hl.
    rewrite tagRegex_word in Hl; [discriminate | discriminate|].
    simpl. now rewrite Hww, Hw.
  - intros (a & w & b & -> & Hww).
    specialize (Hl a (String w (":scope" ++ b)) eq_refl ltac:(discriminate)).
    change (String w (":scope" ++ b) ++ t ++ ":scope" ++ post)%string
      with (String w EmptyString
            ++ ":scope" ++ (b ++ t ++ ":scope" ++ post))%string in Hl.
    rewrite tagRegex_word in Hl; [discriminate | discriminate|].
    simpl. now rewrite Hww.
Qed.

Lemma single_tag_is_first_whole_word_witness :
  Single.parseInput "x { } div:scope a:scope"
  = Return {| Single.tag := "div"; Single.data := [] |}
  /\ exists pre post,
       "x { } div:scope a:scope" = (pre ++ "div" ++ ":scope" ++ post)%string
       /\ endsOutsideWord pre = true.
Proof.
  split; [reflexivity|].
  destruct (single_tag_is_first_whole_word "x { } div:scope a:scope"
              {| Single.tag := "div"; Single.data := [] |} eq_refl)
    as (pre & post & E & _ & _ & He & _).
  exists pre, post. auto.
Defined.

(** ** Components without tag, inputs without scope *)

Lemma applyRules_tag rules :
  Forall noTagBinding rules ->
  forall c, tag (applyRules rules c) = tag c.
Proof.
  unfold applyRules.
  induction 1 as [|r rules Hr _ IH]; intros c; simpl; [reflexivity|].
  rewrite IH. unfold noTagBinding in Hr.
  destruct (nodeProps r) as [|prop ps]; [reflexivity|].
  unfold Builder.applyRule. now rewrite Hr.
Qed.

Lemma includes_app_r (a b t : string) :
  Str.includes b t = true -> Str.includes (a ++ b)%string t = true.
Proof.
  intros H. induction a as [|c a IH]; [assumption|].
  cbn [append Str.includes].
  destruct (Str.dropPrefix t (String c (a ++ b))); [reflexivity | exact IH].
Qed.

(** X16.  A component whose declaration is followed only by rules that
    are no tag bindings keeps the empty tag, and its definition is
    rendered with that empty tag: the prop type refers to
    [JSX.IntrinsicElements['']] and the element is closed by [</>]. *)
Theorem untagged_component_renders_empty_tag
  (name : string) (rules : list Node)
  (Hrules : Forall noTagBinding rules) :
  tag (applyRules rules freshComponent) = ""
  /\ Str.includes
       (Generator.componentTemplate name (applyRules rules freshComponent))
       "JSX.IntrinsicElements['']" = true
  /\ Str.endsWith
       (Generator.componentTemplate name (applyRules rules freshComponent))
       ("    </>" ++ Generator.nl ++ "  )" ++ Generator.nl
        ++ "}" ++ Generator.nl)%string = true.
Proof.
  pose proof (applyRules_tag rules Hrules freshComponent) as Ht.
  simpl in Ht. split; [exact Ht|].
  unfold Generator.componentTemplate. rewrite Ht. split.
  - repeat first [reflexivity | apply includes_app_r].
  - repeat first [reflexivity | apply endsWith_app_r].
Qed.

Lemma untagged_component_renders_empty_tag_witness :
  Forall noTagBinding [ruleNode "[data-x]"]
  /\ tag (applyRules [ruleNode "[data-x]"] freshComponent) = "".
Proof.
  split; [repeat constructor|].
  exact (proj1 (untagged_component_renders_empty_tag "Card"
                  [ruleNode "[data-x]"]
                  (Forall_cons (P := noTagBinding) (ruleNode "[data-x]")
                     eq_refl (Forall_nil _)))).
Defined.

Lemma run_without_scope nodes :
  Forall (fun n => nodeType n <> "@scope") nodes ->
  Builder.run Builder.initial nodes = Return Builder.initial.
Proof.
  induction 1 as [|n nodes Hn _ IH]; simpl; [reflexivity|].
  unfold Builder.step, Builder.initial.
  apply String.eqb_neq in Hn. rewrite Hn.
  destruct (String.eqb (nodeType n) "rule"); [|exact IH].
  destruct (nodeProps n); exact IH.
Qed.

(** X17.  An input whose tree holds no scope declaration is no error:
    the builder returns the empty map, and [createFile] ends as the
    write of a text that holds the banner, the import line and two
    empty lines only; the output file holds that text when the system
    accepts the write. *)
Theorem file_without_scope_has_header_only
  (compile : string -> list Element)
  (basename : string -> string -> string)
  (filename input : string) (fs : Files)
  (Hread : readFileSync filename fs = (Return input, fs))
  (Hnone : Forall (fun n => nodeType n <> "@scope") (visit (compile input)))
  (Hwrite : writeError fs (Str.replaceFirst ".css" ".tsx" filename) = None) :
  parseInput compile input = Return noComponents
  /\ createFile compile basename filename fs
     = (Return tt,
        store (Str.replaceFirst ".css" ".tsx" filename)
          ("// Generated by MistCSS, do not modify
import './" ++ basename filename ".mist.css" ++ ".mist.css'


")%string fs).
Proof.
  assert (Hp : parseInput compile input = Return noComponents).
  { unfold parseInput, Builder.parseNodes.
    now rewrite run_without_scope. }
  split; [exact Hp|].
  assert (Hr : Generator.render (basename filename ".mist.css") noComponents
               = Return ("// Generated by MistCSS, do not modify
import './" ++ basename filename ".mist.css" ++ ".mist.css'


")%string).
  { rewrite render_of_entries by constructor.
    unfold Generator.importLine. cbn [map own noComponents].
    rewrite !string_app_assoc. reflexivity. }
  unfold createFile, ioBind, lift.
  rewrite Hread, Hp. cbn iota beta. rewrite Hr.
  unfold writeFileSync. now rewrite Hwrite.
Qed.

Lemma file_without_scope_has_header_only_witness :
  parseInput
    (fun _ => [mkElement "rule" (inr ["p"])
                 (inr [mkElement "decl" (inl "color") (inl "red")])])
    "p { color: red }"
  = Return noComponents
  /\ createFile
       (fun _ => [mkElement "rule" (inr ["p"])
                    (inr [mkElement "decl" (inl "color") (inl "red")])])
       (fun f _ => "a") "a.mist.css"
       (mkFiles [("a.mist.css", "p { color: red }")]
                (fun _ => None) (fun _ => None))
     = (Return tt,
        mkFiles [("a.mist.tsx", "// Generated by MistCSS, do not modify
import './a.mist.css'


"); ("a.mist.css", "p { color: red }")]
                (fun _ => None) (fun _ => None)).
Proof.
  refine (file_without_scope_has_header_only
            (fun _ => [mkElement "rule" (inr ["p"])
                         (inr [mkElement "decl" (inl "color")
                                 (inl "red")])])
            (fun f _ => "a") "a.mist.css" "p { color: red }"
            (mkFiles [("a.mist.css", "p { color: red }")]
                     (fun _ => None) (fun _ => None))
            eq_refl _ eq_refl).
  repeat constructor; discriminate.
Defined.

(** ** The data of the single-component variant *)

Lemma single_enumStep_lookup k attribute value (d : Data) :
  JsObject.lookup k (Single.enumStep d (attribute, value))
  = if String.eqb attribute k
    then match JsObject.lookup k d with
         | Some (Enum l) => Some (Enum (appendNew l value))
         | Some Boolean => Some Boolean
         | None => if JsObject.inherited k then None else Some (Enum [value])
         end
    else JsObject.lookup k d.
Proof.
  unfold Single.enumStep.
  assert (Hset : forall (x : AttributeSpec) (d0 : Data),
             JsObject.lookup k (JsObject.set attribute x d0)
             = if String.eqb attribute k then Some x
               else JsObject.lookup k d0).
  { intros x d0. destruct (String.eqb attribute k) eqn:E.
    - apply String.eqb_eq in E. subst k. apply lookup_set_same.
    - apply String.eqb_neq in E. apply lookup_set_other. congruence. }
  unfold Builder.orAssign, JsObject.get.
  destruct (String.eqb attribute k) eqn:E.
  - apply String.eqb_eq in E. subst k.
    destruct (JsObject.lookup attribute d) as [[l|]|] eqn:El.
    + rewrite El. unfold appendNew.
      destruct (existsb (String.eqb value) l); [exact El | apply Hset].
    + rewrite El. exact El.
    + destruct (JsObject.inherited attribute) eqn:Ei.
      * rewrite ?El, ?Ei. reflexivity.
      * rewrite lookup_set_same. simpl. apply Hset.
  - destruct (JsObject.lookup attribute d) as [[l|]|] eqn:El.
    + rewrite El.
      destruct (existsb (String.eqb value) l); [reflexivity | apply Hset].
    + rewrite El. reflexivity.
    + destruct (JsObject.inherited attribute) eqn:Ei.
      * rewrite ?El, ?Ei. reflexivity.
      * rewrite lookup_set_same. simpl. rewrite !Hset. reflexivity.
Qed.

Lemma single_fold_enumStep_lookup k (ms : list (string * string)) (d : Data) :
  JsObject.inherited k = false ->
  JsObject.lookup k (fold_left Single.enumStep ms d)
  = match JsObject.lookup k d with
    | Some (Enum l) => Some (Enum (fold_left appendNew (rawValuesFor k ms) l))
    | Some Boolean => Some Boolean
    | None => match rawValuesFor k ms with
              | [] => None
              | v :: vs => Some (Enum (fold_left appendNew vs [v]))
              end
    end.
Proof.
  intros Hi. revert d.
  induction ms as [|[attribute value] ms IH]; intros d; cbn [fold_left].
  - destruct (JsObject.lookup k d) as [[l|]|]; reflexivity.
  - rewrite IH, single_enumStep_lookup. unfold rawValuesFor. simpl.
    destruct (String.eqb attribute k); simpl.
    + destruct (JsObject.lookup k d) as [[l|]|]; try reflexivity.
      rewrite Hi. reflexivity.
    + reflexivity.
Qed.

(** X18.  In the single-component variant the data of a parsed input
    are read off the matches with keys as matched: under a key that is
    no member of [Object.prototype] stands the Enum list of the values
    of the enum matches for that key, in first-seen order and without
    duplicates, if there is such a match; otherwise Boolean if a
    boolean match has that key; otherwise nothing. *)
Theorem single_data_of_matches
  (input k : string) (parsed : Single.ParsedInput)
  (Hparse : Single.parseInput input = Return parsed)
  (Hown : JsObject.inherited k = false) :
  JsObject.lookup k (Single.data parsed)
  = match rawValuesFor k (Single.enumMatches input) with
    | [] => if existsb (String.eqb k) (Single.booleanMatches input)
            then Some Boolean else None
    | vs => Some (Enum (dedup vs))
    end.
Proof.
  unfold Single.parseInput in Hparse.
  destruct (Regex.execTag input); [|discriminate].
  injection Hparse as <-. simpl.
  rewrite fold_booleanStep_lookup, single_fold_enumStep_lookup by assumption.
  rewrite Hown, andb_true_r. simpl.
  destruct (rawValuesFor k (Single.enumMatches input)) as [|v vs];
    [reflexivity|].
  rewrite appendNew_first_seen by (repeat constructor; simpl; tauto).
  reflexivity.
Qed.

Lemma single_data_of_matches_witness :
  Single.parseInput "a:scope [data-size=sm][data-size='lg'][data-size=sm]"
  = Return {| Single.tag := "a";
              Single.data := [("size", Enum ["sm"; "lg"])] |}
  /\ JsObject.inherited "size" = false
  /\ JsObject.lookup "size" [("size", Enum ["sm"; "lg"])]
     = Some (Enum ["sm"; "lg"]).
Proof.
  split; [reflexivity|]. split; [reflexivity|].
  exact (single_data_of_matches
           "a:scope [data-size=sm][data-size='lg'][data-size=sm]" "size"
           {| Single.tag := "a";
              Single.data := [("size", Enum ["sm"; "lg"])] |}
           eq_refl eq_refl).
Defined.

(** ** Reading back a selector made of matchers *)

Lemma concat_empty_cons (x : string) (l : list string) :
  String.concat EmptyString (x :: l)
  = (x ++ String.concat EmptyString l)%string.
Proof.
  destruct l; simpl; [now rewrite string_app_nil_r | reflexivity].
Qed.

Section Scanning.
Context {A : Type}.
Variable execAt : string -> option (A * nat).
Hypothesis needsBracket :
  forall c s, notBracket c = true -> execAt (String c s) = None.

Lemma matchAllFrom_skip (x rest : string) :
  Regex.matchAllFrom execAt (String.length x) (x ++ rest)%string
  = Regex.matchAllFrom execAt 0 rest.
Proof.
  induction x as [|c x IH]; simpl; [|exact IH].
  destruct rest; reflexivity.
Qed.

Lemma matchAllFrom_plain (x rest : string) :
  allChars notBracket x = true ->
  Regex.matchAllFrom execAt 0 (x ++ rest)%string
  = Regex.matchAllFrom execAt 0 rest.
Proof.
  induction x as [|c x IH]; simpl; intros H; [reflexivity|].
  apply andb_prop in H as [Hc Hx].
  now rewrite (needsBracket c _ Hc), IH.
Qed.

Lemma matchAllFrom_hit c (x rest : string) (m : A) :
  execAt (String c (x ++ rest)) = Some (m, S (String.length x)) ->
  Regex.matchAllFrom execAt 0 (String c (x ++ rest))
  = m :: Regex.matchAllFrom execAt 0 rest.
Proof.
  intros H. cbn [Regex.matchAllFrom]. rewrite H. cbn [pred].
  now rewrite matchAllFrom_skip.
Qed.

Lemma matchAllFrom_miss c (x rest : string) :
  execAt (String c (x ++ rest)) = None ->
  allChars notBracket x = true ->
  Regex.matchAllFrom execAt 0 (String c (x ++ rest))
  = Regex.matchAllFrom execAt 0 rest.
Proof.
  intros H Hx. cbn [Regex.matchAllFrom]. rewrite H.
  now apply matchAllFrom_plain.
Qed.

End Scanning.

Lemma enum_needs_bracket c s :
  notBracket c = true -> Regex.enumDataAttributeRegex (String c s) = None.
Proof.
  unfold notBracket, Regex.enumDataAttributeRegex. intros H.
  apply negb_true_iff in H. cbn [Str.dropPrefix].
  now rewrite Ascii.eqb_sym, H.
Qed.

Lemma boolean_needs_bracket c s :
  notBracket c = true -> Regex.booleanDataAttributeRegex (String c s) = None.
Proof.
  unfold notBracket, Regex.booleanDataAttributeRegex. intros H.
  apply negb_true_iff in H. cbn [Str.dropPrefix].
  now rewrite Ascii.eqb_sym, H.
Qed.

Lemma attributeChar_notBracket c :
  Regex.isAttributeChar c = true -> notBracket c = true.
Proof.
  destruct c as [[] [] [] [] [] [] [] []]; vm_compute; congruence.
Qed.

Lemma enum_at_enum_text (a v rest : string) :
  a <> EmptyString -> allChars Regex.isAttributeChar a = true ->
  allChars Regex.notQuote v = true ->
  Regex.enumDataAttributeRegex
    ("[data-" ++ a ++ "='" ++ v ++ "']" ++ rest)%string
  = Some ((a, v), 6 + String.length a + 2 + String.length v + 2).
Proof.
  intros Hne Ha Hv. apply String.eqb_neq in Hne.
  unfold Regex.enumDataAttributeRegex.
  rewrite dropPrefix_app.
  rewrite (span_app _ a ("='" ++ v ++ "']" ++ rest)%string Ha eq_refl).
  rewrite Hne, dropPrefix_app.
  rewrite (span_app _ v ("']" ++ rest)%string Hv eq_refl).
  now rewrite dropPrefix_app.
Qed.

Lemma boolean_at_enum_text (a v rest : string) :
  allChars Regex.isAttributeChar a = true ->
  Regex.booleanDataAttributeRegex
    ("[data-" ++ a ++ "='" ++ v ++ "']" ++ rest)%string = None.
Proof.
  intros Ha. unfold Regex.booleanDataAttributeRegex.
  rewrite dropPrefix_app.
  rewrite (span_app _ a ("='" ++ v ++ "']" ++ rest)%string Ha eq_refl).
  destruct (String.eqb a ""); reflexivity.
Qed.

Lemma boolean_at_boolean_text (a rest : string) :
  a <> EmptyString -> allChars Regex.isAttributeChar a = true ->
  Regex.enumDataAttributeRegex ("[data-" ++ a ++ "]" ++ rest)%string = None
  /\ Regex.booleanDataAttributeRegex ("[data-" ++ a ++ "]" ++ rest)%string
     = Some (a, 6 + String.length a).
Proof.
  intros Hne Ha. apply String.eqb_neq in Hne.
  unfold Regex.enumDataAttributeRegex, Regex.booleanDataAttributeRegex.
  rewrite dropPrefix_app.
  rewrite (span_app _ a ("]" ++ rest)%string Ha eq_refl).
  rewrite Hne. split; reflexivity.
Qed.

Lemma enum_text_shape (a v rest : string) :
  (matcherText (a, Some v) ++ rest)%string
  = String "[" (("data-" ++ a ++ "='" ++ v ++ "']") ++ rest)
  /\ String "[" (("data-" ++ a ++ "='" ++ v ++ "']") ++ rest)
     = ("[data-" ++ a ++ "='" ++ v ++ "']" ++ rest)%string
  /\ S (String.length ("data-" ++ a ++ "='" ++ v ++ "']"))
     = 6 + String.length a + 2 + String.length v + 2.
Proof.
  split; [reflexivity|]. split.
  - do 3 (cbn [append]; rewrite ?string_app_assoc). reflexivity.
  - rewrite !append_length. simpl. lia.
Qed.

Lemma boolean_text_shape (a rest : string) :
  (matcherText (a, None) ++ rest)%string
  = String "[" (("data-" ++ a) ++ "]" ++ rest)
  /\ String "[" (("data-" ++ a) ++ "]" ++ rest)
     = ("[data-" ++ a ++ "]" ++ rest)%string
  /\ S (String.length ("data-" ++ a)) = 6 + String.length a.
Proof.
  split; [|split].
  - cbn [matcherText append]. now rewrite string_app_assoc.
  - reflexivity.
  - rewrite !append_length. simpl. lia.
Qed.

Lemma scan_matcher_text (m : Matcher) (rest : string) :
  readable m ->
  Regex.matchAllFrom Regex.enumDataAttributeRegex 0
    (matcherText m ++ rest)%string
  = enumsOf [m] ++ Regex.matchAllFrom Regex.enumDataAttributeRegex 0 rest
  /\ Regex.matchAllFrom Regex.booleanDataAttributeRegex 0
       (matcherText m ++ rest)%string
     = booleansOf [m]
       ++ Regex.matchAllFrom Regex.booleanDataAttributeRegex 0 rest.
Proof.
  destruct m as [a [v|]]; intros (Hne & Ha & Hv); simpl in Hne, Ha, Hv;
    pose proof (allChars_weaken _ _ a attributeChar_notBracket Ha) as Hab.
  - destruct Hv as [Hq Hb].
    destruct (enum_text_shape a v rest) as (E1 & E2 & E3).
    rewrite E1. split.
    + apply matchAllFrom_hit. rewrite E2, E3.
      now apply enum_at_enum_text.
    + apply (matchAllFrom_miss _ boolean_needs_bracket).
      * rewrite E2. now apply boolean_at_enum_text.
      * rewrite !allChars_app, Hab, Hb. reflexivity.
  - destruct (boolean_text_shape a rest) as (E1 & E2 & E3).
    destruct (boolean_at_boolean_text a rest Hne Ha) as [He Hbo].
    rewrite E1. split.
    + cbn [enumsOf flat_map app]. rewrite <- string_app_assoc.
      apply (matchAllFrom_miss _ enum_needs_bracket).
      * rewrite string_app_assoc, E2. exact He.
      * rewrite !allChars_app, Hab. reflexivity.
    + rewrite (matchAllFrom_hit _ "[" ("data-" ++ a) ("]" ++ rest)%string a).
      * cbn [booleansOf flat_map app]. f_equal.
      * rewrite E2, E3. exact Hbo.
Qed.

(** X19.  A selector written as a leading text without opening bracket
    followed by readable attribute matchers is read back exactly: the
    enum scan returns the matchers with a value, name and value as
    written and in order, and the boolean scan returns the names of the
    bare matchers, in order. *)
Theorem matchers_round_trip (lead : string) (ms : list Matcher)
  (Hlead : allChars notBracket lead = true)
  (Hms : Forall readable ms) :
  Regex.enumMatches (selectorOf lead ms) = enumsOf ms
  /\ Regex.booleanMatches (selectorOf lead ms) = booleansOf ms.
Proof.
  unfold selectorOf, Regex.enumMatches, Regex.booleanMatches, Regex.matchAll.
  rewrite (matchAllFrom_plain _ enum_needs_bracket _ _ Hlead).
  rewrite (matchAllFrom_plain _ boolean_needs_bracket _ _ Hlead).
  induction Hms as [|m ms Hm _ [IHe IHb]]; [split; reflexivity|].
  cbn [map]. rewrite concat_empty_cons.
  destruct (scan_matcher_text m
              (String.concat EmptyString (map matcherText ms)) Hm)
    as [He Hb].
  rewrite He, Hb, IHe, IHb.
  unfold enumsOf, booleansOf. cbn [flat_map].
  rewrite !app_nil_r. split; reflexivity.
Qed.

Lemma readable_examples :
  Forall readable [("size", Some "sm"); ("disabled", None);
                   ("is-active", Some "on")].
Proof.
  repeat constructor; simpl; try discriminate; reflexivity.
Qed.

Lemma matchers_round_trip_witness :
  allChars notBracket "button:scope" = true
  /\ Forall readable [("size", Some "sm"); ("disabled", None);
                      ("is-active", Some "on")]
  /\ Regex.enumMatches
       "button:scope[data-size='sm'][data-disabled][data-is-active='on']"
     = [("size", "sm"); ("is-active", "on")]
  /\ Regex.booleanMatches
       "button:scope[data-size='sm'][data-disabled][data-is-active='on']"
     = ["disabled"].
Proof.
  split; [reflexivity|]. split; [exact readable_examples|].
  exact (matchers_round_trip "button:scope"
           [("size", Some "sm"); ("disabled", None); ("is-active", Some "on")]
           eq_refl readable_examples).
Defined.

(** ** The single-component variant without attribute matcher *)

Lemma single_enum_needs_bracket c s :
  notBracket c = true -> Single.enumDataAttributeRegex (String c s) = None.
Proof.
  unfold notBracket, Single.enumDataAttributeRegex, Single.literal.
  intros H. apply negb_true_iff in H. cbn [Str.dropPrefix].
  now rewrite Ascii.eqb_sym, H.
Qed.

Lemma single_boolean_needs_bracket c s :
  notBracket c = true -> Single.booleanDataAttributeRegex (String c s) = None.
Proof.
  unfold notBracket, Single.booleanDataAttributeRegex, Single.literal.
  intros H. apply negb_true_iff in H. cbn [Str.dropPrefix].
  now rewrite Ascii.eqb_sym, H.
Qed.

Lemma includes_prefix (t rest : string) :
  Str.includes (t ++ rest)%string t = true.
Proof.
  destruct t as [|c t]; [destruct rest; reflexivity|].
  cbn [append Str.includes].
  change (String c (t ++ rest))%string with (String c t ++ rest)%string.
  now rewrite dropPrefix_app.
Qed.

(** X20.  In the single-component variant an input with a scope tag but
    without any opening bracket has no data, and the component rendered
    from it has an empty item in its parameter list and an opening tag
    that ends in a blank: the two joins over the keys are empty while
    the separators around them are written regardless. *)
Theorem single_without_matchers_renders_empty_item
  (name input : string) (parsed : Single.ParsedInput)
  (Hplain : allChars notBracket input = true)
  (Hparse : Single.parseInput input = Return parsed) :
  Single.data parsed = []
  /\ Str.includes (Single.render name parsed)
       "({ children, , ...props }: Props) {" = true
  /\ Str.includes (Single.render name parsed)
       ("<" ++ Single.tag parsed ++ " {...props} >")%string = true.
Proof.
  unfold Single.parseInput in Hparse.
  destruct (Regex.execTag input) as [t|]; [|discriminate].
  injection Hparse as <-.
  assert (He : Single.enumMatches input = []).
  { unfold Single.enumMatches, Regex.matchAll.
    rewrite <- (string_app_nil_r input).
    now rewrite (matchAllFrom_plain _ single_enum_needs_bracket _ _ Hplain). }
  assert (Hb : Single.booleanMatches input = []).
  { unfold Single.booleanMatches, Regex.matchAll.
    rewrite <- (string_app_nil_r input).
    now rewrite (matchAllFrom_plain _ single_boolean_needs_bracket _ _ Hplain). }
  rewrite He, Hb. cbn [fold_left Single.data Single.tag].
  split; [reflexivity|].
  unfold Single.render, Single.renderProps.
  cbn [Single.data Single.tag JsObject.keys map Str.join String.concat].
  split.
  - repeat first [reflexivity | apply includes_app_r].
  - change ("    <" ++ ?x)%string with ("    " ++ ("<" ++ x))%string.
    repeat lazymatch goal with
           | |- Str.includes ("<" ++ _)%string _ = true => fail
           | _ => apply includes_app_r
           end.
    match goal with
    | |- Str.includes (_ ++ _ ++ _ ++ _ ++ _ ++ ?R)%string _ = true =>
        replace ("<" ++ t ++ " {...props} " ++ "" ++ ">" ++ R)%string
          with (("<" ++ t ++ " {...props} >") ++ R)%string
          by (rewrite !string_app_assoc; reflexivity)
    end.
    apply includes_prefix.
Qed.

Lemma single_without_matchers_renders_empty_item_witness :
  allChars notBracket "div:scope {}" = true
  /\ Single.parseInput "div:scope {}"
     = Return {| Single.tag := "div"; Single.data := [] |}
  /\ Str.includes
       (Single.render "Box" {| Single.tag := "div"; Single.data := [] |})
       "<div {...props} >" = true.
Proof.
  split; [reflexivity|]. split; [reflexivity|].
  exact (proj2 (proj2 (single_without_matchers_renders_empty_item
                         "Box" "div:scope {}"
                         {| Single.tag := "div"; Single.data := [] |}
                         eq_refl eq_refl))).
Defined.
